(** * Venn_app: the comparison-and-report engine of [Venn_app.py]

    A shallow embedding of the helpers ([sanitize_filename], [compute_sets],
    [to_results_df]) and of the callbacks that act on the process-wide
    [AppState] ([load_workbook], [update_alpha_labely], [prev_sheet],
    [next_sheet], [save_all_sheets], ...), followed by the properties of the
    specification that concern them.

    Conventions.
    - A Python [str] is the list of its Unicode code points ([pystr]); this is
      what [len], slicing, [str.strip], [re.sub] and the comparison used by
      [sorted] all work on.
    - A Python [set] of strings is a [gset pystr]; a [dict] keyed by sheet
      names is a [gmap pystr _]; the dict literal handed to [pd.DataFrame],
      whose key order becomes the column order, is an insertion-ordered
      association list with unique keys.
    - Python [float]s are the kernel's binary64 floats.
    - Callbacks run in a small monad threading the [AppState], the raised
      exception (if any) and the log of externally visible effects. *)

From Stdlib Require Import Floats.PrimFloat.
From Stdlib Require Import Strings.String Strings.Ascii.
From stdpp Require Import gmap list sorting.

Set Default Proof Using "Type".
Set Warnings "-inexact-float".
Local Open Scope N_scope.

(** ** Python strings *)

Abbreviation pystr := (list N).

(** Code points of an ASCII literal, to write Python string constants. *)
Definition py (s : string) : pystr := N_of_ascii <$> list_ascii_of_string s.
Arguments py : simpl never.

Definition underscore : N := 95.
Definition hyphen : N := 45.
Definition period : N := 46.
Definition space : N := 32.

(** [str.isspace] on one code point: the characters [str.strip()] removes. *)
Definition is_space (c : N) : bool :=
  ((9 <=? c) && (c <=? 13)) || ((28 <=? c) && (c <=? 32))
  || (c =? 133) || (c =? 160) || (c =? 5760)
  || ((8192 <=? c) && (c <=? 8202))
  || (c =? 8232) || (c =? 8233) || (c =? 8239) || (c =? 8287) || (c =? 12288).

Fixpoint lstrip (s : pystr) : pystr :=
  match s with
  | [] => []
  | c :: s' => if is_space c then lstrip s' else s
  end.

Definition rstrip (s : pystr) : pystr := reverse (lstrip (reverse s)).

(** [s.strip()] *)
Definition strip (s : pystr) : pystr := rstrip (lstrip s).

(** [x or ""] for an argument that may be [None]. *)
Definition or_empty (s : option pystr) : pystr := default [] s.

(** Comparison of [str] values as [sorted] uses it: lexicographic on code
    points, a proper prefix being smaller. *)
Fixpoint str_leb (s t : pystr) : bool :=
  match s, t with
  | [], _ => true
  | _ :: _, [] => false
  | a :: s', b :: t' =>
      if a <? b then true else if a =? b then str_leb s' t' else false
  end.

Definition str_le (s t : pystr) : Prop := str_leb s t = true.

#[global] Instance str_le_dec : RelDecision str_le :=
  λ s t, decide (str_leb s t = true).

(** [str(n)] for a non-negative [int]. *)
Fixpoint digits (u : Decimal.uint) : pystr :=
  match u with
  | Decimal.Nil => []
  | Decimal.D0 u => 48 :: digits u
  | Decimal.D1 u => 49 :: digits u
  | Decimal.D2 u => 50 :: digits u
  | Decimal.D3 u => 51 :: digits u
  | Decimal.D4 u => 52 :: digits u
  | Decimal.D5 u => 53 :: digits u
  | Decimal.D6 u => 54 :: digits u
  | Decimal.D7 u => 55 :: digits u
  | Decimal.D8 u => 56 :: digits u
  | Decimal.D9 u => 57 :: digits u
  end.

Definition str_of_nat (n : nat) : pystr := digits (Nat.to_uint n).

(** ** [sanitize_filename] *)

Section Sanitize.

(** [str.isalnum] on one code point: the Unicode table behind [\w]. *)
Variable is_alnum : N → bool.

(** [\w] of [re] on [str] patterns: alphanumeric or underscore. *)
Definition is_word (c : N) : bool := is_alnum c || (c =? underscore).

(** Membership in the class [[\w\-. ]]. *)
Definition allowed (c : N) : bool :=
  is_word c || (c =? hyphen) || (c =? period) || (c =? space).

(** [re.sub(r"[^\w\-. ]+", "_", s)]: every maximal run of characters
    outside the class becomes one underscore.  [in_run] says that the
    previous character was part of the run being replaced. *)
Fixpoint re_sub_from (in_run : bool) (s : pystr) : pystr :=
  match s with
  | [] => []
  | c :: s' =>
      if allowed c then c :: re_sub_from false s'
      else if in_run then re_sub_from true s'
      else underscore :: re_sub_from true s'
  end.

Definition re_sub (s : pystr) : pystr := re_sub_from false s.

Definition sanitize_filename (s : option pystr) : pystr :=
  let s := strip (or_empty s) in
  let s := re_sub s in
  if (60 <? length s)%nat then take 60 s else s.

(** [sanitize_filename(name)[:31] or f"Sheet{done+1}"] *)
Definition safe_sheet (name : pystr) (done : nat) : pystr :=
  let s := take 31 (sanitize_filename (Some name)) in
  match s with
  | [] => py "Sheet" ++ str_of_nat (done + 1)
  | _ => s
  end.

End Sanitize.


(** ** Exceptions *)

Inductive exn_kind :=
  KeyError | IndexError | ValueError | ZeroDivisionError | TypeError | OSError
| LibraryError.

(** A raised exception: its class and [str(e)]. *)
Inductive exn := Exn (kind : exn_kind) (msg : pystr).

Definition exn_msg (e : exn) : pystr := let 'Exn _ m := e in m.

Inductive outcome (A : Type) := Ok (a : A) | Raise (e : exn).
Arguments Ok {A} a.
Arguments Raise {A} e.

(** ** The result table: [to_results_df] *)

(** A [dict] with [str] keys, in insertion order.  Assigning to a key that
    is already present replaces its value and keeps its position. *)
Definition dict_set {V} (k : pystr) (v : V) (d : list (pystr * V)) : list (pystr * V) :=
  if decide (k ∈ d.*1)
  then (λ kv, if decide (kv.1 = k) then (kv.1, v) else kv) <$> d
  else d ++ [(k, v)].

(** A dict display [{k1: v1, k2: v2, ...}]: the items are stored from left
    to right. *)
Definition dict_literal {V} (items : list (pystr * V)) : list (pystr * V) :=
  foldl (λ d kv, dict_set kv.1 kv.2 d) [] items.

(** The frame built by [to_results_df]: named columns of [str] cells. *)
Record ResultFrame := { rf_columns : list (pystr * list pystr) }.

Definition rf_names (t : ResultFrame) : list pystr := (rf_columns t).*1.

(** [len(df)]: the number of rows. *)
Definition rf_nrows (t : ResultFrame) : nat :=
  match rf_columns t with
  | [] => 0
  | (_, c) :: _ => length c
  end.

(** [pd.DataFrame(data)] for a dict of lists: one column per key, in key
    order; lists of different lengths are refused. *)
Definition pd_DataFrame (data : list (pystr * list pystr)) : outcome ResultFrame :=
  match data with
  | [] => Ok {| rf_columns := [] |}
  | (_, c) :: rest =>
      if forallb (λ kv, length kv.2 =? length c)%nat rest
      then Ok {| rf_columns := data |}
      else Raise (Exn ValueError (py "All arrays must be of the same length"))
  end.

(** [L + [""]*(max_len - len(L))]; a non-positive repeat count gives the
    empty list, as truncated subtraction does here. *)
Definition pad (max_len : nat) (L : list pystr) : list pystr :=
  L ++ replicate (max_len - length L) [].

Definition to_results_df (la lb : pystr) (unique_A unique_B shared : list pystr)
  : outcome ResultFrame :=
  let max_len := Nat.max (length unique_A) (Nat.max (length unique_B) (length shared)) in
  pd_DataFrame (dict_literal
    [ (py "Unique to " ++ la, pad max_len unique_A);
      (py "Unique to " ++ lb, pad max_len unique_B);
      (py "Shared", pad max_len shared) ]).

(** ** The set comparator: [compute_sets] *)

(** [sorted(X)] for a set of strings. *)
Definition py_sorted (X : gset pystr) : list pystr := merge_sort str_le (elements X).

Definition nl : pystr := [10].

(** [str(z)] for an [int]. *)
Definition str_of_Z (z : Z) : pystr :=
  if (z <? 0)%Z then py "-" ++ str_of_nat (Z.to_nat (- z)) else str_of_nat (Z.to_nat z).

(** ["\n".join(L)] *)
Fixpoint join_lines (L : list pystr) : pystr :=
  match L with
  | [] => []
  | [s] => s
  | s :: L' => s ++ nl ++ join_lines L'
  end.

(** [l[i]] for a list and an [int]: negative indices count from the end. *)
Definition py_index {A} (l : list A) (i : Z) : outcome A :=
  let n := Z.of_nat (length l) in
  let j := if (i <? 0)%Z then (i + n)%Z else i in
  match (if (0 <=? j)%Z then l !! Z.to_nat j else None) with
  | Some x => Ok x
  | None => Raise (Exn IndexError (py "list index out of range"))
  end.

(** [d[k]] for a dict keyed by strings. *)
Definition py_getitem {V} (d : gmap pystr V) (k : pystr) : outcome V :=
  match d !! k with
  | Some v => Ok v
  | None => Raise (Exn KeyError (py "'" ++ k ++ py "'"))
  end.

(** What [draw_symmetric] puts on the axes. *)
Inductive shape :=
| Circle (cx cy r : float) (alpha : float) (facecolor : pystr)
| Text (x y : float) (s : pystr) (bold : bool).

Definition draw_symmetric (setA setB : gset pystr) (la lb colorA colorB : pystr)
    (alpha label_y : float) : list shape :=
  let r := 1.5%float in
  let cx1 := (- 0.9)%float in let cy1 := 0%float in
  let cx2 := 0.9%float in let cy2 := 0%float in
  let unique_A := size (setA ∖ setB) in
  let unique_B := size (setB ∖ setA) in
  let shared := size (setA ∩ setB) in
  [ Circle cx1 cy1 r alpha colorA;
    Circle cx2 cy2 r alpha colorB;
    Text cx1 (r * label_y)%float la false;
    Text cx2 (r * label_y)%float lb false;
    Text (cx1 - 0.4)%float 0%float (str_of_nat unique_A) false;
    Text (cx2 + 0.4)%float 0%float (str_of_nat unique_B) false;
    Text 0%float 0%float (str_of_nat shared) true ].

(** Effects visible outside the process: message boxes, widget updates,
    files and the combined-workbook writer. *)
Inductive event :=
| ShowError (title msg : pystr)
| ShowWarning (title msg : pystr)
| ShowInfo (title msg : pystr)
| LabelFile (text : pystr)
| LabelSheet (text : pystr)
| EntryLabels (la lb : pystr)
| LabelPreview (text : pystr)
| CanvasDraw (d : list shape)
| OutputBox (text : pystr)
| ButtonColor (left : bool) (c : pystr)
| MakeDirs (path : pystr)
| SavePng (path : pystr) (d : list shape)
| SaveCsv (path : pystr) (t : ResultFrame)
| OpenWriter (path : pystr)
| ToExcel (sheet_name : pystr) (t : ResultFrame)
| CloseWriter.

(** The calls into the operating system and into the spreadsheet library
    made while saving: each either succeeds or raises. *)
Record Runtime := {
  makedirs_ok : pystr → bool;
  savefig_ok : pystr → bool;
  to_csv_ok : pystr → bool;
  (** [pd.ExcelWriter(path, engine="openpyxl")] *)
  excel_writer_ok : pystr → bool;
  (** [df.to_excel(writer, sheet_name=...)] for the worksheet processed at a
      given position *)
  to_excel_ok : nat → pystr → bool;
  writer_close_ok : bool
}.

Section App.

(** The objects found in worksheet cells and headers, with what pandas and
    Python do on them: [isna] (what [dropna] drops) and [str]. *)
Context {value : Type}.
Variable isna : value → bool.
Variable py_str : value → pystr.

Variable is_alnum : N → bool.

(** [os.path] of the platform. *)
Variable os_path_dirname : pystr → pystr.
Variable os_path_basename : pystr → pystr.
Variable os_path_join : pystr → pystr → pystr.

(** [series.dropna().astype(str)] *)
Definition dropna_astype_str (series : list value) : list pystr :=
  py_str <$> List.filter (λ v, negb (isna v)) series.

Definition compute_sets (seriesA seriesB : list value)
  : gset pystr * gset pystr * list pystr * list pystr * list pystr :=
  let setA : gset pystr := list_to_set (dropna_astype_str seriesA) in
  let setB : gset pystr := list_to_set (dropna_astype_str seriesB) in
  let unique_A := py_sorted (setA ∖ setB) in
  let unique_B := py_sorted (setB ∖ setA) in
  let shared := py_sorted (setA ∩ setB) in
  (setA, setB, unique_A, unique_B, shared).

(** A parsed worksheet: its columns from left to right, each with its
    header and its cells. *)
Record DataFrame := { df_columns : list (value * list value) }.

(** [df.shape[1]] *)
Definition ncols (df : DataFrame) : nat := length (df_columns df).

(** [df.columns[i]] *)
Definition column_label (df : DataFrame) (i : nat) : outcome value :=
  match df_columns df !! i with
  | Some c => Ok c.1
  | None => Raise (Exn IndexError (py "index out of bounds"))
  end.

(** [df.iloc[:, i]] *)
Definition iloc_col (df : DataFrame) (i : nat) : outcome (list value) :=
  match df_columns df !! i with
  | Some c => Ok c.2
  | None => Raise (Exn IndexError (py "single positional indexer is out-of-bounds"))
  end.

(** [pd.ExcelFile]: the worksheet names and what [parse] gives for each. *)
Record Workbook := {
  sheet_names : list pystr;
  parse : pystr → outcome DataFrame
}.

(** *** App state *)

Record AppState := {
  wb_path : option pystr;
  sheets : list pystr;
  dfs : gmap pystr DataFrame;
  labels : gmap pystr (pystr * pystr);
  headers : gmap pystr (pystr * pystr);
  idx : Z;
  colorA : pystr;
  colorB : pystr;
  alpha : float;
  label_y : float
}.

(** [AppState()] *)
Definition AppState_init : AppState := {|
  wb_path := None; sheets := []; dfs := ∅; labels := ∅; headers := ∅; idx := 0;
  colorA := py "#f4c27a"; colorB := py "#a6d49f";
  alpha := 0.45%float; label_y := 1.12%float
|}.

Definition has_data (S : AppState) : bool := negb (size (dfs S) =? 0)%nat.

Definition set_wb_path v S := {| wb_path := v; sheets := sheets S; dfs := dfs S;
  labels := labels S; headers := headers S; idx := idx S; colorA := colorA S;
  colorB := colorB S; alpha := alpha S; label_y := label_y S |}.
Definition set_sheets v S := {| wb_path := wb_path S; sheets := v; dfs := dfs S;
  labels := labels S; headers := headers S; idx := idx S; colorA := colorA S;
  colorB := colorB S; alpha := alpha S; label_y := label_y S |}.
Definition set_dfs v S := {| wb_path := wb_path S; sheets := sheets S; dfs := v;
  labels := labels S; headers := headers S; idx := idx S; colorA := colorA S;
  colorB := colorB S; alpha := alpha S; label_y := label_y S |}.
Definition set_labels v S := {| wb_path := wb_path S; sheets := sheets S; dfs := dfs S;
  labels := v; headers := headers S; idx := idx S; colorA := colorA S;
  colorB := colorB S; alpha := alpha S; label_y := label_y S |}.
Definition set_headers v S := {| wb_path := wb_path S; sheets := sheets S; dfs := dfs S;
  labels := labels S; headers := v; idx := idx S; colorA := colorA S;
  colorB := colorB S; alpha := alpha S; label_y := label_y S |}.
Definition set_idx v S := {| wb_path := wb_path S; sheets := sheets S; dfs := dfs S;
  labels := labels S; headers := headers S; idx := v; colorA := colorA S;
  colorB := colorB S; alpha := alpha S; label_y := label_y S |}.
Definition set_colorA v S := {| wb_path := wb_path S; sheets := sheets S; dfs := dfs S;
  labels := labels S; headers := headers S; idx := idx S; colorA := v;
  colorB := colorB S; alpha := alpha S; label_y := label_y S |}.
Definition set_colorB v S := {| wb_path := wb_path S; sheets := sheets S; dfs := dfs S;
  labels := labels S; headers := headers S; idx := idx S; colorA := colorA S;
  colorB := v; alpha := alpha S; label_y := label_y S |}.
Definition set_alpha v S := {| wb_path := wb_path S; sheets := sheets S; dfs := dfs S;
  labels := labels S; headers := headers S; idx := idx S; colorA := colorA S;
  colorB := colorB S; alpha := v; label_y := label_y S |}.
Definition set_label_y v S := {| wb_path := wb_path S; sheets := sheets S; dfs := dfs S;
  labels := labels S; headers := headers S; idx := idx S; colorA := colorA S;
  colorB := colorB S; alpha := alpha S; label_y := v |}.

(** *** The monad of callbacks

    A computation reads and updates the one [AppState] [S], may raise,
    and logs its effects; what was assigned and logged before an
    exception stays. *)

Definition M (A : Type) : Type := AppState → outcome A * AppState * list event.

#[global] Instance M_ret : MRet M := λ A a S, (Ok a, S, []).

#[global] Instance M_bind : MBind M := λ A B k m S,
  match m S with
  | (Ok a, S1, ev1) => let '(r, S2, ev2) := k a S1 in (r, S2, ev1 ++ ev2)
  | (Raise e, S1, ev1) => (Raise e, S1, ev1)
  end.

Definition get : M AppState := λ S, (Ok S, S, []).
Definition modify (f : AppState → AppState) : M unit := λ S, (Ok tt, f S, []).
Definition emit (e : event) : M unit := λ S, (Ok tt, S, [e]).
Definition raise {A} (e : exn) : M A := λ S, (Raise e, S, []).
Definition lift {A} (o : outcome A) : M A := λ S, (o, S, []).

Definition run {A} (m : M A) (S : AppState) : outcome A * AppState * list event := m S.

(** [try: body / except Exception as e: handler(e)] *)
Definition try_except {A} (body : M A) (handler : exn → M A) : M A := λ S,
  match body S with
  | (Raise e, S1, ev1) => let '(r, S2, ev2) := handler e S1 in (r, S2, ev1 ++ ev2)
  | r => r
  end.

(** [for x in l: body(x)] *)
Fixpoint for_each {A} (l : list A) (body : A → M unit) : M unit :=
  match l with
  | [] => mret tt
  | x :: l' => body x;; for_each l' body
  end.

(** An external call that succeeds, with its effect, or raises. *)
Definition extern (ok : bool) (ev : event) (e : exn) : M unit :=
  if ok then emit ev else raise e.

(** *** Callbacks *)

(** The text shown for one list in the output panel. *)
Definition preview_list (name_tag : pystr) (L : list pystr) : pystr :=
  let head := take 50 L in
  let extra :=
    if (50 <? length L)%nat
    then nl ++ [8230] ++ py "(+" ++ str_of_nat (length L - 50) ++ py " more)"
    else [] in
  name_tag ++ py " (" ++ str_of_nat (length L) ++ py "):" ++ nl
    ++ join_lines head ++ extra ++ nl ++ nl.

Definition refresh_sheet_ui : M unit :=
  S ← get;
  if negb (has_data S) then mret tt else
  name ← lift (py_index (sheets S) (idx S));
  df ← lift (py_getitem (dfs S) name);
  '(la, lb) ← lift (py_getitem (labels S) name);
  emit (LabelFile (py "Workbook: " ++
          match wb_path S with
          | Some ((_ :: _) as p) => os_path_basename p
          | _ => []
          end));;
  emit (LabelSheet (py "Sheet [" ++ str_of_Z (idx S + 1) ++ py "/"
          ++ str_of_nat (length (sheets S)) ++ py "]: " ++ name));;
  emit (EntryLabels la lb);;
  colA ← lift (iloc_col df 0);
  colB ← lift (iloc_col df 1);
  let '(setA, setB, uA, uB, sh) := compute_sets colA colB in
  emit (LabelPreview (py "Preview " ++ [8212] ++ py " Unique A: " ++ str_of_nat (length uA)
          ++ py " | Shared: " ++ str_of_nat (length sh)
          ++ py " | Unique B: " ++ str_of_nat (length uB)));;
  emit (CanvasDraw (draw_symmetric setA setB la lb (colorA S) (colorB S) (alpha S) (label_y S)));;
  emit (OutputBox (preview_list (py "Unique to " ++ la) uA
          ++ preview_list (py "Unique to " ++ lb) uB
          ++ preview_list (py "Shared") sh)).

(** The body of the loop of [load_workbook] for one worksheet name. *)
Definition load_sheet (wb : Workbook) (name : pystr) : M unit :=
  df ← lift (parse wb name);
  if (2 <=? ncols df)%nat then
    modify (λ S, set_sheets (sheets S ++ [name]) S);;
    modify (λ S, set_dfs (<[name := df]> (dfs S)) S);;
    c0 ← lift (column_label df 0);
    c1 ← lift (column_label df 1);
    let hdrA := py_str c0 in
    let hdrB := py_str c1 in
    modify (λ S, set_headers (<[name := (hdrA, hdrB)]> (headers S)) S);;
    modify (λ S, set_labels (<[name := (hdrA, hdrB)]> (labels S)) S)
  else mret tt.

(** [path] is what the file dialog returned (empty when cancelled) and
    [excel_file] what [pd.ExcelFile(path)] does. *)
Definition load_workbook (path : pystr) (excel_file : outcome Workbook) : M unit :=
  match path with
  | [] => mret tt
  | _ :: _ =>
    try_except
      (wb ← lift excel_file;
       modify (set_wb_path (Some path));;
       modify (set_sheets []);;
       modify (set_dfs ∅);;
       modify (set_labels ∅);;
       modify (set_headers ∅);;
       for_each (sheet_names wb) (load_sheet wb);;
       S ← get;
       match sheets S with
       | [] =>
           emit (ShowError (py "No usable sheets")
                   (py "No sheets with at least two columns (A & B) found."))
       | _ :: _ =>
           modify (set_idx 0);;
           refresh_sheet_ui;;
           emit (ShowInfo (py "Loaded")
                   (py "Loaded " ++ os_path_basename path ++ nl
                      ++ str_of_nat (length (sheets S)) ++ py " sheet(s) ready."))
       end)
      (λ e, emit (ShowError (py "Error loading workbook") (exn_msg e)))
  end.

(** [entry.get().strip() or fallback], the fallback being evaluated only
    when needed. *)
Definition strip_or (entry : pystr) (fallback : M pystr) : M pystr :=
  match strip entry with
  | [] => fallback
  | (_ :: _) as s => mret s
  end.

Definition apply_label_changes (entryA entryB : pystr) : M unit :=
  S ← get;
  if negb (has_data S) then mret tt else
  name ← lift (py_index (sheets S) (idx S));
  la ← strip_or entryA (h ← lift (py_getitem (headers S) name); mret h.1);
  lb ← strip_or entryB (h ← lift (py_getitem (headers S) name); mret h.2);
  modify (λ S, set_labels (<[name := (la, lb)]> (labels S)) S);;
  refresh_sheet_ui.

Definition reset_labels_to_headers : M unit :=
  S ← get;
  if negb (has_data S) then mret tt else
  name ← lift (py_index (sheets S) (idx S));
  h ← lift (py_getitem (headers S) name);
  modify (λ S, set_labels (<[name := h]> (labels S)) S);;
  refresh_sheet_ui.

(** [c] is the hex string the colour dialog returned, [None] when it was
    cancelled. *)
Definition pick_colorA (c : option pystr) : M unit :=
  match c with
  | Some ((_ :: _) as c) =>
      modify (set_colorA c);; emit (ButtonColor true c);; refresh_sheet_ui
  | _ => mret tt
  end.

Definition pick_colorB (c : option pystr) : M unit :=
  match c with
  | Some ((_ :: _) as c) =>
      modify (set_colorB c);; emit (ButtonColor false c);; refresh_sheet_ui
  | _ => mret tt
  end.

(** [entry_alpha] and [entry_labely] are what [float(entry.get())] does on
    the two entries: the parsed number or the exception. *)
Definition update_alpha_labely (entry_alpha entry_labely : outcome float) : M unit :=
  try_except
    (a ← lift entry_alpha;
     ly ← lift entry_labely;
     (if negb ((0.0 <=? a)%float && (a <=? 1.0)%float)
      then raise (Exn ValueError []) else mret tt);;
     (if (ly <? 0.9)%float || (1.6 <? ly)%float
      then raise (Exn ValueError []) else mret tt);;
     modify (set_alpha a);;
     modify (set_label_y ly);;
     refresh_sheet_ui)
    (λ _, emit (ShowError (py "Invalid values")
                  (py "Alpha must be 0" ++ [8211] ++ py "1 and label height ~0.9"
                     ++ [8211] ++ py "1.6"))).

(** [a % b] on [int]s. *)
Definition py_mod (a b : Z) : outcome Z :=
  if (b =? 0)%Z then Raise (Exn ZeroDivisionError (py "integer modulo by zero"))
  else Ok (a `mod` b)%Z.

Definition prev_sheet : M unit :=
  S ← get;
  if negb (has_data S) then mret tt else
  i ← lift (py_mod (idx S - 1) (Z.of_nat (length (sheets S))));
  modify (set_idx i);;
  refresh_sheet_ui.

Definition next_sheet : M unit :=
  S ← get;
  if negb (has_data S) then mret tt else
  i ← lift (py_mod (idx S + 1) (Z.of_nat (length (sheets S))));
  modify (set_idx i);;
  refresh_sheet_ui.

(** [f"{sanitize_filename(name)}__{la_safe}_vs_{lb_safe}_{ts}"] *)
Definition file_stem (name la lb ts : pystr) : pystr :=
  let la_safe := sanitize_filename is_alnum (Some la) in
  let lb_safe := sanitize_filename is_alnum (Some lb) in
  sanitize_filename is_alnum (Some name) ++ py "__" ++ la_safe ++ py "_vs_" ++ lb_safe
    ++ py "_" ++ ts.

(** [os.path.join(os.path.dirname(S.wb_path), "Venn_Outputs")] *)
Definition output_dir (S : AppState) : outcome pystr :=
  match wb_path S with
  | Some p => Ok (os_path_join (os_path_dirname p) (py "Venn_Outputs"))
  | None => Raise (Exn TypeError (py "expected str, bytes or os.PathLike object, not NoneType"))
  end.

(** The figure and the table written for one worksheet: a fresh figure is
    drawn and saved as PNG, then the result table is saved as CSV. *)
Definition save_png (rt : Runtime) (path : pystr) (d : list shape) : M unit :=
  extern (savefig_ok rt path) (SavePng path d) (Exn OSError (py "savefig")).

Definition save_csv (rt : Runtime) (path : pystr) (t : ResultFrame) : M unit :=
  extern (to_csv_ok rt path) (SaveCsv path t) (Exn OSError (py "to_csv")).

(** [ts] is [dt.datetime.now().strftime("%Y%m%d-%H%M%S")]. *)
Definition save_current_sheet (rt : Runtime) (ts : pystr) : M unit :=
  S ← get;
  if negb (has_data S) then mret tt else
  name ← lift (py_index (sheets S) (idx S));
  df ← lift (py_getitem (dfs S) name);
  '(la, lb) ← lift (py_getitem (labels S) name);
  colA ← lift (iloc_col df 0);
  colB ← lift (iloc_col df 1);
  let '(setA, setB, uA, uB, sh) := compute_sets colA colB in
  base_dir ← lift (output_dir S);
  extern (makedirs_ok rt base_dir) (MakeDirs base_dir) (Exn OSError (py "makedirs"));;
  let base := file_stem name la lb ts in
  let png_path := os_path_join base_dir (base ++ py ".png") in
  save_png rt png_path
    (draw_symmetric setA setB la lb (colorA S) (colorB S) (alpha S) (label_y S));;
  let csv_path := os_path_join base_dir (base ++ py ".csv") in
  t ← lift (to_results_df la lb uA uB sh);
  save_csv rt csv_path t;;
  emit (ShowInfo (py "Saved")
          (py "Saved PNG:" ++ nl ++ png_path ++ nl ++ nl ++ py "Saved CSV:" ++ nl ++ csv_path)).

(** The loop of [save_all_sheets] over the remaining worksheet names;
    [writer] says whether the combined-workbook writer was obtained, and
    the result is the final value of [done]. *)
Fixpoint save_loop (rt : Runtime) (ts base_dir : pystr) (writer : bool)
    (names : list pystr) (done : nat) : M nat :=
  match names with
  | [] => mret done
  | name :: rest =>
      S ← get;
      df ← lift (py_getitem (dfs S) name);
      if (ncols df <? 2)%nat then save_loop rt ts base_dir writer rest done else
      '(la, lb) ← lift (py_getitem (labels S) name);
      colA ← lift (iloc_col df 0);
      colB ← lift (iloc_col df 1);
      let '(setA, setB, uA, uB, sh) := compute_sets colA colB in
      let base := file_stem name la lb ts in
      let png_path := os_path_join base_dir (base ++ py ".png") in
      save_png rt png_path
        (draw_symmetric setA setB la lb (colorA S) (colorB S) (alpha S) (label_y S));;
      let csv_path := os_path_join base_dir (base ++ py ".csv") in
      df_out ← lift (to_results_df la lb uA uB sh);
      save_csv rt csv_path df_out;;
      (if writer then
         let safe_sheet := safe_sheet is_alnum name done in
         try_except
           (extern (to_excel_ok rt done safe_sheet) (ToExcel safe_sheet df_out)
              (Exn LibraryError (py "to_excel")))
           (λ _, mret tt)
       else mret tt);;
      save_loop rt ts base_dir writer rest (done + 1)
  end.

(** [combined_var] is the value of the check box variable. *)
Definition save_all_sheets (rt : Runtime) (ts : pystr) (combined_var : Z) : M unit :=
  S ← get;
  if negb (has_data S) then mret tt else
  base_dir ← lift (output_dir S);
  extern (makedirs_ok rt base_dir) (MakeDirs base_dir) (Exn OSError (py "makedirs"));;
  let combined := (combined_var =? 1)%Z in
  let xlsx_path := os_path_join base_dir (py "venn_batch_results_" ++ ts ++ py ".xlsx") in
  writer ←
    ((if combined then
       try_except
         (extern (excel_writer_ok rt xlsx_path) (OpenWriter xlsx_path)
            (Exn LibraryError (py "No module named 'openpyxl'"));;
          mret true)
         (λ _, emit (ShowWarning (py "Combined Excel")
                       (py "openpyxl not available; skipping combined workbook." ++ nl
                          ++ py "Run: pip install openpyxl"));;
               mret false)
     else mret false) : M bool);
  done ← save_loop rt ts base_dir writer (sheets S) 0;
  if (writer : bool) then
    try_except
      (extern (writer_close_ok rt) CloseWriter (Exn LibraryError (py "close"));;
       emit (ShowInfo (py "Saved")
               (py "Saved " ++ str_of_nat done ++ py " sheet(s)." ++ nl
                  ++ py "Combined workbook:" ++ nl ++ xlsx_path)))
      (λ _, emit (ShowWarning (py "Combined Excel")
                    (py "Failed to finalize combined workbook.")))
  else
    emit (ShowInfo (py "Saved")
            (py "Saved " ++ str_of_nat done ++ py " sheet(s) PNG+CSV in:" ++ nl ++ base_dir)).

(** *** Sessions

    The buttons of the window, each with what the user and the environment
    supply when it is pressed. *)
Inductive callback :=
| CbLoadWorkbook (path : pystr) (excel_file : outcome Workbook)
| CbApplyLabels (entryA entryB : pystr)
| CbResetLabels
| CbPickColorA (c : option pystr)
| CbPickColorB (c : option pystr)
| CbUpdateAlphaLabely (entry_alpha entry_labely : outcome float)
| CbPrev
| CbNext
| CbSaveCurrent (rt : Runtime) (ts : pystr)
| CbSaveAll (rt : Runtime) (ts : pystr) (combined_var : Z).

Definition run_callback (cb : callback) : M unit :=
  match cb with
  | CbLoadWorkbook path excel_file => load_workbook path excel_file
  | CbApplyLabels a b => apply_label_changes a b
  | CbResetLabels => reset_labels_to_headers
  | CbPickColorA c => pick_colorA c
  | CbPickColorB c => pick_colorB c
  | CbUpdateAlphaLabely a ly => update_alpha_labely a ly
  | CbPrev => prev_sheet
  | CbNext => next_sheet
  | CbSaveCurrent rt ts => save_current_sheet rt ts
  | CbSaveAll rt ts c => save_all_sheets rt ts c
  end.

(** The state a callback leaves and what it logged; an exception that
    escapes a callback is reported by the event loop, which goes on. *)
Definition state_after (cb : callback) (S : AppState) : AppState :=
  (run (run_callback cb) S).1.2.
Definition log_of (cb : callback) (S : AppState) : list event :=
  (run (run_callback cb) S).2.

(** The state after a sequence of button presses, from a given state. *)
Definition run_session (cbs : list callback) (S : AppState) : AppState :=
  foldl (λ S cb, state_after cb S) S cbs.

(** The states the running application can be in. *)
Definition reachable (S : AppState) : Prop :=
  ∃ cbs, S = run_session cbs AppState_init.

End App.

Arguments DataFrame : clear implicits.
Arguments Workbook : clear implicits.
Arguments AppState : clear implicits.
Arguments callback : clear implicits.
Arguments M : clear implicits.

(** ** Reasoning about callbacks *)

Section Wp.
Context {value : Type}.

(** Weakest precondition of a computation started in [S]: the
    postcondition holds of the outcome, the final state and the log. *)
Definition wp {A} (m : M value A)
    (Q : outcome A → AppState value → list event → Prop) (S : AppState value) : Prop :=
  Q (run m S).1.1 (run m S).1.2 (run m S).2.

(** Every listed worksheet has its data, with at least two columns, and
    its label pair; and a session that holds data knows its workbook. *)
Definition consistent (S : AppState value) : Prop :=
  (∀ name, name ∈ sheets S →
     ∃ df la lb, dfs S !! name = Some df ∧ (2 ≤ ncols df)%nat ∧
                 labels S !! name = Some (la, lb)) ∧
  (has_data S = true → is_Some (wb_path S)).

(** The session as the first assignments of [load_workbook] leave it:
    emptied, and attached to the new path. *)
Definition cleared (path : pystr) (S : AppState value) : AppState value :=
  {| wb_path := Some path; sheets := []; dfs := ∅; labels := ∅; headers := ∅;
     idx := idx S; colorA := colorA S; colorB := colorB S;
     alpha := alpha S; label_y := label_y S |}.

(** The cursor designates a worksheet of the list. *)
Definition cursor_in_range (S : AppState value) : Prop :=
  sheets S ≠ [] → (0 ≤ idx S < Z.of_nat (length (sheets S)))%Z.

(** A button press during which no worksheet fails to parse: any press
    but a load whose workbook opens and then raises on some worksheet. *)
Definition parses_all (cb : callback value) : Prop :=
  match cb with
  | CbLoadWorkbook _ (Ok wb) =>
      ∀ name, name ∈ sheet_names wb → ∃ df, parse wb name = Ok df
  | _ => True
  end.

End Wp.

Definition is_error (e : event) : bool :=
  match e with ShowError _ _ => true | _ => false end.

Definition is_warning (e : event) : bool :=
  match e with ShowWarning _ _ => true | _ => false end.

(** The events of the combined-workbook writer. *)
Definition is_combined (e : event) : bool :=
  match e with OpenWriter _ | ToExcel _ _ | CloseWriter => true | _ => false end.

(** A redraw that places a text at a height that is not a number. *)
Definition draws_at_nan (e : event) : bool :=
  match e with
  | CanvasDraw d =>
      existsb (λ s, match s with Text _ y _ _ => PrimFloat.is_nan y | _ => false end) d
  | _ => false
  end.

(** The file system takes every directory and file of a batch. *)
Definition fs_ok (rt : Runtime) : Prop :=
  (∀ p, makedirs_ok rt p = true) ∧ (∀ p, savefig_ok rt p = true) ∧
  (∀ p, to_csv_ok rt p = true).

(** The test of [update_alpha_labely] on the two parsed numbers. *)
Definition style_checked (a ly : float) : bool :=
  ((0.0 <=? a)%float && (a <=? 1.0)%float) && negb ((ly <? 0.9)%float || (1.6 <? ly)%float).

Section Written.
Context {value : Type} (isna : value → bool) (py_str : value → pystr).
Variable is_alnum : N → bool.
Variable os_path_join : pystr → pystr → pystr.

(** The two files written for the worksheet [name] of the session [S] in
    a batch stamped [ts]: the diagram of its two columns under its current
    labels and the visual style, then its result table. *)
Definition written_for (S : AppState value) (ts base_dir name : pystr)
    (evs : list event) : Prop :=
  ∃ df la lb colA colB setA setB uA uB sh t,
    dfs S !! name = Some df ∧ labels S !! name = Some (la, lb) ∧
    iloc_col df 0 = Ok colA ∧ iloc_col df 1 = Ok colB ∧
    compute_sets isna py_str colA colB = (setA, setB, uA, uB, sh) ∧
    to_results_df la lb uA uB sh = Ok t ∧
    evs = [ SavePng (os_path_join base_dir (file_stem is_alnum name la lb ts ++ py ".png"))
              (draw_symmetric setA setB la lb (colorA S) (colorB S) (alpha S) (label_y S));
            SaveCsv (os_path_join base_dir (file_stem is_alnum name la lb ts ++ py ".csv")) t ].

End Written.

(** ** Notions used to state the properties *)

(** A string that does not start, or does not end, with white space. *)
Definition starts_ok (t : pystr) : Prop := ∀ c, head t = Some c → is_space c = false.
Definition ends_ok (t : pystr) : Prop := ∀ c, last t = Some c → is_space c = false.

(** The cells of a column of the result table that are not the padding. *)
Definition nonempty_cells (c : list pystr) : list pystr :=
  List.filter (λ s, negb (bool_decide (s = []))) c.

(** [entry.strip() or header] *)
Definition label_or (entry header : pystr) : pystr :=
  match strip entry with [] => header | (_ :: _) as s => s end.

(** The events that end a successful export. *)
Definition is_report (e : event) : bool :=
  match e with ShowInfo _ _ | CloseWriter => true | _ => false end.

(** A name cut into blocks: a first block, then runs, each with the block
    that follows it. *)
Definition blocks_in (g0 : pystr) (l : list (pystr * pystr)) : pystr :=
  g0 ++ concat ((λ bg, bg.1 ++ bg.2) <$> l).

(** The same blocks with one underscore in place of each run. *)
Definition blocks_out (g0 : pystr) (l : list (pystr * pystr)) : pystr :=
  g0 ++ concat ((λ bg, underscore :: bg.2) <$> l).

Section Notions.
Context {value : Type} (isna : value → bool) (py_str : value → pystr).
Variable is_alnum : N → bool.
Variable os_path_join : pystr → pystr → pystr.

(** A worksheet that [load_workbook] keeps: it parses and has at least two
    columns. *)
Definition usable (wb : Workbook value) (name : pystr) : bool :=
  match parse wb name with
  | Ok df => (2 <=? ncols df)%nat
  | Raise _ => false
  end.

(** The worksheets of the list are exactly those that have data, and each
    has its original headers. *)
Definition listed (S : AppState value) : Prop :=
  (∀ name, name ∈ sheets S ↔ is_Some (dfs S !! name)) ∧
  (∀ name, name ∈ sheets S → is_Some (headers S !! name)).

Definition is_load (cb : callback value) : bool :=
  match cb with CbLoadWorkbook _ _ => true | _ => false end.

(** The callbacks that start with [if not S.has_data(): return]. *)
Definition needs_data (cb : callback value) : bool :=
  match cb with
  | CbApplyLabels _ _ | CbResetLabels | CbPrev | CbNext
  | CbSaveCurrent _ _ | CbSaveAll _ _ _ => true
  | _ => false
  end.

(** The blocks are made of characters of the class; the runs are not
    empty, hold no character of the class, and are maximal: only the last
    one may be followed by an empty block. *)
Definition maximal_runs (g0 : pystr) (l : list (pystr * pystr)) : Prop :=
  Forall (λ c, allowed is_alnum c = true) g0 ∧
  Forall (λ bg, bg.1 ≠ [] ∧ Forall (λ c, allowed is_alnum c = false) bg.1 ∧
                Forall (λ c, allowed is_alnum c = true) bg.2) l ∧
  (∀ i bg, l !! i = Some bg → (i + 1 < length l)%nat → bg.2 ≠ []).
(** What the loop of [load_workbook] has recorded for a worksheet. *)
Definition loaded_from (wb : Workbook value) (S : AppState value) (name : pystr) : Prop :=
  ∃ df c0 c1,
    parse wb name = Ok df ∧ (2 ≤ ncols df)%nat ∧
    column_label df 0 = Ok c0 ∧ column_label df 1 = Ok c1 ∧
    dfs S !! name = Some df ∧
    headers S !! name = Some (py_str c0, py_str c1) ∧
    labels S !! name = Some (py_str c0, py_str c1).

(** The fields a load leaves alone while it reads the worksheets. *)
Definition same_style (S S' : AppState value) : Prop :=
  idx S' = idx S ∧ wb_path S' = wb_path S ∧ colorA S' = colorA S ∧ colorB S' = colorB S ∧
  alpha S' = alpha S ∧ label_y S' = label_y S.

(** What a batch with a combined-workbook writer logs for the worksheet
    [name] when [done] worksheets were processed before it: its two files
    and, unless [to_excel] raises, its table under its sheet name. *)
Definition exported_for (rt : Runtime) (S : AppState value) (ts base_dir : pystr)
    (done : nat) (name : pystr) (evs : list event) : Prop :=
  ∃ png d csv t,
    written_for isna py_str is_alnum os_path_join S ts base_dir name
      [SavePng png d; SaveCsv csv t] ∧
    evs = [SavePng png d; SaveCsv csv t]
          ++ (if to_excel_ok rt done (safe_sheet is_alnum name done)
              then [ToExcel (safe_sheet is_alnum name done) t] else []).

End Notions.

(** ** A concrete runtime, for examples

    Cells that are missing, text or integers; ASCII letters and digits as
    alphanumerics; POSIX paths. *)

Inductive pyval := PNone | PStr (s : pystr) | PInt (z : Z).

Definition pyval_isna (v : pyval) : bool :=
  match v with PNone => true | _ => false end.

Definition pyval_str (v : pyval) : pystr :=
  match v with
  | PNone => py "None"
  | PStr s => s
  | PInt z => str_of_Z z
  end.

Definition ascii_alnum (c : N) : bool :=
  ((48 <=? c) && (c <=? 57)) || ((65 <=? c) && (c <=? 90)) || ((97 <=? c) && (c <=? 122)).

Definition slash : N := 47.

(** The part of [p] after its last slash, and the part up to and including
    it, both as reversed lists while scanning from the end. *)
Fixpoint split_last_slash (rev_p : pystr) (tail : pystr) : pystr * pystr :=
  match rev_p with
  | [] => ([], tail)
  | c :: rest => if c =? slash then (reverse rev_p, tail) else split_last_slash rest (c :: tail)
  end.

Fixpoint rstrip_slash (rev_p : pystr) : pystr :=
  match rev_p with
  | [] => []
  | c :: rest => if c =? slash then rstrip_slash rest else rev_p
  end.

Definition posix_dirname (p : pystr) : pystr :=
  let head := (split_last_slash (reverse p) []).1 in
  if forallb (λ c, c =? slash) head then head else reverse (rstrip_slash (reverse head)).

Definition posix_basename (p : pystr) : pystr := (split_last_slash (reverse p) []).2.

Definition posix_join (a b : pystr) : pystr :=
  match b with
  | c :: _ => if c =? slash then b else
      match reverse a with
      | [] => b
      | d :: _ => if d =? slash then a ++ b else a ++ [slash] ++ b
      end
  | [] =>
      match reverse a with
      | [] => b
      | d :: _ => if d =? slash then a ++ b else a ++ [slash] ++ b
      end
  end.

(** A runtime in which the file system works and the combined-workbook
    writer cannot be created. *)
Definition rt_no_openpyxl : Runtime := {|
  makedirs_ok := λ _, true; savefig_ok := λ _, true; to_csv_ok := λ _, true;
  excel_writer_ok := λ _, false; to_excel_ok := λ _ _, true; writer_close_ok := true
|}.

(** A worksheet with two columns of text cells, given with their headers. *)
Definition two_columns (hA hB : string) (A B : list pyval) : DataFrame pyval :=
  {| df_columns := [(PStr (py hA), A); (PStr (py hB), B)] |}.

Definition one_column (h : string) (A : list pyval) : DataFrame pyval :=
  {| df_columns := [(PStr (py h), A)] |}.

(** A workbook given by its worksheets in order; a worksheet that is not
    listed cannot be parsed. *)
Definition workbook_of (ws : list (pystr * outcome (DataFrame pyval))) : Workbook pyval :=
  {| sheet_names := ws.*1;
     parse := λ name,
       match list_find (λ w, w.1 = name) ws with
       | Some (_, w) => w.2
       | None => Raise (Exn LibraryError (py "Worksheet not found"))
       end |}.

Abbreviation run_cb := (run_callback pyval_isna pyval_str ascii_alnum
                          posix_dirname posix_basename posix_join).
Abbreviation session := (run_session pyval_isna pyval_str ascii_alnum
                           posix_dirname posix_basename posix_join).

Definition col_abbc : list pyval :=
  [PStr (py "a"); PStr (py "b"); PStr (py "b"); PStr (py "c"); PNone].
Definition col_bcd : list pyval := [PStr (py "b"); PStr (py "c"); PStr (py "d")].

(** A workbook with three usable worksheets. *)
Definition wb_three : Workbook pyval :=
  workbook_of [ (py "Genes", Ok (two_columns "Control" "Treated" col_abbc col_bcd));
                (py "Run 2", Ok (two_columns "Left" "Right" col_bcd col_abbc));
                (py "Run 3", Ok (two_columns "X" "X" col_bcd col_bcd)) ].

(** A workbook whose only worksheet has a single column. *)
Definition wb_one_column : Workbook pyval :=
  workbook_of [ (py "Notes", Ok (one_column "Comment" col_abbc)) ].

(** A workbook whose first worksheet is usable and whose second one cannot
    be parsed. *)
Definition wb_damaged : Workbook pyval :=
  workbook_of [ (py "Good", Ok (two_columns "A" "B" col_abbc col_bcd));
                (py "Bad", Raise (Exn LibraryError (py "File is not a zip file"))) ].

(** The session after the three worksheets were loaded. *)
Definition st_three : AppState pyval :=
  session [CbLoadWorkbook (py "/data/genes.xlsx") (Ok wb_three)] AppState_init.

(** Three worksheets are loaded, the cursor is moved back onto the last
    one, and the next workbook fails after its first worksheet. *)
Definition session_stale : list (callback pyval) :=
  [ CbLoadWorkbook (py "/data/genes.xlsx") (Ok wb_three);
    CbPrev;
    CbLoadWorkbook (py "/data/damaged.xlsx") (Ok wb_damaged) ].

(** A workbook with a usable worksheet between two that are not. *)
Definition wb_mixed : Workbook pyval :=
  workbook_of [ (py "Notes", Ok (one_column "Comment" col_abbc));
                (py "Genes", Ok (two_columns "Control" "Treated" col_abbc col_bcd));
                (py "Empty", Ok {| df_columns := [] |}) ].

(** A runtime in which the combined workbook can be written, except for
    the table of the second worksheet. *)
Definition rt_combined : Runtime := {|
  makedirs_ok := λ _, true; savefig_ok := λ _, true; to_csv_ok := λ _, true;
  excel_writer_ok := λ _, true; to_excel_ok := λ done _, negb (done =? 1)%nat;
  writer_close_ok := true
|}.

(** A runtime in which no directory can be created. *)
Definition rt_read_only : Runtime := {|
  makedirs_ok := λ _, false; savefig_ok := λ _, true; to_csv_ok := λ _, true;
  excel_writer_ok := λ _, true; to_excel_ok := λ _ _, true; writer_close_ok := true
|}.

(** A runtime in which the directory exists and no image can be written. *)
Definition rt_disk_full : Runtime := {|
  makedirs_ok := λ _, true; savefig_ok := λ _, false; to_csv_ok := λ _, true;
  excel_writer_ok := λ _, true; to_excel_ok := λ _ _, true; writer_close_ok := true
|}.

Abbreviation reachable_app := (reachable pyval_isna pyval_str ascii_alnum
                                 posix_dirname posix_basename posix_join).
Abbreviation state_after_app := (state_after pyval_isna pyval_str ascii_alnum
                                   posix_dirname posix_basename posix_join).

(** * Properties *)

(** ** The order on strings *)

Lemma str_leb_refl s : str_leb s s = true.
Proof.
  induction s as [|a s IH]; simpl; [done|].
  by rewrite N.ltb_irrefl, N.eqb_refl.
Qed.

Lemma str_leb_total s t : str_leb s t = true ∨ str_leb t s = true.
Proof.
  revert t; induction s as [|a s IH]; intros [|b t]; simpl; auto.
  destruct (N.ltb_spec a b), (N.ltb_spec b a); auto; try lia.
  assert (a = b) as -> by lia. rewrite N.eqb_refl. apply IH.
Qed.

Lemma str_leb_trans s t u : str_leb s t = true → str_leb t u = true → str_leb s u = true.
Proof.
  revert t u; induction s as [|a s IH]; intros [|b t] [|c u]; simpl; try done.
  destruct (N.ltb_spec a b), (N.ltb_spec b c), (N.ltb_spec a c); try done; try lia;
    destruct (N.eqb_spec a b), (N.eqb_spec b c), (N.eqb_spec a c); try done; try lia.
  apply IH.
Qed.

Lemma str_leb_antisym s t : str_leb s t = true → str_leb t s = true → s = t.
Proof.
  revert t; induction s as [|a s IH]; intros [|b t]; simpl; try done.
  destruct (N.ltb_spec a b), (N.ltb_spec b a); try done; try lia;
    destruct (N.eqb_spec a b), (N.eqb_spec b a); try done; try lia.
  intros ??; f_equal; auto.
Qed.

#[global] Instance str_le_refl : Reflexive str_le.
Proof. intros s. apply str_leb_refl. Qed.

#[global] Instance str_le_total : Total str_le.
Proof. intros s t. apply str_leb_total. Qed.

#[global] Instance str_le_trans : Transitive str_le.
Proof. intros s t u. apply str_leb_trans. Qed.

#[global] Instance str_le_antisym : AntiSymm (=) str_le.
Proof. intros s t. apply str_leb_antisym. Qed.

(** ** [sorted] *)

Lemma py_sorted_perm X : py_sorted X ≡ₚ elements X.
Proof. apply merge_sort_Permutation. Qed.

Lemma py_sorted_elem_of X s : s ∈ py_sorted X ↔ s ∈ X.
Proof. by rewrite py_sorted_perm, elem_of_elements. Qed.

Lemma py_sorted_NoDup X : NoDup (py_sorted X).
Proof. rewrite py_sorted_perm. apply NoDup_elements. Qed.

Lemma py_sorted_length X : length (py_sorted X) = size X.
Proof. by rewrite py_sorted_perm. Qed.

Lemma py_sorted_sorted X : StronglySorted str_le (py_sorted X).
Proof. apply (StronglySorted_merge_sort _). Qed.

(** The sorted list does not depend on the order in which the set is
    enumerated: it is the only sorted enumeration of the set. *)
Lemma py_sorted_unique X l :
  l ≡ₚ elements X → Sorted str_le l → l = py_sorted X.
Proof.
  intros Hp Hs. apply (Sorted_unique str_le); [done| |].
  - apply Sorted_merge_sort, _.
  - by rewrite Hp, py_sorted_perm.
Qed.

(** ** The set comparator *)

Section Comparator.
Context {value : Type} (isna : value → bool) (py_str : value → pystr).

Lemma elem_of_dropna_astype_str (series : list value) s :
  s ∈ dropna_astype_str isna py_str series ↔
  ∃ v, v ∈ series ∧ isna v = false ∧ py_str v = s.
Proof.
  unfold dropna_astype_str. rewrite list_elem_of_fmap. split.
  - intros (v & -> & Hv). apply list_elem_of_In, filter_In in Hv as [Hv Hna].
    exists v. rewrite list_elem_of_In. by destruct (isna v).
  - intros (v & Hv & Hna & <-). exists v. split; [done|].
    apply list_elem_of_In, filter_In. rewrite <-list_elem_of_In, Hna. done.
Qed.

Lemma dropna_astype_str_perm (l l' : list value) :
  l ≡ₚ l' → dropna_astype_str isna py_str l ≡ₚ dropna_astype_str isna py_str l'.
Proof.
  intros Hp. unfold dropna_astype_str. apply fmap_Permutation.
  induction Hp; simpl; repeat case_match; eauto using Permutation.
Qed.

Lemma set_of_series_perm (l l' : list value) :
  l ≡ₚ l' →
  (list_to_set (dropna_astype_str isna py_str l) : gset pystr)
  = list_to_set (dropna_astype_str isna py_str l').
Proof.
  intros Hp. apply set_eq. intros s. rewrite !elem_of_list_to_set.
  by rewrite (dropna_astype_str_perm _ _ Hp).
Qed.

(** The two columns may even be reordered independently. *)
Lemma compute_sets_perm (A A' B B' : list value) :
  A ≡ₚ A' → B ≡ₚ B' →
  compute_sets isna py_str A B = compute_sets isna py_str A' B'.
Proof.
  intros HA HB. unfold compute_sets.
  by rewrite (set_of_series_perm A A' HA), (set_of_series_perm B B' HB).
Qed.

(** C1: for every pair of columns, the three collections returned by
    [compute_sets] are pairwise disjoint and free of repetitions, their
    union is the union of the two sets, which hold exactly the strings of
    the non-missing cells of their column, and the sizes add up:
    |setA| = |unique_A| + |shared| and |setB| = |unique_B| + |shared|. *)
Theorem C1_partition (seriesA seriesB : list value) :
  ∃ setA setB unique_A unique_B shared,
    compute_sets isna py_str seriesA seriesB = (setA, setB, unique_A, unique_B, shared) ∧
    (∀ s, s ∈ setA ↔ ∃ v, v ∈ seriesA ∧ isna v = false ∧ py_str v = s) ∧
    (∀ s, s ∈ setB ↔ ∃ v, v ∈ seriesB ∧ isna v = false ∧ py_str v = s) ∧
    (∀ s, s ∈ unique_A → (s ∉ unique_B) ∧ (s ∉ shared)) ∧
    (∀ s, s ∈ unique_B → s ∉ shared) ∧
    NoDup (unique_A ++ unique_B ++ shared) ∧
    (∀ s, s ∈ unique_A ++ unique_B ++ shared ↔ s ∈ setA ∨ s ∈ setB) ∧
    size setA = (length unique_A + length shared)%nat ∧
    size setB = (length unique_B + length shared)%nat.
Proof.
  eexists _, _, _, _, _. split; [reflexivity|].
  set (setA := list_to_set (dropna_astype_str isna py_str seriesA) : gset pystr).
  set (setB := list_to_set (dropna_astype_str isna py_str seriesB) : gset pystr).
  assert (∀ s, s ∈ setA ↔ s ∈ dropna_astype_str isna py_str seriesA) as HsetA
    by (intros s; apply elem_of_list_to_set).
  assert (∀ s, s ∈ setB ↔ s ∈ dropna_astype_str isna py_str seriesB) as HsetB
    by (intros s; apply elem_of_list_to_set).
  clearbody setA setB.
  split_and!.
  - intros s. by rewrite <-elem_of_dropna_astype_str, HsetA.
  - intros s. by rewrite <-elem_of_dropna_astype_str, HsetB.
  - intros s. rewrite !py_sorted_elem_of, !elem_of_difference, elem_of_intersection. tauto.
  - intros s. rewrite !py_sorted_elem_of, elem_of_difference, elem_of_intersection. tauto.
  - rewrite !NoDup_app. split_and!; try apply py_sorted_NoDup.
    + intros s. rewrite elem_of_app, !py_sorted_elem_of, !elem_of_difference,
        elem_of_intersection. tauto.
    + intros s. rewrite !py_sorted_elem_of, elem_of_difference, elem_of_intersection. tauto.
  - intros s. rewrite !elem_of_app, !py_sorted_elem_of, !elem_of_difference,
      elem_of_intersection.
    destruct (decide (s ∈ setA)), (decide (s ∈ setB)); tauto.
  - rewrite !py_sorted_length, <-size_union.
    + f_equal. apply set_eq. intros s.
      rewrite elem_of_union, elem_of_difference, elem_of_intersection.
      destruct (decide (s ∈ setB)); tauto.
    + intros s. rewrite elem_of_difference, elem_of_intersection. tauto.
  - rewrite !py_sorted_length, <-size_union.
    + f_equal. apply set_eq. intros s.
      rewrite elem_of_union, elem_of_difference, elem_of_intersection.
      destruct (decide (s ∈ setA)); tauto.
    + intros s. rewrite elem_of_difference, elem_of_intersection. tauto.
Qed.

(** C4: for every pair of columns and every permutation of their rows,
    [compute_sets] returns the same sets and the same three collections,
    each sorted in ascending order of the strings. *)
Theorem C4_sorted_any_row_order (rows rows' : list (value * value)) :
  rows ≡ₚ rows' →
  ∃ setA setB unique_A unique_B shared,
    compute_sets isna py_str rows.*1 rows.*2 = (setA, setB, unique_A, unique_B, shared) ∧
    compute_sets isna py_str rows'.*1 rows'.*2 = (setA, setB, unique_A, unique_B, shared) ∧
    StronglySorted str_le unique_A ∧
    StronglySorted str_le unique_B ∧
    StronglySorted str_le shared.
Proof.
  intros Hp. eexists _, _, _, _, _. split; [reflexivity|]. split.
  - symmetry. apply compute_sets_perm; by apply fmap_Permutation.
  - split_and!; apply py_sorted_sorted.
Qed.

End Comparator.

(** C4 on two rows given in both orders. *)
Lemma C4_sorted_any_row_order_witness :
  [(PStr (py "b"), PStr (py "c")); (PStr (py "a"), PNone)]
  ≡ₚ [(PStr (py "a"), PNone); (PStr (py "b"), PStr (py "c"))] ∧
  ∃ setA setB unique_A unique_B shared,
    compute_sets pyval_isna pyval_str
      [PStr (py "b"); PStr (py "a")] [PStr (py "c"); PNone]
    = (setA, setB, unique_A, unique_B, shared) ∧
    compute_sets pyval_isna pyval_str
      [PStr (py "a"); PStr (py "b")] [PNone; PStr (py "c")]
    = (setA, setB, unique_A, unique_B, shared) ∧
    StronglySorted str_le unique_A ∧
    StronglySorted str_le unique_B ∧
    StronglySorted str_le shared.
Proof.
  split; [apply perm_swap|].
  apply (C4_sorted_any_row_order pyval_isna pyval_str
           [(PStr (py "b"), PStr (py "c")); (PStr (py "a"), PNone)]
           [(PStr (py "a"), PNone); (PStr (py "b"), PStr (py "c"))]).
  apply perm_swap.
Defined.

(** The example of the specification: columns [a, b, b, c, missing] and
    [b, c, d]. *)
Example compute_sets_example :
  ∃ setA setB,
    compute_sets pyval_isna pyval_str col_abbc col_bcd
    = (setA, setB, [py "a"], [py "d"], [py "b"; py "c"]) ∧
    size setA = 3%nat ∧ size setB = 3%nat.
Proof. eexists _, _. split; [|split]; by vm_compute. Qed.

(** ** [str.strip] *)

Abbreviation all_space := (Forall (λ c, is_space c = true)).

Lemma lstrip_app_space ws s : all_space ws → lstrip (ws ++ s) = lstrip s.
Proof. induction 1 as [|c ws Hc _ IH]; simpl; [done|]. by rewrite Hc. Qed.

Lemma lstrip_all_space ws : all_space ws → lstrip ws = [].
Proof. intros H. rewrite <-(app_nil_r ws). by rewrite lstrip_app_space. Qed.

Lemma rstrip_app_space s ws : all_space ws → rstrip (s ++ ws) = rstrip s.
Proof.
  intros H. unfold rstrip. rewrite reverse_app, lstrip_app_space; [done|].
  by apply Forall_reverse.
Qed.

Lemma rstrip_lstrip_app_space s ws :
  all_space ws → rstrip (lstrip (s ++ ws)) = rstrip (lstrip s).
Proof.
  intros H. induction s as [|c s IH]; simpl.
  - by rewrite lstrip_all_space.
  - destruct (is_space c); [done|]. by apply (rstrip_app_space (c :: s)).
Qed.

Lemma strip_trim ws1 s ws2 :
  all_space ws1 → all_space ws2 → strip (ws1 ++ s ++ ws2) = strip s.
Proof.
  intros H1 H2. unfold strip. by rewrite lstrip_app_space, rstrip_lstrip_app_space.
Qed.

Lemma strip_all_space ws : all_space ws → strip ws = [].
Proof. intros H. unfold strip. by rewrite lstrip_all_space. Qed.

Lemma lstrip_suffix s : lstrip s `suffix_of` s.
Proof.
  induction s as [|c s IH]; simpl; [done|].
  destruct (is_space c); [by apply suffix_cons_r|done].
Qed.

Lemma elem_of_strip c s : c ∈ strip s → c ∈ s.
Proof.
  unfold strip, rstrip. rewrite elem_of_reverse. intros H.
  assert (c ∈ lstrip s) as H'.
  { apply elem_of_reverse. eapply elem_of_suffix; [done|apply lstrip_suffix]. }
  eapply elem_of_suffix; [done|apply lstrip_suffix].
Qed.

(** ** [sanitize_filename] *)

Section SanitizeProofs.
Variable is_alnum : N → bool.

Lemma allowed_underscore : allowed is_alnum underscore = true.
Proof. unfold allowed, is_word. rewrite N.eqb_refl. by rewrite orb_true_r. Qed.

Lemma re_sub_from_allowed b s :
  Forall (λ c, allowed is_alnum c = true) (re_sub_from is_alnum b s).
Proof.
  revert b; induction s as [|c s IH]; intros b; simpl; [done|].
  destruct (allowed is_alnum c) eqn:Hc; [by constructor|].
  destruct b; [done|]. constructor; [apply allowed_underscore|done].
Qed.

Lemma re_sub_from_length b s : (length (re_sub_from is_alnum b s) ≤ length s)%nat.
Proof.
  revert b; induction s as [|c s IH]; intros b; simpl; [done|].
  destruct (allowed is_alnum c); simpl; [specialize (IH false); lia|].
  destruct b; simpl; specialize (IH true); lia.
Qed.

(** What [re.sub] gives is made of underscores and of characters of the
    class that the string had. *)
Lemma elem_of_re_sub_from b s c :
  c ∈ re_sub_from is_alnum b s → c = underscore ∨ (c ∈ s ∧ allowed is_alnum c = true).
Proof.
  revert b; induction s as [|d s IH]; intros b; simpl; [by intros ?%elem_of_nil|].
  destruct (allowed is_alnum d) eqn:Hd.
  - intros [->|H]%elem_of_cons; [right; split; [left|done]|].
    destruct (IH _ H) as [?|[??]]; [by left|right; split; [by right|done]].
  - destruct b.
    + intros H. destruct (IH _ H) as [?|[??]]; [by left|right; split; [by right|done]].
    + intros [->|H]%elem_of_cons; [by left|].
      destruct (IH _ H) as [?|[??]]; [by left|right; split; [by right|done]].
Qed.

(** A string of characters of the class is left as it is. *)
Lemma re_sub_from_id b s :
  Forall (λ c, allowed is_alnum c = true) s → re_sub_from is_alnum b s = s.
Proof.
  intros H; revert b; induction H as [|c s Hc _ IH]; intros b; simpl; [done|].
  by rewrite Hc, IH.
Qed.

(** What follows a character of the class is substituted on its own. *)
Lemma re_sub_from_app b pre c rest :
  allowed is_alnum c = true →
  re_sub_from is_alnum b (pre ++ c :: rest)
  = re_sub_from is_alnum b (pre ++ [c]) ++ re_sub_from is_alnum false rest.
Proof.
  intros Hc; revert b; induction pre as [|d pre IH]; intros b; simpl.
  - by rewrite Hc.
  - destruct (allowed is_alnum d); [by rewrite IH|]. destruct b; by rewrite IH.
Qed.

Lemma re_sub_from_run bad post :
  bad ≠ [] → Forall (λ c, allowed is_alnum c = false) bad →
  re_sub_from is_alnum false (bad ++ post) = underscore :: re_sub_from is_alnum true post.
Proof.
  intros Hne H. destruct H as [|c bad Hc H]; [done|]. simpl. rewrite Hc. f_equal.
  clear Hne Hc. induction H as [|d bad Hd _ IH]; simpl; [done|]. by rewrite Hd.
Qed.

Lemma re_sub_from_in_run post :
  match post with [] => True | c :: _ => allowed is_alnum c = true end →
  re_sub_from is_alnum true post = re_sub_from is_alnum false post.
Proof. destruct post as [|c post]; simpl; [done|]. by intros ->. Qed.

(** X5: [re.sub] replaces a maximal run of characters outside the class, taken
    as a whole, by one underscore: the run [bad] stands between a prefix
    that is empty or ends with a character of the class and a suffix that
    is empty or starts with one. *)
Lemma re_sub_run pre bad post :
  match reverse pre with [] => True | c :: _ => allowed is_alnum c = true end →
  bad ≠ [] → Forall (λ c, allowed is_alnum c = false) bad →
  match post with [] => True | c :: _ => allowed is_alnum c = true end →
  re_sub is_alnum (pre ++ bad ++ post)
  = re_sub is_alnum pre ++ underscore :: re_sub is_alnum post.
Proof.
  intros Hpre Hne Hbad Hpost. unfold re_sub.
  destruct (reverse pre) as [|c rpre] eqn:Hr.
  - apply (f_equal reverse) in Hr. rewrite reverse_involutive in Hr. subst pre.
    simpl. rewrite (re_sub_from_run bad post); [|done..]. by rewrite re_sub_from_in_run.
  - apply (f_equal reverse) in Hr. rewrite reverse_involutive, reverse_cons in Hr.
    subst pre. rewrite <-app_assoc. simpl.
    rewrite re_sub_from_app; [|done].
    rewrite (re_sub_from_run bad post); [|done..]. by rewrite re_sub_from_in_run.
Qed.

Lemma sanitize_filename_eq s :
  sanitize_filename is_alnum s = take 60 (re_sub is_alnum (strip (or_empty s))).
Proof.
  unfold sanitize_filename. case_match eqn:Hlen; [done|].
  apply Nat.ltb_ge in Hlen. by rewrite take_ge.
Qed.

(** C10: [sanitize_filename] trims the white space around its input before
    it replaces anything, so that an input made of white space only (or
    empty) gives the empty string, for which the combined-workbook export
    falls back on the positional name [Sheet{done+1}]. *)
Theorem C10_whitespace_trimmed (w ws1 s ws2 : pystr) (done : nat) :
  all_space w → all_space ws1 → all_space ws2 →
  sanitize_filename is_alnum (Some w) = [] ∧
  safe_sheet is_alnum w done = py "Sheet" ++ str_of_nat (done + 1) ∧
  sanitize_filename is_alnum (Some (ws1 ++ s ++ ws2)) = sanitize_filename is_alnum (Some s).
Proof.
  intros Hw H1 H2.
  assert (sanitize_filename is_alnum (Some w) = []) as Hempty.
  { rewrite sanitize_filename_eq. simpl. by rewrite strip_all_space. }
  split_and!; [done| |].
  - unfold safe_sheet. by rewrite Hempty.
  - rewrite !sanitize_filename_eq. simpl. by rewrite strip_trim.
Qed.

End SanitizeProofs.

(** C10 on three spaces, and on a name between a space and a tab and a
    line feed. *)
Lemma C10_whitespace_trimmed_witness :
  all_space (py "   ") ∧ all_space (py " ") ∧ all_space [9; 10] ∧
  sanitize_filename ascii_alnum (Some (py "   ")) = [] ∧
  safe_sheet ascii_alnum (py "   ") 2 = py "Sheet" ++ str_of_nat (2 + 1) ∧
  sanitize_filename ascii_alnum (Some (py " " ++ py "a/b" ++ [9; 10]))
  = sanitize_filename ascii_alnum (Some (py "a/b")).
Proof.
  assert (all_space (py "   ")) as Hw by (repeat constructor).
  assert (all_space (py " ")) as H1 by (repeat constructor).
  assert (all_space [9; 10]) as H2 by (repeat constructor).
  split; [exact Hw|]. split; [exact H1|]. split; [exact H2|].
  exact (C10_whitespace_trimmed ascii_alnum (py "   ") (py " ") (py "a/b") [9; 10] 2 Hw H1 H2).
Defined.

Example sanitize_filename_example :
  sanitize_filename ascii_alnum (Some (py "  a!?b/c d.x-y_z  ")) = py "a_b_c d.x-y_z" ∧
  sanitize_filename ascii_alnum None = [] ∧
  safe_sheet ascii_alnum (py " ") 11 = py "Sheet12".
Proof. by vm_compute. Qed.

(** ** The result table *)

Lemma dict_set_fresh {V} (k : pystr) (v : V) d :
  k ∉ d.*1 → dict_set k v d = d ++ [(k, v)].
Proof. intros H. unfold dict_set. by rewrite decide_False. Qed.

Lemma pad_length n L : (length L ≤ n)%nat → length (pad n L) = n.
Proof. intros H. unfold pad. rewrite length_app, length_replicate. lia. Qed.

Lemma unique_to_not_shared l : py "Unique to " ++ l ≠ py "Shared".
Proof. intros H. vm_compute in H. discriminate H. Qed.

(** A dict display with three items: when the keys differ, and when the
    first two are the same key, whose second value then replaces the first
    one in place. *)
Lemma dict_literal_distinct {V} k1 k2 k3 (a b c : V) :
  k1 ≠ k2 → k1 ≠ k3 → k2 ≠ k3 →
  dict_literal [(k1, a); (k2, b); (k3, c)] = [(k1, a); (k2, b); (k3, c)].
Proof.
  intros H12 H13 H23. unfold dict_literal. cbn [foldl fst snd].
  rewrite (dict_set_fresh k1 a []) by apply not_elem_of_nil. cbn [app].
  rewrite (dict_set_fresh k2); cbn [app fmap list_fmap fst].
  - rewrite (dict_set_fresh k3); [done|]. cbn [app fmap list_fmap fst].
    rewrite !not_elem_of_cons. split_and!; [done..|apply not_elem_of_nil].
  - rewrite !not_elem_of_cons. split; [done|apply not_elem_of_nil].
Qed.

Lemma dict_literal_same {V} k k3 (a b c : V) :
  k ≠ k3 →
  dict_literal [(k, a); (k, b); (k3, c)] = [(k, b); (k3, c)].
Proof.
  intros H3. unfold dict_literal. cbn [foldl fst snd].
  rewrite (dict_set_fresh k a []) by apply not_elem_of_nil. cbn [app].
  unfold dict_set at 2. rewrite decide_True by apply list_elem_of_here.
  cbn [fmap list_fmap fst]. rewrite decide_True by done.
  rewrite (dict_set_fresh k3); [done|]. cbn [app fmap list_fmap fst].
  rewrite !not_elem_of_cons. split_and!; [done|apply not_elem_of_nil].
Qed.

Lemma pd_DataFrame_rectangular n (cols : list (pystr * list pystr)) :
  Forall (λ c, length c.2 = n) cols → pd_DataFrame cols = Ok {| rf_columns := cols |}.
Proof.
  intros H. destruct H as [|[k c] cols Hc H]; [done|]. unfold pd_DataFrame.
  case_match eqn:Hall; [done|]. exfalso.
  apply not_true_iff_false in Hall. apply Hall, forallb_forall.
  intros kv Hkv%list_elem_of_In. rewrite Forall_forall in H.
  apply Nat.eqb_eq. rewrite (H _ Hkv). done.
Qed.

(** The builder never raises. *)
Lemma to_results_df_ok la lb uA uB sh : ∃ t, to_results_df la lb uA uB sh = Ok t.
Proof.
  unfold to_results_df. set (n := Nat.max _ _).
  destruct (decide (la = lb)) as [->|Hne].
  - rewrite dict_literal_same by apply unique_to_not_shared.
    eexists. apply (pd_DataFrame_rectangular n).
    repeat (apply Forall_cons_2; [apply pad_length; lia|]); apply Forall_nil_2.
  - rewrite dict_literal_distinct; [|by intros ?%app_inv_head|apply unique_to_not_shared..].
    eexists. apply (pd_DataFrame_rectangular n).
    repeat (apply Forall_cons_2; [apply pad_length; lia|]); apply Forall_nil_2.
Qed.

(** What the builder returns when both labels are the same: the second
    item of the dict display takes the place of the first, so that the
    table has two columns, the one named after the label holding the
    padded unique-to-B collection. *)
Lemma to_results_df_same_label (l : pystr) (unique_A unique_B shared : list pystr) :
  let n := Nat.max (length unique_A) (Nat.max (length unique_B) (length shared)) in
  to_results_df l l unique_A unique_B shared
  = Ok {| rf_columns := [ (py "Unique to " ++ l, unique_B ++ replicate (n - length unique_B) []);
                          (py "Shared", shared ++ replicate (n - length shared) []) ] |}.
Proof.
  intros n. unfold to_results_df. fold n.
  rewrite dict_literal_same by apply unique_to_not_shared.
  apply (pd_DataFrame_rectangular n).
  repeat (apply Forall_cons_2; [apply pad_length; lia|]); apply Forall_nil_2.
Qed.

(** X10: what the builder returns when the labels differ: the table is
    rectangular; its columns are, in this order, [Unique to A],
    [Unique to B] and [Shared]; each holds its collection followed by empty
    strings; and all three have as many rows as the longest collection. *)
Lemma to_results_df_distinct_labels (la lb : pystr) (unique_A unique_B shared : list pystr) :
  la ≠ lb →
  let n := Nat.max (length unique_A) (Nat.max (length unique_B) (length shared)) in
  ∃ t,
    to_results_df la lb unique_A unique_B shared = Ok t ∧
    rf_columns t = [ (py "Unique to " ++ la, unique_A ++ replicate (n - length unique_A) []);
                     (py "Unique to " ++ lb, unique_B ++ replicate (n - length unique_B) []);
                     (py "Shared", shared ++ replicate (n - length shared) []) ] ∧
    rf_nrows t = n ∧
    Forall (λ c, length c.2 = n) (rf_columns t).
Proof.
  intros Hne n. eexists. unfold to_results_df. fold n.
  rewrite dict_literal_distinct; [|by intros ?%app_inv_head|apply unique_to_not_shared..].
  assert (Forall (λ c : pystr * list pystr, length c.2 = n)
            [ (py "Unique to " ++ la, pad n unique_A); (py "Unique to " ++ lb, pad n unique_B);
              (py "Shared", pad n shared) ]) as Hrect.
  { repeat (apply Forall_cons_2; [apply pad_length; lia|]); apply Forall_nil_2. }
  rewrite (pd_DataFrame_rectangular n) by done.
  split_and!; [done..| |done].
  apply pad_length. lia.
Qed.

Example to_results_df_example :
  ∃ t,
    to_results_df (py "A") (py "B") [py "a"] [] [py "b"; py "c"] = Ok t ∧
    rf_columns t = [ (py "Unique to A", [py "a"; []]);
                     (py "Unique to B", [[]; []]);
                     (py "Shared", [py "b"; py "c"]) ] ∧
    rf_nrows t = 2%nat.
Proof. eexists. by vm_compute. Qed.

(** C3 on a failing input: for the labels X and X and the collections
    [a], [b] and [c], the builder raises nothing, but the table does not
    have the three columns [Unique to X], [Unique to X], [Shared]: it has
    two, and the column [Unique to X] holds the collection unique to B,
    the one unique to A being lost. *)
Lemma C3_same_label_loses_a_column :
  ∃ t, to_results_df (py "X") (py "X") [py "a"] [py "b"] [py "c"] = Ok t ∧
       rf_names t = [py "Unique to X"; py "Shared"] ∧
       rf_names t ≠ [py "Unique to X"; py "Unique to X"; py "Shared"] ∧
       rf_columns t = [(py "Unique to X", [py "b"]); (py "Shared", [py "c"])].
Proof. eexists. by vm_compute. Qed.

(** C5 on a failing input: for the labels X and X and the collections
    [a], [] and [], the table has one row, as the longest collection, but
    two columns instead of three, and the collection unique to A is in
    none of them. *)
Lemma C5_same_label_not_three_columns :
  ∃ t, to_results_df (py "X") (py "X") [py "a"] [] [] = Ok t ∧
       rf_nrows t = 1%nat ∧
       length (rf_columns t) = 2%nat ∧
       length (rf_columns t) ≠ 3%nat ∧
       rf_columns t = [(py "Unique to X", [[]]); (py "Shared", [[]])].
Proof. eexists. by vm_compute. Qed.

(** ** Rules for the weakest precondition *)

Section WpRules.
Context {value : Type}.
Implicit Types S : AppState value.

Lemma wp_mono {A} (m : M value A) (Q Q' : outcome A → AppState value → list event → Prop) S :
  wp m Q S → (∀ r S' ev, Q r S' ev → Q' r S' ev) → wp m Q' S.
Proof. unfold wp. auto. Qed.

Lemma wp_eq {A} (m : M value A) S r S' ev :
  wp m (λ r0 S0 ev0, r0 = r ∧ S0 = S' ∧ ev0 = ev) S → run m S = (r, S', ev).
Proof. unfold wp. destruct (run m S) as [[??]?]. cbn. by intros (-> & -> & ->). Qed.

Lemma wp_ret {A} (a : A) (Q : outcome A → AppState value → list event → Prop) S :
  Q (Ok a) S [] → wp (mret a) Q S.
Proof. done. Qed.

Lemma wp_bind {A B} (m : M value A) (k : A → M value B)
    (Q : outcome B → AppState value → list event → Prop) S :
  wp m (λ r S1 ev1,
          match r with
          | Ok a => wp (k a) (λ r2 S2 ev2, Q r2 S2 (ev1 ++ ev2)) S1
          | Raise e => Q (Raise e) S1 ev1
          end) S →
  wp (m ≫= k) Q S.
Proof.
  unfold wp, run, mbind, M_bind. destruct (m S) as [[[a|e] S1] ev1]; simpl; [|done].
  by destruct (k a S1) as [[r2 S2] ev2].
Qed.

Lemma wp_get (Q : outcome (AppState value) → AppState value → list event → Prop) S :
  Q (Ok S) S [] → wp get Q S.
Proof. done. Qed.

Lemma wp_modify f (Q : outcome unit → AppState value → list event → Prop) S :
  Q (Ok tt) (f S) [] → wp (modify f) Q S.
Proof. done. Qed.

Lemma wp_emit e (Q : outcome unit → AppState value → list event → Prop) S :
  Q (Ok tt) S [e] → wp (emit e) Q S.
Proof. done. Qed.

Lemma wp_raise {A} e (Q : outcome A → AppState value → list event → Prop) S :
  Q (Raise e) S [] → wp (raise e) Q S.
Proof. done. Qed.

Lemma wp_lift {A} (o : outcome A) (Q : outcome A → AppState value → list event → Prop) S :
  Q o S [] → wp (lift o) Q S.
Proof. done. Qed.

Lemma wp_extern (ok : bool) ev e (Q : outcome unit → AppState value → list event → Prop) S :
  (if ok then Q (Ok tt) S [ev] else Q (Raise e) S []) → wp (extern ok ev e) Q S.
Proof. by destruct ok. Qed.

Lemma wp_try_except {A} (body : M value A) handler
    (Q : outcome A → AppState value → list event → Prop) S :
  wp body (λ r S1 ev1,
             match r with
             | Ok a => Q (Ok a) S1 ev1
             | Raise e => wp (handler e) (λ r2 S2 ev2, Q r2 S2 (ev1 ++ ev2)) S1
             end) S →
  wp (try_except body handler) Q S.
Proof.
  unfold wp, run, try_except. destruct (body S) as [[[a|e] S1] ev1]; simpl; [done|].
  by destruct (handler e S1) as [[r2 S2] ev2].
Qed.

(** A loop whose body keeps an invariant of the state keeps it, whether it
    runs to its end or raises on the way. *)
Lemma wp_for_each_inv {A} (I : AppState value → Prop) (l : list A) (body : A → M value unit) S :
  (∀ x S, x ∈ l → I S → wp (body x) (λ _ S' _, I S') S) →
  I S → wp (for_each l body) (λ _ S' _, I S') S.
Proof.
  revert S; induction l as [|x l IH]; intros S Hbody HI; simpl.
  - by apply wp_ret.
  - apply wp_bind. eapply wp_mono; [apply Hbody; [left|done]|].
    intros [[]|e] S' ev HI'; [|done]. eapply wp_mono.
    + apply IH; [|done]. intros y S0 Hy. apply Hbody. by right.
    + done.
Qed.

End WpRules.

(** One step of symbolic execution of a callback. *)
Ltac wp_step :=
  lazymatch goal with
  | |- wp (mbind _ _) _ _ => apply wp_bind
  | |- wp (mret _) _ _ => apply wp_ret
  | |- wp get _ _ => apply wp_get
  | |- wp (modify _) _ _ => apply wp_modify
  | |- wp (emit _) _ _ => apply wp_emit
  | |- wp (raise _) _ _ => apply wp_raise
  | |- wp (lift _) _ _ => apply wp_lift
  | |- wp (extern _ _ _) _ _ => apply wp_extern
  | |- wp (save_png _ _ _) _ _ => apply wp_extern
  | |- wp (save_csv _ _ _) _ _ => apply wp_extern
  | |- wp (try_except _ _) _ _ => apply wp_try_except
  | |- wp (strip_or _ _) _ _ => unfold strip_or
  | |- wp (if ?b then _ else _) _ _ => destruct b eqn:?
  | |- wp (match ?x with _ => _ end) _ _ => destruct x eqn:?
  | |- match ?x with _ => _ end => destruct x eqn:?
  | |- if ?b then _ else _ => destruct b eqn:?
  end.

Ltac wp_auto := repeat (wp_step; cbn beta iota).

(** Redrawing the window reads the state and leaves it as it is. *)
Lemma refresh_sheet_ui_state {value} isna py_str os_path_basename (S : AppState value) :
  wp (refresh_sheet_ui isna py_str os_path_basename) (λ _ S' _, S' = S) S.
Proof. unfold refresh_sheet_ui. wp_auto; done. Qed.

Ltac wp_go :=
  repeat first
    [ eapply wp_mono; [apply refresh_sheet_ui_state|]; cbn beta; intros ? ? ? ->
    | wp_step; cbn beta iota ].

(** ** Invariants of the session *)

Section Invariants.
Context {value : Type} (isna : value → bool) (py_str : value → pystr).
Variable is_alnum : N → bool.
Variable os_path_dirname os_path_basename : pystr → pystr.
Variable os_path_join : pystr → pystr → pystr.

#[local] Abbreviation run_callback' :=
  (run_callback isna py_str is_alnum os_path_dirname os_path_basename os_path_join).
#[local] Abbreviation run_session' :=
  (run_session isna py_str is_alnum os_path_dirname os_path_basename os_path_join).
#[local] Abbreviation reachable' :=
  (reachable isna py_str is_alnum os_path_dirname os_path_basename os_path_join).
#[local] Abbreviation save_loop' := (save_loop isna py_str is_alnum os_path_join).
#[local] Abbreviation save_all_sheets' :=
  (save_all_sheets isna py_str is_alnum os_path_dirname os_path_join).
#[local] Abbreviation save_current_sheet' :=
  (save_current_sheet isna py_str is_alnum os_path_dirname os_path_join).
#[local] Abbreviation load_workbook' := (load_workbook isna py_str os_path_basename).
#[local] Abbreviation update_alpha_labely' :=
  (update_alpha_labely isna py_str os_path_basename).
#[local] Abbreviation written_for' := (written_for isna py_str is_alnum os_path_join).

Lemma save_loop_state rt ts bd writer names done (S : AppState value) :
  wp (save_loop' rt ts bd writer names done) (λ _ S' _, S' = S) S.
Proof.
  revert done; induction names as [|name names IH]; intros done; simpl;
    wp_go; solve [done | apply IH].
Qed.

Lemma save_all_sheets_state rt ts c (S : AppState value) :
  wp (save_all_sheets' rt ts c) (λ _ S' _, S' = S) S.
Proof.
  unfold save_all_sheets.
  repeat first
    [ done
    | eapply wp_mono; [apply save_loop_state|]; cbn beta; intros ? ? ? ->
    | wp_step; cbn beta iota ].
Qed.

Lemma save_current_sheet_state rt ts (S : AppState value) :
  wp (save_current_sheet' rt ts) (λ _ S' _, S' = S) S.
Proof. unfold save_current_sheet. wp_go; done. Qed.

Lemma run_session_snoc cbs cb (S : AppState value) :
  run_session' (cbs ++ [cb]) S
  = state_after isna py_str is_alnum os_path_dirname os_path_basename os_path_join cb
      (run_session' cbs S).
Proof. unfold run_session. by rewrite foldl_app. Qed.

(** An invariant of the initial state and of every callback holds in every
    state the application reaches. *)
Lemma reachable_ind (I : AppState value → Prop) :
  I AppState_init →
  (∀ cb S, I S → wp (run_callback' cb) (λ _ S' _, I S') S) →
  ∀ S, reachable' S → I S.
Proof.
  intros Hinit Hstep S [cbs ->]. induction cbs as [|cb cbs IH] using rev_ind; [done|].
  rewrite run_session_snoc. apply (Hstep cb _ IH).
Qed.

(** *** Consistency of the loaded worksheets *)

Lemma consistent_frame (S S' : AppState value) :
  sheets S' = sheets S → dfs S' = dfs S → wb_path S' = wb_path S →
  (∀ name, is_Some (labels S !! name) → is_Some (labels S' !! name)) →
  consistent S → consistent S'.
Proof.
  intros Hs Hd Hw Hl [H1 H2]. split.
  - intros name Hname. rewrite Hs in Hname.
    destruct (H1 name Hname) as (df & la & lb & ? & ? & Hlab).
    destruct (Hl name) as [[la' lb'] ?]; [by rewrite Hlab|].
    exists df, la', lb'. by rewrite Hd.
  - unfold has_data. rewrite Hd, Hw. apply H2.
Qed.

Lemma consistent_insert_label (S : AppState value) name l :
  consistent S → consistent (set_labels (<[name := l]> (labels S)) S).
Proof.
  apply consistent_frame; [done..|]. intros name' H. cbn.
  rewrite lookup_insert. by case_decide.
Qed.

Lemma column_label_two (df : DataFrame value) :
  (2 ≤ ncols df)%nat → ∃ c0 c1, column_label df 0 = Ok c0 ∧ column_label df 1 = Ok c1.
Proof.
  unfold ncols, column_label. destruct (df_columns df) as [|a [|b ?]]; simpl; try lia.
  intros _. by eexists _, _.
Qed.

Lemma iloc_col_two (df : DataFrame value) :
  (2 ≤ ncols df)%nat → ∃ colA colB, iloc_col df 0 = Ok colA ∧ iloc_col df 1 = Ok colB.
Proof.
  unfold ncols, iloc_col. destruct (df_columns df) as [|a [|b ?]]; simpl; try lia.
  intros _. by eexists _, _.
Qed.

Lemma load_sheet_consistent (wb : Workbook value) name S :
  consistent S → is_Some (wb_path S) →
  wp (load_sheet py_str wb name)
     (λ _ S' _, consistent S' ∧ is_Some (wb_path S')) S.
Proof.
  intros [H1 H2] Hw. unfold load_sheet. apply wp_bind, wp_lift.
  destruct (parse wb name) as [df|e]; [|done].
  destruct (2 <=? ncols df)%nat eqn:Hcols; [|by apply wp_ret].
  apply Nat.leb_le in Hcols.
  destruct (column_label_two df Hcols) as (c0 & c1 & -> & ->).
  wp_go. split; [|done]. split; [|done]. cbn. intros name' Hin.
  apply elem_of_app in Hin as [Hin|Hin%list_elem_of_singleton]; [|subst name'].
  - destruct (H1 name' Hin) as (df' & la & lb & ? & ? & ?).
    destruct (decide (name = name')) as [->|Hne].
    + eexists _, _, _. by rewrite !lookup_insert_eq.
    + exists df', la, lb. by rewrite !lookup_insert_ne.
  - eexists _, _, _. by rewrite !lookup_insert_eq.
Qed.

Lemma load_workbook_consistent path excel_file (S : AppState value) :
  consistent S → wp (load_workbook' path excel_file) (λ _ S' _, consistent S') S.
Proof.
  intros HS. unfold load_workbook. destruct path as [|c path]; [by apply wp_ret|].
  apply wp_try_except, wp_bind, wp_lift. destruct excel_file as [wb|e]; [|by apply wp_emit].
  do 5 (apply wp_bind, wp_modify; cbn beta iota). apply wp_bind.
  eapply wp_mono.
  { apply (wp_for_each_inv (λ S, consistent S ∧ is_Some (wb_path S))).
    - intros name S0 _ [??]. by apply load_sheet_consistent.
    - split; [|by eexists]. split; [by intros ? ?%elem_of_nil|by eexists]. }
  cbn beta. intros [[]|e] S1 ev [H1 _]; [|by apply wp_emit].
  wp_go; done.
Qed.

Lemma run_callback_consistent cb (S : AppState value) :
  consistent S → wp (run_callback' cb) (λ _ S' _, consistent S') S.
Proof.
  intros HS. destruct cb; cbn [run_callback].
  - by apply load_workbook_consistent.
  - unfold apply_label_changes. wp_go; try done; by apply consistent_insert_label.
  - unfold reset_labels_to_headers. wp_go; try done; by apply consistent_insert_label.
  - unfold pick_colorA. wp_go; done.
  - unfold pick_colorB. wp_go; done.
  - unfold update_alpha_labely. wp_go; done.
  - unfold prev_sheet. wp_go; done.
  - unfold next_sheet. wp_go; done.
  - eapply wp_mono; [apply save_current_sheet_state|]. by intros ? ? ? ->.
  - eapply wp_mono; [apply save_all_sheets_state|]. by intros ? ? ? ->.
Qed.

Lemma consistent_init : consistent (AppState_init (value := value)).
Proof. split; [by intros ? ?%elem_of_nil|done]. Qed.

Lemma reachable_consistent S : reachable' S → consistent S.
Proof. apply reachable_ind; [apply consistent_init|apply run_callback_consistent]. Qed.

(** *** Batch export *)

(** Without a writer, the loop writes the two files of every worksheet and
    counts each of them. *)
Lemma save_loop_no_writer rt ts bd names done (S : AppState value) :
  fs_ok rt →
  (∀ name, name ∈ names →
     ∃ df la lb, dfs S !! name = Some df ∧ (2 ≤ ncols df)%nat ∧
                 labels S !! name = Some (la, lb)) →
  wp (save_loop' rt ts bd false names done)
     (λ r S' ev, r = Ok (done + length names)%nat ∧ S' = S ∧
                 ∃ per_sheet, Forall2 (written_for' S ts bd) names per_sheet ∧
                              ev = concat per_sheet) S.
Proof.
  intros (_ & Hfig & Hcsv). revert done.
  induction names as [|name names IH]; intros done Hnames; cbn [save_loop].
  { apply wp_ret. rewrite Nat.add_0_r. split_and!; [done..|]. exists []. by split. }
  destruct (Hnames name) as (df & la & lb & Hdf & Hcols & Hlab); [left|].
  destruct (iloc_col_two df Hcols) as (colA & colB & HA & HB).
  destruct (compute_sets isna py_str colA colB) as [[[[setA setB] uA] uB] sh] eqn:Hsets.
  destruct (to_results_df_ok la lb uA uB sh) as [t Ht].
  apply wp_bind, wp_get. cbn beta iota.
  apply wp_bind, wp_lift. unfold py_getitem at 1. rewrite Hdf. cbn beta iota.
  replace (ncols df <? 2)%nat with false by (symmetry; apply Nat.ltb_ge; lia).
  apply wp_bind, wp_lift. unfold py_getitem at 1. rewrite Hlab. cbn beta iota.
  apply wp_bind, wp_lift. rewrite HA. cbn beta iota.
  apply wp_bind, wp_lift. rewrite HB. cbn beta iota. rewrite Hsets.
  apply wp_bind, wp_extern. rewrite Hfig. cbn beta iota.
  apply wp_bind, wp_lift. rewrite Ht. cbn beta iota.
  apply wp_bind, wp_extern. rewrite Hcsv. cbn beta iota.
  apply wp_bind, wp_ret. cbn beta iota.
  eapply wp_mono; [apply IH; intros; apply Hnames; by right|].
  cbn beta. intros r S' ev (-> & -> & per_sheet & Hper & ->).
  split_and!; [f_equal; simpl; lia|done|].
  exists ([ SavePng (os_path_join bd (file_stem is_alnum name la lb ts ++ py ".png"))
              (draw_symmetric setA setB la lb (colorA S) (colorB S) (alpha S) (label_y S));
            SaveCsv (os_path_join bd (file_stem is_alnum name la lb ts ++ py ".csv")) t ]
          :: per_sheet).
  split; [|reflexivity].
  constructor; [|done]. by eexists df, la, lb, colA, colB, setA, setB, uA, uB, sh, t.
Qed.

Lemma written_for_no_warning S ts bd names per_sheet :
  Forall2 (written_for' S ts bd) names per_sheet →
  List.filter is_warning (concat per_sheet) = [] ∧
  List.filter is_combined (concat per_sheet) = [].
Proof.
  induction 1 as [|name evs names per Hw _ IH]; [done|].
  destruct Hw as (?&?&?&?&?&?&?&?&?&?&?&_&_&_&_&_&_&->). apply IH.
Qed.

(** C8: in a session that holds worksheets, when the batch export is asked
    for the combined workbook and the writer cannot be created, while the
    file system works, the export does not raise and leaves the session as
    it is; after the output directory and one warning it writes, for every
    worksheet of the list in turn, its image and its table; it ends by
    reporting as many worksheets as the list has, in the message that
    names the output directory and no combined workbook.  The log holds
    exactly one warning and nothing of the writer. *)
Theorem C8_batch_without_writer rt ts (S : AppState value) :
  reachable' S →
  has_data S = true →
  fs_ok rt →
  (∀ p, excel_writer_ok rt p = false) →
  ∃ base_dir per_sheet log,
    run (save_all_sheets' rt ts 1) S = (Ok tt, S, log) ∧
    Forall2 (written_for' S ts base_dir) (sheets S) per_sheet ∧
    log = [ MakeDirs base_dir;
            ShowWarning (py "Combined Excel")
              (py "openpyxl not available; skipping combined workbook." ++ nl
                 ++ py "Run: pip install openpyxl") ]
          ++ concat per_sheet
          ++ [ ShowInfo (py "Saved")
                 (py "Saved " ++ str_of_nat (length (sheets S))
                    ++ py " sheet(s) PNG+CSV in:" ++ nl ++ base_dir) ] ∧
    length (List.filter is_warning log) = 1%nat ∧
    List.filter is_combined log = [].
Proof.
  intros [Hsheets Hpath]%reachable_consistent Hdata Hfs Hwriter.
  destruct (Hpath Hdata) as [path Hp].
  pose (base_dir := os_path_join (os_path_dirname path) (py "Venn_Outputs")).
  assert (wp (save_all_sheets' rt ts 1)
            (λ r S' ev, r = Ok tt ∧ S' = S ∧
               ∃ per_sheet, Forall2 (written_for' S ts base_dir) (sheets S) per_sheet ∧
                 ev = [ MakeDirs base_dir;
                        ShowWarning (py "Combined Excel")
                          (py "openpyxl not available; skipping combined workbook." ++ nl
                             ++ py "Run: pip install openpyxl") ]
                      ++ concat per_sheet
                      ++ [ ShowInfo (py "Saved")
                             (py "Saved " ++ str_of_nat (length (sheets S))
                                ++ py " sheet(s) PNG+CSV in:" ++ nl ++ base_dir) ]) S) as Hwp.
  { unfold save_all_sheets. apply wp_bind, wp_get. cbn beta iota. rewrite Hdata.
    cbn [negb]. apply wp_bind, wp_lift. unfold output_dir. rewrite Hp. fold base_dir.
    cbn beta iota. apply wp_bind, wp_extern. rewrite (proj1 Hfs). cbn beta iota.
    apply wp_bind. cbn [Z.eqb Pos.eqb]. apply wp_try_except, wp_bind, wp_extern.
    rewrite Hwriter. cbn beta iota. apply wp_bind, wp_emit. cbn beta iota.
    apply wp_ret. cbn beta iota. apply wp_bind.
    eapply wp_mono; [by apply save_loop_no_writer|].
    cbn beta. intros r S' ev (-> & -> & per_sheet & Hper & ->). cbn beta iota.
    apply wp_emit. split_and!; [done..|]. exists per_sheet. split; [done|].
    by rewrite <-!app_assoc. }
  unfold wp in Hwp. destruct (run _ S) as [[r S'] ev]. cbn [fst snd] in Hwp.
  destruct Hwp as (-> & -> & per_sheet & Hper & ->).
  destruct (written_for_no_warning _ _ _ _ _ Hper) as [Hnw Hnc].
  eexists base_dir, per_sheet, _. split_and!; [reflexivity|done|reflexivity| |].
  - cbn [app List.filter is_warning]. by rewrite List.filter_app, Hnw.
  - cbn [app List.filter is_combined]. by rewrite List.filter_app, Hnc.
Qed.

(** *** Loading a workbook without usable worksheets *)

(** Worksheets with fewer than two columns are passed over. *)
Lemma for_each_load_sheet_unusable (wb : Workbook value) names (S : AppState value) :
  (∀ name, name ∈ names → ∃ df, parse wb name = Ok df ∧ (ncols df < 2)%nat) →
  wp (for_each names (load_sheet py_str wb)) (λ r S' ev, r = Ok tt ∧ S' = S ∧ ev = []) S.
Proof.
  induction names as [|name names IH]; intros Hnames; cbn [for_each].
  - by apply wp_ret.
  - destruct (Hnames name) as (df & Hdf & Hcols); [left|].
    apply wp_bind. unfold load_sheet. apply wp_bind, wp_lift. rewrite Hdf. cbn beta iota.
    replace (2 <=? ncols df)%nat with false by (symmetry; apply Nat.leb_gt; lia).
    apply wp_ret. eapply wp_mono; [apply IH; intros; apply Hnames; by right|].
    cbn beta. by intros r S' ev (-> & -> & ->).
Qed.

(** C2, as amended: when a workbook opens and none of its worksheets has
    two columns, the load reports "No usable sheets" and the session is
    not what it was: it is left empty (no worksheets, no data, no labels,
    no headers) and attached to the path of the workbook that was tried;
    the cursor and the visual style are unchanged. *)
Theorem C2_no_usable_sheets_clears_session (path : pystr) (wb : Workbook value)
    (S : AppState value) :
  path ≠ [] →
  (∀ name, name ∈ sheet_names wb → ∃ df, parse wb name = Ok df ∧ (ncols df < 2)%nat) →
  run (load_workbook' path (Ok wb)) S
  = (Ok tt, cleared path S,
     [ShowError (py "No usable sheets")
        (py "No sheets with at least two columns (A & B) found.")]).
Proof.
  intros Hpath Hwb. apply wp_eq. unfold load_workbook.
  destruct path as [|c path]; [done|].
  apply wp_try_except, wp_bind, wp_lift. cbn beta iota.
  do 5 (apply wp_bind, wp_modify; cbn beta iota). apply wp_bind.
  eapply wp_mono; [by apply for_each_load_sheet_unusable|].
  cbn beta. intros r S' ev (-> & -> & ->). cbn beta iota.
  apply wp_bind, wp_get. cbn. done.
Qed.

(** X16: a workbook that cannot be opened leaves the session as it is: the
    load shows the error and nothing else happens. *)
Lemma load_workbook_unreadable path e (S : AppState value) :
  path ≠ [] →
  run (load_workbook' path (Raise e)) S
  = (Ok tt, S, [ShowError (py "Error loading workbook") (exn_msg e)]).
Proof. intros Hpath. destruct path; [done|]. reflexivity. Qed.

(** *** The visual style *)

(** X23: a style update whose entries do not parse, or whose numbers fail the
    test, changes nothing and shows the error. *)
Lemma update_alpha_labely_rejected entry_alpha entry_labely (S : AppState value) :
  match entry_alpha, entry_labely with
  | Ok a, Ok ly => style_checked a ly = false
  | _, _ => True
  end →
  run (update_alpha_labely' entry_alpha entry_labely) S
  = (Ok tt, S,
     [ShowError (py "Invalid values")
        (py "Alpha must be 0" ++ [8211] ++ py "1 and label height ~0.9" ++ [8211] ++ py "1.6")]).
Proof.
  intros H. apply wp_eq. unfold update_alpha_labely.
  apply wp_try_except, wp_bind, wp_lift.
  destruct entry_alpha as [a|e]; [|by apply wp_emit].
  apply wp_bind, wp_lift. destruct entry_labely as [ly|e]; [|by apply wp_emit].
  unfold style_checked in H. apply wp_bind.
  destruct ((0.0 <=? a)%float && (a <=? 1.0)%float); cbn [negb].
  - apply wp_ret. apply wp_bind. cbn [andb] in H.
    destruct ((ly <? 0.9)%float || (1.6 <? ly)%float); [|done].
    apply wp_raise. by apply wp_emit.
  - apply wp_raise. by apply wp_emit.
Qed.

(** X24: in every state the application can reach, the opacity and the
    label height pass the test of [update_alpha_labely]: no press of a
    button stores a pair that the test rejects. *)
Lemma reachable_style_checked S :
  reachable' S → style_checked (alpha S) (label_y S) = true.
Proof.
  revert S. apply (reachable_ind (λ S, style_checked (alpha S) (label_y S) = true)); [done|].
  intros cb S0 HS. destruct cb; cbn [run_callback].
  - unfold load_workbook. destruct path as [|c path]; [by apply wp_ret|].
    apply wp_try_except, wp_bind, wp_lift.
    destruct excel_file as [wb|e]; [|by apply wp_emit].
    do 5 (apply wp_bind, wp_modify; cbn beta iota). apply wp_bind.
    eapply wp_mono.
    { apply (wp_for_each_inv (λ S, style_checked (alpha S) (label_y S) = true)); [|done].
      intros name S1 _ HS1. unfold load_sheet. wp_auto; done. }
    cbn beta. intros [[]|e] S1 ev HS1; [|by apply wp_emit].
    wp_go; done.
  - unfold apply_label_changes. wp_go; done.
  - unfold reset_labels_to_headers. wp_go; done.
  - unfold pick_colorA. wp_go; done.
  - unfold pick_colorB. wp_go; done.
  - unfold update_alpha_labely. wp_go; try done.
    all: cbn; unfold style_checked; apply negb_false_iff in Heqb; rewrite Heqb;
      cbn; by rewrite Heqb0.
  - unfold prev_sheet. wp_go; done.
  - unfold next_sheet. wp_go; done.
  - eapply wp_mono; [apply save_current_sheet_state|]. by intros ? ? ? ->.
  - eapply wp_mono; [apply save_all_sheets_state|]. by intros ? ? ? ->.
Qed.

(** *** The cursor *)

Lemma py_mod_range a n i :
  py_mod a (Z.of_nat n) = Ok i → (0 ≤ i < Z.of_nat n)%Z.
Proof.
  unfold py_mod. destruct (Z.eqb_spec (Z.of_nat n) 0); [done|].
  intros [= <-]. apply Z.mod_pos_bound. lia.
Qed.

(** In a loop over worksheets that all parse, no iteration raises. *)
Lemma for_each_load_sheet_ok (wb : Workbook value) names (S : AppState value) :
  (∀ name, name ∈ names → ∃ df, parse wb name = Ok df) →
  wp (for_each names (load_sheet py_str wb)) (λ r _ _, r = Ok tt) S.
Proof.
  revert S; induction names as [|name names IH]; intros S Hnames; cbn [for_each].
  - by apply wp_ret.
  - destruct (Hnames name) as (df & Hdf); [left|].
    assert (∀ S', wp (for_each names (load_sheet py_str wb)) (λ r _ _, r = Ok tt) S') as IH'.
    { intros S'. apply IH. intros. apply Hnames. by right. }
    apply wp_bind. unfold load_sheet. apply wp_bind, wp_lift. rewrite Hdf. cbn beta iota.
    destruct (2 <=? ncols df)%nat eqn:Hcols; [|apply wp_ret, IH'].
    apply Nat.leb_le in Hcols.
    destruct (column_label_two df Hcols) as (c0 & c1 & -> & ->).
    wp_go. apply IH'.
Qed.

Lemma load_workbook_cursor path excel_file (S : AppState value) :
  parses_all (CbLoadWorkbook path excel_file) → cursor_in_range S →
  wp (load_workbook' path excel_file) (λ _ S' _, cursor_in_range S') S.
Proof.
  intros Hwb HS. unfold load_workbook. destruct path as [|c path]; [by apply wp_ret|].
  apply wp_try_except, wp_bind, wp_lift. destruct excel_file as [wb|e]; [|by apply wp_emit].
  do 5 (apply wp_bind, wp_modify; cbn beta iota). apply wp_bind.
  eapply wp_mono; [by apply for_each_load_sheet_ok|].
  cbn beta. intros r S1 ev ->. cbn beta iota.
  wp_go; unfold cursor_in_range; cbn; try done; rewrite Heql; cbn; lia.
Qed.

(** Every button press during which no worksheet fails to parse keeps the
    cursor in range; [prev_sheet] and [next_sheet] do so by wrapping. *)
Lemma run_callback_cursor cb (S : AppState value) :
  parses_all cb → cursor_in_range S →
  wp (run_callback' cb) (λ _ S' _, cursor_in_range S') S.
Proof.
  intros Hcb HS. destruct cb; cbn [run_callback].
  - by apply load_workbook_cursor.
  - unfold apply_label_changes. wp_go; done.
  - unfold reset_labels_to_headers. wp_go; done.
  - unfold pick_colorA. wp_go; done.
  - unfold pick_colorB. wp_go; done.
  - unfold update_alpha_labely. wp_go; done.
  - unfold prev_sheet. wp_go; try done; intros _; by eapply py_mod_range.
  - unfold next_sheet. wp_go; try done; intros _; by eapply py_mod_range.
  - eapply wp_mono; [apply save_current_sheet_state|]. by intros ? ? ? ->.
  - eapply wp_mono; [apply save_all_sheets_state|]. by intros ? ? ? ->.
Qed.

(** X25: as long as no worksheet fails to parse during a load, the cursor
    designates a worksheet whenever there is one. *)
Lemma run_session_cursor cbs :
  Forall parses_all cbs → cursor_in_range (run_session' cbs AppState_init).
Proof.
  induction cbs as [|cb cbs IH] using rev_ind; [done|].
  intros [Hcbs Hcb]%Forall_app. rewrite Forall_singleton in Hcb. rewrite run_session_snoc.
  exact (run_callback_cursor cb _ Hcb (IH Hcbs)).
Qed.

End Invariants.

(** ** The properties on the example sessions *)

(** C8 on the session of three worksheets. *)
Lemma C8_batch_without_writer_witness :
  reachable pyval_isna pyval_str ascii_alnum posix_dirname posix_basename posix_join st_three ∧
  has_data st_three = true ∧
  fs_ok rt_no_openpyxl ∧
  (∀ p, excel_writer_ok rt_no_openpyxl p = false) ∧
  ∃ base_dir per_sheet log,
    run (save_all_sheets pyval_isna pyval_str ascii_alnum posix_dirname posix_join
           rt_no_openpyxl (py "20250101-120000") 1) st_three
    = (Ok tt, st_three, log) ∧
    Forall2 (written_for pyval_isna pyval_str ascii_alnum posix_join st_three
               (py "20250101-120000") base_dir) (sheets st_three) per_sheet ∧
    log = [ MakeDirs base_dir;
            ShowWarning (py "Combined Excel")
              (py "openpyxl not available; skipping combined workbook." ++ nl
                 ++ py "Run: pip install openpyxl") ]
          ++ concat per_sheet
          ++ [ ShowInfo (py "Saved")
                 (py "Saved " ++ str_of_nat (length (sheets st_three))
                    ++ py " sheet(s) PNG+CSV in:" ++ nl ++ base_dir) ] ∧
    length (List.filter is_warning log) = 1%nat ∧
    List.filter is_combined log = [].
Proof.
  assert (reachable pyval_isna pyval_str ascii_alnum posix_dirname posix_basename posix_join
            st_three) as Hreach.
  { exists [CbLoadWorkbook (py "/data/genes.xlsx") (Ok wb_three)]. reflexivity. }
  assert (has_data st_three = true) as Hdata by (vm_compute; reflexivity).
  assert (fs_ok rt_no_openpyxl) as Hfs by (split_and!; intros p; reflexivity).
  assert (∀ p, excel_writer_ok rt_no_openpyxl p = false) as Hw by (intros p; reflexivity).
  split; [exact Hreach|]. split; [exact Hdata|]. split; [exact Hfs|]. split; [exact Hw|].
  exact (C8_batch_without_writer pyval_isna pyval_str ascii_alnum posix_dirname posix_basename
           posix_join rt_no_openpyxl (py "20250101-120000") st_three Hreach Hdata Hfs Hw).
Defined.

(** The example of the specification: three worksheets, the writer being
    unavailable, give three images and three tables, one warning and the
    report of three worksheets. *)
Example save_all_sheets_example :
  let log := log_of pyval_isna pyval_str ascii_alnum posix_dirname posix_basename posix_join
               (CbSaveAll rt_no_openpyxl (py "20250101-120000") 1) st_three in
  length (List.filter (λ e, match e with SavePng _ _ => true | _ => false end) log) = 3%nat ∧
  length (List.filter (λ e, match e with SaveCsv _ _ => true | _ => false end) log) = 3%nat ∧
  length (List.filter is_warning log) = 1%nat ∧
  last log = Some (ShowInfo (py "Saved")
                     (py "Saved 3 sheet(s) PNG+CSV in:" ++ nl ++ py "/data/Venn_Outputs")).
Proof. by vm_compute. Qed.

(** C2, as amended, on the session of three worksheets and a workbook
    whose only worksheet has one column. *)
Lemma C2_no_usable_sheets_clears_session_witness :
  py "/data/notes.xlsx" ≠ [] ∧
  (∀ name, name ∈ sheet_names wb_one_column →
     ∃ df, parse wb_one_column name = Ok df ∧ (ncols df < 2)%nat) ∧
  run (load_workbook pyval_isna pyval_str posix_basename (py "/data/notes.xlsx")
         (Ok wb_one_column)) st_three
  = (Ok tt, cleared (py "/data/notes.xlsx") st_three,
     [ShowError (py "No usable sheets")
        (py "No sheets with at least two columns (A & B) found.")]).
Proof.
  assert (py "/data/notes.xlsx" ≠ []) as H1 by done.
  assert (∀ name, name ∈ sheet_names wb_one_column →
     ∃ df, parse wb_one_column name = Ok df ∧ (ncols df < 2)%nat) as H2.
  { intros name ->%list_elem_of_singleton. eexists. split; [reflexivity|]. cbn. lia. }
  split; [exact H1|]. split; [exact H2|].
  exact (C2_no_usable_sheets_clears_session pyval_isna pyval_str posix_basename
           (py "/data/notes.xlsx") wb_one_column st_three H1 H2).
Defined.

(** C2, as stated, fails: a session holding three worksheets is asked to
    load a workbook whose only worksheet has one column; the load reports
    "No usable sheets", and the session is no longer what it was: its
    worksheets are gone and its workbook path is the new one. *)
Lemma C2_session_not_kept :
  let cb := CbLoadWorkbook (py "/data/notes.xlsx") (Ok wb_one_column) in
  let S' := state_after pyval_isna pyval_str ascii_alnum posix_dirname posix_basename posix_join
              cb st_three in
  log_of pyval_isna pyval_str ascii_alnum posix_dirname posix_basename posix_join cb st_three
  = [ShowError (py "No usable sheets")
       (py "No sheets with at least two columns (A & B) found.")] ∧
  sheets st_three = [py "Genes"; py "Run 2"; py "Run 3"] ∧
  wb_path st_three = Some (py "/data/genes.xlsx") ∧
  sheets S' = [] ∧
  has_data S' = false ∧
  wb_path S' = Some (py "/data/notes.xlsx") ∧
  S' ≠ st_three.
Proof.
  split_and!; [by vm_compute..|].
  intros H. apply (f_equal sheets) in H. vm_compute in H. discriminate H.
Qed.

(** C6 on a failing input: alpha 0.5 with the label height entry "nan",
    which [float] parses.  The test on the label height compares with [<]
    and [>] only, both false on a NaN, while the test on alpha is written
    so that a NaN fails it.  The update is taken: no error is shown, the
    label height of the session is now NaN, and the window is redrawn with
    the labels at that height. *)
Lemma C6_nan_label_height_accepted :
  let cb := CbUpdateAlphaLabely (Ok 0.5%float) (Ok PrimFloat.nan) in
  let S' := state_after pyval_isna pyval_str ascii_alnum posix_dirname posix_basename posix_join
              cb st_three in
  let log := log_of pyval_isna pyval_str ascii_alnum posix_dirname posix_basename posix_join
               cb st_three in
  style_checked 0.5 PrimFloat.nan = true ∧
  style_checked PrimFloat.nan 1.12 = false ∧
  PrimFloat.is_nan (label_y st_three) = false ∧
  PrimFloat.is_nan (label_y S') = true ∧
  alpha S' = 0.5%float ∧
  List.filter is_error log = [] ∧
  existsb draws_at_nan log = true.
Proof. by vm_compute. Qed.

(** C9 on a failing input: three worksheets are loaded, Prev moves the
    cursor to 2, and the next workbook raises while its second worksheet
    is parsed.  The first worksheet of that workbook is then the only one
    of the list, the cursor is still 2, and the lookup of the current
    worksheet is out of bounds: saving the current worksheet raises
    [IndexError]. *)
Lemma C9_stale_cursor_after_failed_load :
  let S := session session_stale AppState_init in
  sheets S = [py "Good"] ∧ idx S = 2%Z ∧ has_data S = true ∧
  ¬ cursor_in_range S ∧
  py_index (sheets S) (idx S) = Raise (Exn IndexError (py "list index out of range")) ∧
  run (run_cb (CbSaveCurrent rt_no_openpyxl (py "20250101-120000"))) S
  = (Raise (Exn IndexError (py "list index out of range")), S, []).
Proof.
  split_and!;
    [by vm_compute|by vm_compute|by vm_compute| |by vm_compute|by vm_compute].
  intros H. unfold cursor_in_range in H.
  assert (sheets (session session_stale AppState_init) = [py "Good"]) as Hs by (by vm_compute).
  assert (idx (session session_stale AppState_init) = 2%Z) as Hi by (by vm_compute).
  rewrite Hs, Hi in H. cbn in H. assert ([py "Good"] ≠ []) as Hne by done.
  specialize (H Hne). lia.
Qed.

(** * Further properties *)

(** ** The set comparator *)

(** Sorting the empty set. *)
Lemma py_sorted_empty : py_sorted ∅ = [].
Proof. unfold py_sorted. by rewrite elements_empty. Qed.

Section ComparatorMore.
Context {value : Type} (isna : value → bool) (py_str : value → pystr).

(** X1: exchanging the two columns exchanges the two sets and the two
    lists of unique strings, and leaves the shared list as it is. *)
Theorem compute_sets_swap (seriesA seriesB : list value) :
  ∃ setA setB unique_A unique_B shared,
    compute_sets isna py_str seriesA seriesB = (setA, setB, unique_A, unique_B, shared) ∧
    compute_sets isna py_str seriesB seriesA = (setB, setA, unique_B, unique_A, shared).
Proof.
  eexists _, _, _, _, _. split; [reflexivity|]. unfold compute_sets.
  generalize (list_to_set (dropna_astype_str isna py_str seriesA) : gset pystr)
             (list_to_set (dropna_astype_str isna py_str seriesB) : gset pystr).
  intros X Y. assert (Y ∩ X = X ∩ Y) as ->; [|done].
  apply set_eq. intros s. rewrite !elem_of_intersection. tauto.
Qed.

(** X2: the result depends only on which strings the cells that are not
    missing give: two pairs of columns that give the same strings, whatever
    the cells, their number and their order, have the same result. *)
Theorem compute_sets_same_strings (A A' B B' : list value) :
  (∀ s, s ∈ dropna_astype_str isna py_str A ↔ s ∈ dropna_astype_str isna py_str A') →
  (∀ s, s ∈ dropna_astype_str isna py_str B ↔ s ∈ dropna_astype_str isna py_str B') →
  compute_sets isna py_str A B = compute_sets isna py_str A' B'.
Proof.
  intros HA HB. unfold compute_sets.
  assert ((list_to_set (dropna_astype_str isna py_str A) : gset pystr)
          = list_to_set (dropna_astype_str isna py_str A')) as ->.
  { apply set_eq. intros s. by rewrite !elem_of_list_to_set. }
  assert ((list_to_set (dropna_astype_str isna py_str B) : gset pystr)
          = list_to_set (dropna_astype_str isna py_str B')) as ->.
  { apply set_eq. intros s. by rewrite !elem_of_list_to_set. }
  done.
Qed.

(** A column of missing cells gives no string. *)
Lemma dropna_all_missing (A : list value) :
  Forall (λ v, isna v = true) A → dropna_astype_str isna py_str A = [].
Proof.
  unfold dropna_astype_str. induction 1 as [|v A Hv _ IH]; [done|].
  simpl. by rewrite Hv.
Qed.

(** X3: when every cell of one column is missing, nothing is shared and
    nothing is unique to that column, on whichever side it stands; the
    strings of the other column are all unique to it, each listed once. *)
Theorem compute_sets_missing_column (A B : list value) :
  Forall (λ v, isna v = true) A →
  ∃ setB unique_B,
    compute_sets isna py_str A B = (∅, setB, [], unique_B, []) ∧
    compute_sets isna py_str B A = (setB, ∅, unique_B, [], []) ∧
    (∀ s, s ∈ unique_B ↔ ∃ v, v ∈ B ∧ isna v = false ∧ py_str v = s) ∧
    length unique_B = size setB.
Proof.
  intros HA. eexists _, _. unfold compute_sets. rewrite (dropna_all_missing A HA).
  cbn [list_to_set foldr].
  assert (∀ X : gset pystr, ∅ ∖ X = ∅) as E1
    by (intros X; apply set_eq; intros s; rewrite elem_of_difference, elem_of_empty; tauto).
  assert (∀ X : gset pystr, X ∖ ∅ = X) as E2
    by (intros X; apply set_eq; intros s; rewrite elem_of_difference, elem_of_empty; tauto).
  assert (∀ X : gset pystr, ∅ ∩ X = ∅) as E3
    by (intros X; apply set_eq; intros s; rewrite elem_of_intersection, elem_of_empty; tauto).
  assert (∀ X : gset pystr, X ∩ ∅ = ∅) as E4
    by (intros X; apply set_eq; intros s; rewrite elem_of_intersection, elem_of_empty; tauto).
  rewrite E1, E2, E3, E4, py_sorted_empty. split_and!; [done..| |].
  - intros s. by rewrite py_sorted_elem_of, elem_of_list_to_set, elem_of_dropna_astype_str.
  - apply py_sorted_length.
Qed.

(** The three counts written in the diagram are the lengths of the three
    lists [compute_sets] returns for the same columns. *)
Lemma draw_symmetric_counts (A B : list value) (la lb cA cB : pystr) (al ly : float) :
  ∃ setA setB unique_A unique_B shared,
    compute_sets isna py_str A B = (setA, setB, unique_A, unique_B, shared) ∧
    draw_symmetric setA setB la lb cA cB al ly
    = [ Circle (- 0.9) 0 1.5 al cA;
        Circle 0.9 0 1.5 al cB;
        Text (- 0.9) (1.5 * ly) la false;
        Text 0.9 (1.5 * ly) lb false;
        Text (- 0.9 - 0.4) 0 (str_of_nat (length unique_A)) false;
        Text (0.9 + 0.4) 0 (str_of_nat (length unique_B)) false;
        Text 0 0 (str_of_nat (length shared)) true ]%float.
Proof.
  eexists _, _, _, _, _. split; [reflexivity|]. unfold draw_symmetric.
  by rewrite !py_sorted_length.
Qed.
End ComparatorMore.

Lemma compute_sets_same_strings_witness :
  (∀ s, s ∈ dropna_astype_str pyval_isna pyval_str [PInt 1; PStr (py "x"); PNone]
        ↔ s ∈ dropna_astype_str pyval_isna pyval_str [PStr (py "x"); PStr (py "1"); PStr (py "x")]) ∧
  (∀ s, s ∈ dropna_astype_str pyval_isna pyval_str col_bcd
        ↔ s ∈ dropna_astype_str pyval_isna pyval_str col_bcd) ∧
  compute_sets pyval_isna pyval_str [PInt 1; PStr (py "x"); PNone] col_bcd
  = compute_sets pyval_isna pyval_str [PStr (py "x"); PStr (py "1"); PStr (py "x")] col_bcd.
Proof.
  assert (∀ s, s ∈ dropna_astype_str pyval_isna pyval_str [PInt 1; PStr (py "x"); PNone]
        ↔ s ∈ dropna_astype_str pyval_isna pyval_str [PStr (py "x"); PStr (py "1"); PStr (py "x")])
    as H1.
  { intros s.
    change (s ∈ [py "1"; py "x"] ↔ s ∈ [py "x"; py "1"; py "x"]).
    rewrite !elem_of_cons, !elem_of_nil. tauto. }
  assert (∀ s, s ∈ dropna_astype_str pyval_isna pyval_str col_bcd
        ↔ s ∈ dropna_astype_str pyval_isna pyval_str col_bcd) as H2 by done.
  split; [exact H1|]. split; [exact H2|].
  exact (compute_sets_same_strings pyval_isna pyval_str _ _ _ _ H1 H2).
Defined.

Lemma compute_sets_missing_column_witness :
  Forall (λ v, pyval_isna v = true) [PNone; PNone] ∧
  ∃ setB unique_B,
    compute_sets pyval_isna pyval_str [PNone; PNone] col_bcd = (∅, setB, [], unique_B, []) ∧
    compute_sets pyval_isna pyval_str col_bcd [PNone; PNone] = (setB, ∅, unique_B, [], []) ∧
    (∀ s, s ∈ unique_B ↔ ∃ v, v ∈ col_bcd ∧ pyval_isna v = false ∧ pyval_str v = s) ∧
    length unique_B = size setB.
Proof.
  assert (Forall (λ v, pyval_isna v = true) [PNone; PNone]) as H
    by (repeat constructor).
  split; [exact H|].
  exact (compute_sets_missing_column pyval_isna pyval_str [PNone; PNone] col_bcd H).
Defined.

(** ** File names *)

Lemma lstrip_starts_ok t : starts_ok (lstrip t).
Proof.
  induction t as [|c t IH]; simpl; [by intros ?|].
  destruct (is_space c) eqn:Hc; [done|]. intros d [= <-]. done.
Qed.

Lemma lstrip_id t : starts_ok t → lstrip t = t.
Proof.
  destruct t as [|c t]; [done|]. intros H. simpl. by rewrite (H c).
Qed.

Lemma rstrip_id t : ends_ok t → rstrip t = t.
Proof.
  intros H. unfold rstrip. rewrite lstrip_id, reverse_involutive; [done|].
  intros c. rewrite head_reverse. apply H.
Qed.

Lemma rstrip_ends_ok t : ends_ok (rstrip t).
Proof.
  unfold rstrip. intros c. rewrite last_reverse. apply lstrip_starts_ok.
Qed.

(** What [lstrip], [rstrip] and [strip] do around a character that is not
    white space. *)
Lemma lstrip_app_cons pre c post :
  is_space c = false → lstrip (pre ++ c :: post) = lstrip pre ++ c :: post.
Proof.
  intros Hc. induction pre as [|d pre IH]; simpl; [by rewrite Hc|].
  by destruct (is_space d).
Qed.

Lemma rstrip_app_cons pre c post :
  is_space c = false → rstrip (pre ++ c :: post) = pre ++ c :: rstrip post.
Proof.
  intros Hc. unfold rstrip.
  rewrite reverse_app, reverse_cons, <-app_assoc. simpl.
  rewrite lstrip_app_cons by done.
  by rewrite reverse_app, reverse_cons, reverse_involutive, <-app_assoc.
Qed.

Lemma strip_app_cons pre c post :
  is_space c = false → strip (pre ++ c :: post) = lstrip pre ++ c :: rstrip post.
Proof.
  intros Hc. unfold strip. rewrite lstrip_app_cons by done. by apply rstrip_app_cons.
Qed.

Lemma strip_starts_ends_ok t : starts_ok (strip t) ∧ ends_ok (strip t).
Proof.
  split; [|apply rstrip_ends_ok]. unfold strip.
  pose proof (lstrip_starts_ok t) as H. destruct (lstrip t) as [|c u]; [by intros ?|].
  assert (is_space c = false) as Hc by (by apply H).
  pose proof (rstrip_app_cons [] c u Hc) as E. simpl in E. rewrite E.
  by intros d [= <-].
Qed.

Lemma strip_id t : starts_ok t → ends_ok t → strip t = t.
Proof. intros H1 H2. unfold strip. by rewrite lstrip_id, rstrip_id. Qed.

(** A string is its stripped part between two stretches of white space. *)
Lemma lstrip_split s : ∃ ws, all_space ws ∧ s = ws ++ lstrip s.
Proof.
  induction s as [|c s (ws & Hws & IH)]; [by exists []|]. simpl.
  destruct (is_space c) eqn:Hc; [|by exists []].
  exists (c :: ws). split; [by constructor|]. simpl. by rewrite <-IH.
Qed.

Lemma rstrip_split s : ∃ ws, all_space ws ∧ s = rstrip s ++ ws.
Proof.
  destruct (lstrip_split (reverse s)) as (ws & Hws & E).
  exists (reverse ws). split; [by apply Forall_reverse|].
  unfold rstrip. rewrite <-reverse_app, <-E. by rewrite reverse_involutive.
Qed.

Lemma strip_split s : ∃ ws1 ws2, all_space ws1 ∧ all_space ws2 ∧ s = ws1 ++ strip s ++ ws2.
Proof.
  destruct (lstrip_split s) as (ws1 & H1 & E1).
  destruct (rstrip_split (lstrip s)) as (ws2 & H2 & E2).
  exists ws1, ws2. split_and!; [done..|]. unfold strip. by rewrite <-E2.
Qed.

Section SanitizeMore.
Variable is_alnum : N → bool.

Lemma re_sub_starts_ok t : starts_ok t → starts_ok (re_sub is_alnum t).
Proof.
  unfold re_sub. destruct t as [|c t]; simpl; [done|]. intros H.
  destruct (allowed is_alnum c); intros d [= <-]; [by apply H|reflexivity].
Qed.

Lemma re_sub_from_nonempty t : t ≠ [] → re_sub_from is_alnum false t ≠ [].
Proof. destruct t as [|c t]; [done|]. intros _. simpl. by destruct (allowed is_alnum c). Qed.

Lemma re_sub_from_ends_ok b t : ends_ok t → ends_ok (re_sub_from is_alnum b t).
Proof.
  revert b. induction t as [|c t IH]; intros b H; simpl; [done|].
  assert (t ≠ [] → ends_ok t) as Ht.
  { intros Hne d Hd. apply H. destruct t; [done|]. by rewrite last_cons_cons. }
  destruct (allowed is_alnum c) eqn:Hc.
  - intros d. rewrite last_cons. destruct (last (re_sub_from is_alnum false t)) as [e|] eqn:He.
    + intros [= <-]. destruct t as [|x t]; [done|]. by apply (IH false (Ht ltac:(done))).
    + intros [= <-]. apply last_None in He. destruct t as [|x t]; [by apply H|].
      by apply re_sub_from_nonempty in He.
  - destruct b.
    + destruct t as [|x t]; [done|]. by apply IH, Ht.
    + intros d. rewrite last_cons.
      destruct (last (re_sub_from is_alnum true t)) as [e|] eqn:He.
      * intros [= <-]. destruct t as [|x t]; [done|]. by apply (IH true (Ht ltac:(done))).
      * by intros [= <-].
Qed.

(** X6: sanitizing twice is sanitizing once, for names of at most 60
    characters. *)
Theorem sanitize_filename_idempotent (s : option pystr) :
  (length (or_empty s) ≤ 60)%nat →
  sanitize_filename is_alnum (Some (sanitize_filename is_alnum s))
  = sanitize_filename is_alnum s.
Proof.
  intros Hlen. rewrite !sanitize_filename_eq.
  change (or_empty (Some ?x)) with x.
  set (t := strip (or_empty s)).
  assert (length (re_sub is_alnum t) ≤ 60)%nat as Hlen'.
  { etrans; [apply re_sub_from_length|]. etrans; [|exact Hlen]. unfold t, strip, rstrip.
    rewrite length_reverse. etrans; [apply suffix_length, lstrip_suffix|].
    rewrite length_reverse. apply suffix_length, lstrip_suffix. }
  rewrite (take_ge (re_sub is_alnum t)) by done.
  destruct (strip_starts_ends_ok (or_empty s)) as [H1 H2]. fold t in H1, H2.
  rewrite strip_id; [|by apply re_sub_starts_ok|by apply re_sub_from_ends_ok].
  unfold re_sub at 1. rewrite re_sub_from_id by apply re_sub_from_allowed.
  by apply take_ge.
Qed.

Lemma re_sub_from_same_class b pre c1 c2 post :
  allowed is_alnum c1 = false → allowed is_alnum c2 = false →
  re_sub_from is_alnum b (pre ++ c1 :: post) = re_sub_from is_alnum b (pre ++ c2 :: post).
Proof.
  intros H1 H2. revert b. induction pre as [|d pre IH]; intros b; simpl.
  - by rewrite H1, H2.
  - destruct (allowed is_alnum d); [by rewrite IH|]. destruct b; by rewrite IH.
Qed.

(** X7: two names that differ in one character, outside the class in
    both, are sanitized to the same name; with the same labels and time
    stamp their output files have the same stem. *)
Theorem file_stem_collision (pre post la lb ts : pystr) (c1 c2 : N) :
  c1 ≠ c2 →
  allowed is_alnum c1 = false → allowed is_alnum c2 = false →
  is_space c1 = false → is_space c2 = false →
  pre ++ c1 :: post ≠ pre ++ c2 :: post ∧
  sanitize_filename is_alnum (Some (pre ++ c1 :: post))
  = sanitize_filename is_alnum (Some (pre ++ c2 :: post)) ∧
  file_stem is_alnum (pre ++ c1 :: post) la lb ts
  = file_stem is_alnum (pre ++ c2 :: post) la lb ts.
Proof.
  intros Hne H1 H2 Hs1 Hs2.
  assert (sanitize_filename is_alnum (Some (pre ++ c1 :: post))
          = sanitize_filename is_alnum (Some (pre ++ c2 :: post))) as E.
  { rewrite !sanitize_filename_eq. unfold or_empty. cbn [from_option id].
    rewrite !strip_app_cons by done. unfold re_sub.
    by rewrite (re_sub_from_same_class _ _ c1 c2). }
  split_and!; [|done|].
  - intros H. apply app_inv_head in H. by injection H.
  - unfold file_stem. by rewrite E.
Qed.

(** X8: the section name is never empty; it is the sanitized name cut at
    31 characters, or the positional name when that is empty. *)
Theorem safe_sheet_cases (name : pystr) (done : nat) :
  safe_sheet is_alnum name done ≠ [] ∧
  ((sanitize_filename is_alnum (Some name) ≠ [] ∧
    safe_sheet is_alnum name done = take 31 (sanitize_filename is_alnum (Some name)) ∧
    (length (safe_sheet is_alnum name done) ≤ 31)%nat ∧
    Forall (λ c, allowed is_alnum c = true) (safe_sheet is_alnum name done))
   ∨ (sanitize_filename is_alnum (Some name) = [] ∧
      safe_sheet is_alnum name done = py "Sheet" ++ str_of_nat (done + 1))).
Proof.
  unfold safe_sheet.
  assert (length (take 31 (sanitize_filename is_alnum (Some name))) ≤ 31)%nat as Hlen
    by (rewrite length_take; lia).
  assert (Forall (λ c, allowed is_alnum c = true)
            (take 31 (sanitize_filename is_alnum (Some name)))) as Hall.
  { apply Forall_take. rewrite sanitize_filename_eq. apply Forall_take, re_sub_from_allowed. }
  destruct (sanitize_filename is_alnum (Some name)) as [|c u] eqn:E.
  - split; [done|]. by right.
  - cbn [take] in *. split; [done|]. left. by split_and!.
Qed.
(** A block of characters of the class is kept, and ends a run. *)
Lemma re_sub_from_allowed_app b g rest :
  Forall (λ c, allowed is_alnum c = true) g →
  re_sub_from is_alnum b (g ++ rest)
  = g ++ re_sub_from is_alnum (match g with [] => b | _ :: _ => false end) rest.
Proof.
  intros H. revert b. induction H as [|c g Hc _ IH]; intros b; simpl; [done|].
  rewrite Hc, IH. by destruct g.
Qed.

Lemma blocks_in_cons g0 b g l : blocks_in g0 ((b, g) :: l) = g0 ++ b ++ blocks_in g l.
Proof. unfold blocks_in. simpl. by rewrite <-app_assoc. Qed.

Lemma blocks_out_cons g0 b g l :
  blocks_out g0 ((b, g) :: l) = g0 ++ underscore :: blocks_out g l.
Proof. reflexivity. Qed.

Lemma maximal_runs_tail g0 b g l :
  maximal_runs is_alnum g0 ((b, g) :: l) → maximal_runs is_alnum g l.
Proof.
  intros (_ & Hl & Hmax). apply Forall_cons in Hl as [(_ & _ & Hg) Hl].
  split_and!; [done..|]. intros i bg Hi Hlen. apply (Hmax (Datatypes.S i) bg Hi).
  simpl. lia.
Qed.

(** Substituting in a name cut into blocks with maximal runs gives the
    blocks with one underscore for each run; [in_run] can only be set when
    the name does not start with a run. *)
Lemma re_sub_from_blocks in_run g0 l :
  maximal_runs is_alnum g0 l → (in_run = true → g0 ≠ [] ∨ l = []) →
  re_sub_from is_alnum in_run (blocks_in g0 l) = blocks_out g0 l.
Proof.
  revert in_run g0. induction l as [|[b g] l IH]; intros in_run g0 Hm Hrun.
  - unfold blocks_in, blocks_out. simpl. rewrite !app_nil_r. apply re_sub_from_id, Hm.
  - pose proof (maximal_runs_tail _ _ _ _ Hm) as Hm'.
    destruct Hm as (Hg0 & Hl & Hmax). apply Forall_cons in Hl as [(Hne & Hb & Hg) Hl].
    simpl in Hne, Hb, Hg.
    rewrite blocks_in_cons, blocks_out_cons, re_sub_from_allowed_app by done. f_equal.
    assert (match g0 with [] => in_run | _ :: _ => false end = false) as ->.
    { destruct g0; [|done]. destruct in_run; [|done]. by destruct Hrun as [?|?]. }
    rewrite re_sub_from_run by done. f_equal. apply IH; [done|]. intros _.
    destruct l as [|bg l]; [by right|]. left. apply (Hmax 0%nat (b, g)); [done|simpl; lia].
Qed.

Lemma re_sub_blocks g0 l :
  maximal_runs is_alnum g0 l → re_sub is_alnum (blocks_in g0 l) = blocks_out g0 l.
Proof. intros Hm. by apply re_sub_from_blocks. Qed.

(** Every name can be cut into such blocks. *)
Lemma blocks_exist t : ∃ g0 l, maximal_runs is_alnum g0 l ∧ t = blocks_in g0 l.
Proof.
  induction t as [|c t (g0 & l & (Hg0 & Hl & Hmax) & ->)].
  { exists [], []. split; [|done]. split_and!; [done..|]. by intros i bg ?. }
  destruct (allowed is_alnum c) eqn:Hc.
  - exists (c :: g0), l. split; [|done]. split_and!; [by constructor|done..].
  - destruct g0 as [|d g0].
    + destruct l as [|[b g] l].
      * exists [], [([c], [])]. split; [|done]. split_and!; [done| |].
        -- apply Forall_singleton. split_and!; [done| |done]. by apply Forall_singleton.
        -- intros [|i] bg Hi Hlen; simpl in *; lia.
      * exists [], ((c :: b, g) :: l). split; [|done].
        apply Forall_cons in Hl as [(Hne & Hb & Hg) Hl]. split_and!; [done| |].
        -- apply Forall_cons_2; [|done]. split_and!; [done|by constructor|done].
        -- intros [|i] bg Hi Hlen.
           ++ injection Hi as <-. by apply (Hmax 0%nat (b, g)).
           ++ by apply (Hmax (Datatypes.S i) bg).
    + exists [], (([c], d :: g0) :: l). split; [|done]. split_and!; [done| |].
      * apply Forall_cons_2; [|done]. split_and!; [done|by apply Forall_singleton|done].
      * intros [|i] bg Hi Hlen.
        -- by injection Hi as <-.
        -- apply (Hmax i bg Hi). simpl in Hlen. lia.
Qed.

(** C7, as amended: for every input, [None] read as the empty string,
    [sanitize_filename] removes the white space at both ends, replaces
    every maximal run of characters outside the class of word characters,
    hyphen, period and space by one underscore, whatever the length of the
    run, leaves the characters of the class in place, and keeps the first
    60 characters.  Stated on the input cut into its white space at both
    ends and, between them, blocks of characters of the class separated by
    maximal runs of other characters: whatever such cut is taken, the
    result is the first 60 characters of the blocks with one underscore
    for each run; and every input has such a cut.  So the result holds
    only characters of the class, has at most 60 characters, and each of
    its characters is an underscore or a character of the class that the
    input had. *)
Theorem C7_sanitize_runs (s : option pystr) :
  (∀ ws1 ws2 g0 l,
     or_empty s = ws1 ++ blocks_in g0 l ++ ws2 →
     all_space ws1 → all_space ws2 →
     starts_ok (blocks_in g0 l) → ends_ok (blocks_in g0 l) →
     maximal_runs is_alnum g0 l →
     sanitize_filename is_alnum s = take 60 (blocks_out g0 l)) ∧
  (∃ ws1 ws2 g0 l,
     or_empty s = ws1 ++ blocks_in g0 l ++ ws2 ∧
     all_space ws1 ∧ all_space ws2 ∧
     starts_ok (blocks_in g0 l) ∧ ends_ok (blocks_in g0 l) ∧
     maximal_runs is_alnum g0 l) ∧
  Forall (λ c, allowed is_alnum c = true) (sanitize_filename is_alnum s) ∧
  (length (sanitize_filename is_alnum s) ≤ 60)%nat ∧
  (∀ c, c ∈ sanitize_filename is_alnum s →
        c = underscore ∨ (c ∈ or_empty s ∧ allowed is_alnum c = true)).
Proof.
  rewrite sanitize_filename_eq. split_and!.
  - intros ws1 ws2 g0 l -> H1 H2 Hs He Hm.
    rewrite strip_trim by done. rewrite strip_id by done. by rewrite re_sub_blocks.
  - destruct (strip_split (or_empty s)) as (ws1 & ws2 & H1 & H2 & E).
    destruct (blocks_exist (strip (or_empty s))) as (g0 & l & Hm & Eb).
    destruct (strip_starts_ends_ok (or_empty s)) as [Hs He].
    exists ws1, ws2, g0, l. rewrite <-Eb. by split_and!.
  - apply Forall_take, re_sub_from_allowed.
  - rewrite length_take. lia.
  - intros c Hc. apply elem_of_take in Hc as (i & Hc & _).
    apply list_elem_of_lookup_2, elem_of_re_sub_from in Hc as [?|[??]]; [by left|].
    right. split; [by apply elem_of_strip|done].
Qed.
End SanitizeMore.

(** C7, as stated, fails: in [a!?b] the two characters [!] and [?] are
    outside the class and the result is [a_b], with one underscore for the
    two: the character at the place of [?] is [b], not an underscore; and
    a tab and a line feed around [a], both outside the class, are removed,
    not replaced. *)
Lemma C7_run_gives_one_underscore :
  let s := py "a!?b" in
  let out := sanitize_filename ascii_alnum (Some s) in
  allowed ascii_alnum 33 = false ∧ allowed ascii_alnum 63 = false ∧
  out = py "a_b" ∧
  ¬ (∀ i c, s !! i = Some c → allowed ascii_alnum c = false → out !! i = Some underscore) ∧
  allowed ascii_alnum 9 = false ∧ allowed ascii_alnum 10 = false ∧
  sanitize_filename ascii_alnum (Some ([9] ++ py "a" ++ [10])) = py "a".
Proof.
  cbn zeta. split_and!; try reflexivity.
  intros H. specialize (H 2%nat 63 eq_refl eq_refl). discriminate H.
Qed.

Lemma re_sub_run_witness :
  match reverse (py "a") with [] => True | c :: _ => allowed ascii_alnum c = true end ∧
  py "/:" ≠ [] ∧ Forall (λ c, allowed ascii_alnum c = false) (py "/:") ∧
  match py "b" with [] => True | c :: _ => allowed ascii_alnum c = true end ∧
  re_sub ascii_alnum (py "a" ++ py "/:" ++ py "b")
  = re_sub ascii_alnum (py "a") ++ underscore :: re_sub ascii_alnum (py "b").
Proof.
  assert (match reverse (py "a") with [] => True | c :: _ => allowed ascii_alnum c = true end)
    as H1 by reflexivity.
  assert (py "/:" ≠ []) as H2 by done.
  assert (Forall (λ c, allowed ascii_alnum c = false) (py "/:")) as H3
    by (repeat constructor).
  assert (match py "b" with [] => True | c :: _ => allowed ascii_alnum c = true end)
    as H4 by reflexivity.
  split; [exact H1|]. split; [exact H2|]. split; [exact H3|]. split; [exact H4|].
  exact (re_sub_run ascii_alnum (py "a") (py "/:") (py "b") H1 H2 H3 H4).
Defined.

Lemma sanitize_filename_idempotent_witness :
  (length (or_empty (Some (py "  a/b: c  "))) ≤ 60)%nat ∧
  sanitize_filename ascii_alnum (Some (sanitize_filename ascii_alnum (Some (py "  a/b: c  "))))
  = sanitize_filename ascii_alnum (Some (py "  a/b: c  ")).
Proof.
  assert (length (or_empty (Some (py "  a/b: c  "))) ≤ 60)%nat as H by (vm_compute; lia).
  split; [exact H|].
  exact (sanitize_filename_idempotent ascii_alnum (Some (py "  a/b: c  ")) H).
Defined.

Lemma file_stem_collision_witness :
  33 ≠ 35 ∧ allowed ascii_alnum 33 = false ∧ allowed ascii_alnum 35 = false ∧
  is_space 33 = false ∧ is_space 35 = false ∧
  py "Run" ++ 33 :: py "1" ≠ py "Run" ++ 35 :: py "1" ∧
  sanitize_filename ascii_alnum (Some (py "Run" ++ 33 :: py "1"))
  = sanitize_filename ascii_alnum (Some (py "Run" ++ 35 :: py "1")) ∧
  file_stem ascii_alnum (py "Run" ++ 33 :: py "1") (py "A") (py "B") (py "20250101-120000")
  = file_stem ascii_alnum (py "Run" ++ 35 :: py "1") (py "A") (py "B") (py "20250101-120000").
Proof.
  assert (33 ≠ 35) as H0 by done.
  split; [exact H0|]. do 4 (split; [reflexivity|]).
  exact (file_stem_collision ascii_alnum (py "Run") (py "1") (py "A") (py "B")
           (py "20250101-120000") 33 35 H0 eq_refl eq_refl eq_refl eq_refl).
Defined.

(** ** The result table *)

Lemma nonempty_cells_pad n L :
  Forall (λ s, s ≠ []) L → nonempty_cells (pad n L) = L.
Proof.
  intros H. unfold nonempty_cells, pad. rewrite List.filter_app.
  assert (List.filter (λ s : pystr, negb (bool_decide (s = []))) (replicate (n - length L) [])
          = []) as ->.
  { induction (n - length L)%nat as [|k IH]; [done|]. simpl. done. }
  rewrite app_nil_r. induction H as [|s L Hs _ IH]; [done|].
  simpl. rewrite bool_decide_false by done. simpl. by rewrite IH.
Qed.

(** X9: whatever the labels, equal or not, the builder does not raise; the
    table has as many rows as the longest list and every column has that
    many cells; its last column is [Shared], the shared list followed by
    empty strings, and the column of the second label holds the list unique
    to B followed by empty strings. *)
Theorem to_results_df_rectangular (la lb : pystr) (unique_A unique_B shared : list pystr) :
  let n := Nat.max (length unique_A) (Nat.max (length unique_B) (length shared)) in
  ∃ t,
    to_results_df la lb unique_A unique_B shared = Ok t ∧
    rf_nrows t = n ∧
    Forall (λ c, length c.2 = n) (rf_columns t) ∧
    last (rf_columns t) = Some (py "Shared", shared ++ replicate (n - length shared) []) ∧
    (py "Unique to " ++ lb, unique_B ++ replicate (n - length unique_B) []) ∈ rf_columns t.
Proof.
  intros n. unfold to_results_df. fold n.
  destruct (decide (la = lb)) as [->|Hne].
  - rewrite dict_literal_same by apply unique_to_not_shared.
    assert (Forall (λ c : pystr * list pystr, length c.2 = n)
              [(py "Unique to " ++ lb, pad n unique_B); (py "Shared", pad n shared)]) as Hrect.
    { repeat (apply Forall_cons_2; [apply pad_length; lia|]); apply Forall_nil_2. }
    rewrite (pd_DataFrame_rectangular n) by done. eexists. split; [done|].
    split_and!; [apply pad_length; lia|done|done|apply list_elem_of_here].
  - rewrite dict_literal_distinct; [|by intros ?%app_inv_head|apply unique_to_not_shared..].
    assert (Forall (λ c : pystr * list pystr, length c.2 = n)
              [ (py "Unique to " ++ la, pad n unique_A); (py "Unique to " ++ lb, pad n unique_B);
                (py "Shared", pad n shared) ]) as Hrect.
    { repeat (apply Forall_cons_2; [apply pad_length; lia|]); apply Forall_nil_2. }
    rewrite (pd_DataFrame_rectangular n) by done. eexists. split; [done|].
    split_and!; [apply pad_length; lia|done|done|].
    apply list_elem_of_further, list_elem_of_here.
Qed.

(** X11: with distinct labels and no empty string among the values,
    dropping the empty cells of the three columns gives back the three
    lists: the padding is all the table adds. *)
Theorem to_results_df_recover (la lb : pystr) (unique_A unique_B shared : list pystr) :
  la ≠ lb →
  Forall (λ s, s ≠ []) unique_A → Forall (λ s, s ≠ []) unique_B →
  Forall (λ s, s ≠ []) shared →
  ∃ t,
    to_results_df la lb unique_A unique_B shared = Ok t ∧
    (λ c, nonempty_cells c.2) <$> rf_columns t = [unique_A; unique_B; shared].
Proof.
  intros Hne HA HB HS. unfold to_results_df.
  set (n := Nat.max _ _).
  rewrite dict_literal_distinct; [|by intros ?%app_inv_head|apply unique_to_not_shared..].
  assert (Forall (λ c : pystr * list pystr, length c.2 = n)
            [ (py "Unique to " ++ la, pad n unique_A); (py "Unique to " ++ lb, pad n unique_B);
              (py "Shared", pad n shared) ]) as Hrect.
  { repeat (apply Forall_cons_2; [apply pad_length; lia|]); apply Forall_nil_2. }
  rewrite (pd_DataFrame_rectangular n) by done. eexists. split; [done|].
  cbn [rf_columns fmap list_fmap snd]. by rewrite !nonempty_cells_pad.
Qed.

(** The number of rows of the result table. *)
Lemma to_results_df_nrows (la lb : pystr) (unique_A unique_B shared : list pystr) :
  ∃ t, to_results_df la lb unique_A unique_B shared = Ok t ∧
       rf_nrows t = Nat.max (length unique_A) (Nat.max (length unique_B) (length shared)).
Proof.
  unfold to_results_df. set (n := Nat.max _ _).
  destruct (decide (la = lb)) as [->|Hne].
  - rewrite dict_literal_same by apply unique_to_not_shared.
    assert (Forall (λ c : pystr * list pystr, length c.2 = n)
              [(py "Unique to " ++ lb, pad n unique_B); (py "Shared", pad n shared)]) as Hrect.
    { repeat (apply Forall_cons_2; [apply pad_length; lia|]); apply Forall_nil_2. }
    rewrite (pd_DataFrame_rectangular n) by done. eexists. split; [done|].
    apply pad_length; lia.
  - rewrite dict_literal_distinct; [|by intros ?%app_inv_head|apply unique_to_not_shared..].
    assert (Forall (λ c : pystr * list pystr, length c.2 = n)
              [ (py "Unique to " ++ la, pad n unique_A); (py "Unique to " ++ lb, pad n unique_B);
                (py "Shared", pad n shared) ]) as Hrect.
    { repeat (apply Forall_cons_2; [apply pad_length; lia|]); apply Forall_nil_2. }
    rewrite (pd_DataFrame_rectangular n) by done. eexists. split; [done|].
    apply pad_length; lia.
Qed.

Lemma to_results_df_distinct_labels_witness :
  py "A" ≠ py "B" ∧
  ∃ t,
    to_results_df (py "A") (py "B") [py "a"] [] [py "b"; py "c"] = Ok t ∧
    rf_columns t = [ (py "Unique to " ++ py "A", [py "a"] ++ replicate (2 - 1) []);
                     (py "Unique to " ++ py "B", [] ++ replicate (2 - 0) []);
                     (py "Shared", [py "b"; py "c"] ++ replicate (2 - 2) []) ] ∧
    rf_nrows t = 2%nat ∧
    Forall (λ c, length c.2 = 2%nat) (rf_columns t).
Proof.
  assert (py "A" ≠ py "B") as Hne by done.
  split; [exact Hne|].
  exact (to_results_df_distinct_labels (py "A") (py "B") [py "a"] [] [py "b"; py "c"] Hne).
Defined.

Lemma to_results_df_recover_witness :
  py "A" ≠ py "B" ∧
  Forall (λ s, s ≠ []) [py "a"] ∧ Forall (λ s : pystr, s ≠ []) [] ∧
  Forall (λ s, s ≠ []) [py "b"; py "c"] ∧
  ∃ t,
    to_results_df (py "A") (py "B") [py "a"] [] [py "b"; py "c"] = Ok t ∧
    (λ c, nonempty_cells c.2) <$> rf_columns t = [[py "a"]; []; [py "b"; py "c"]].
Proof.
  assert (py "A" ≠ py "B") as H0 by done.
  assert (Forall (λ s, s ≠ []) [py "a"]) as H1 by (repeat constructor; done).
  assert (Forall (λ s : pystr, s ≠ []) []) as H2 by constructor.
  assert (Forall (λ s, s ≠ []) [py "b"; py "c"]) as H3 by (repeat constructor; done).
  split; [exact H0|]. split; [exact H1|]. split; [exact H2|]. split; [exact H3|].
  exact (to_results_df_recover (py "A") (py "B") [py "a"] [] [py "b"; py "c"] H0 H1 H2 H3).
Defined.

(** ** The session *)

Section Worksheets.
Context {value : Type} (isna : value → bool) (py_str : value → pystr).
Variable is_alnum : N → bool.
Variable os_path_dirname os_path_basename : pystr → pystr.
Variable os_path_join : pystr → pystr → pystr.

#[local] Abbreviation run_callback' :=
  (run_callback isna py_str is_alnum os_path_dirname os_path_basename os_path_join).
#[local] Abbreviation state_after' :=
  (state_after isna py_str is_alnum os_path_dirname os_path_basename os_path_join).
#[local] Abbreviation log_of' :=
  (log_of isna py_str is_alnum os_path_dirname os_path_basename os_path_join).
#[local] Abbreviation reachable' :=
  (reachable isna py_str is_alnum os_path_dirname os_path_basename os_path_join).
#[local] Abbreviation refresh_sheet_ui' := (refresh_sheet_ui isna py_str os_path_basename).
#[local] Abbreviation load_workbook' := (load_workbook isna py_str os_path_basename).

(** Only a load touches the worksheets. *)
Lemma run_callback_frame cb (S : AppState value) :
  is_load cb = false →
  wp (run_callback' cb)
     (λ _ S' _, sheets S' = sheets S ∧ dfs S' = dfs S ∧ headers S' = headers S ∧
                wb_path S' = wb_path S) S.
Proof.
  intros Hcb. destruct cb; try done; cbn [run_callback].
  - unfold apply_label_changes. wp_go; done.
  - unfold reset_labels_to_headers. wp_go; done.
  - unfold pick_colorA. wp_go; done.
  - unfold pick_colorB. wp_go; done.
  - unfold update_alpha_labely. wp_go; done.
  - unfold prev_sheet. wp_go; done.
  - unfold next_sheet. wp_go; done.
  - eapply wp_mono; [apply save_current_sheet_state|]. by intros ? ? ? ->.
  - eapply wp_mono; [apply save_all_sheets_state|]. by intros ? ? ? ->.
Qed.

(** X12: only a load changes the worksheet list, the data, the original
    headers and the workbook path: every other button press leaves the four
    as they are, whatever it is given and whether or not it raises. *)
Theorem callbacks_keep_worksheets cb (S : AppState value) :
  match cb with
  | CbLoadWorkbook _ _ => True
  | _ =>
      sheets (state_after' cb S) = sheets S ∧ dfs (state_after' cb S) = dfs S ∧
      headers (state_after' cb S) = headers S ∧ wb_path (state_after' cb S) = wb_path S
  end.
Proof.
  destruct cb; try done;
    match goal with
    | |- context [state_after' ?cb S] => exact (run_callback_frame cb S eq_refl)
    end.
Qed.

(** *** The worksheets of the list and the data *)

Lemma listed_frame (S S' : AppState value) :
  sheets S' = sheets S → dfs S' = dfs S → headers S' = headers S → listed S → listed S'.
Proof. intros Hs Hd Hh [H1 H2]. split; rewrite Hs, ?Hd, ?Hh; done. Qed.

Lemma load_sheet_listed (wb : Workbook value) name S :
  listed S → wp (load_sheet py_str wb name) (λ _ S' _, listed S') S.
Proof.
  intros [H1 H2]. unfold load_sheet. apply wp_bind, wp_lift.
  destruct (parse wb name) as [df|e]; [|done].
  destruct (2 <=? ncols df)%nat eqn:Hcols; [|by apply wp_ret].
  apply Nat.leb_le in Hcols.
  destruct (column_label_two df Hcols) as (c0 & c1 & -> & ->).
  wp_go. split; cbn.
  - intros name'. rewrite elem_of_app, list_elem_of_singleton, lookup_insert_is_Some, H1.
    destruct (decide (name = name')) as [->|Hne]; [split; intros _; [by left|by right]|]. split.
    + intros [?| ->]; [by right|done].
    + intros [?|[_ ?]]; [done|by left].
  - intros name'. rewrite elem_of_app, list_elem_of_singleton, lookup_insert_is_Some.
    destruct (decide (name = name')) as [->|Hne]; [by left|].
    intros [Hin| ->]; [|done]. right. split; [done|]. by apply H2.
Qed.

Lemma listed_cleared path (S : AppState value) : listed (cleared path S).
Proof.
  split; cbn.
  - intros name. rewrite lookup_empty, elem_of_nil. split; [done|]. by intros [? ?].
  - by intros name ?%elem_of_nil.
Qed.

Lemma load_workbook_listed path excel_file (S : AppState value) :
  listed S → wp (load_workbook' path excel_file) (λ _ S' _, listed S') S.
Proof.
  intros HS. unfold load_workbook. destruct path as [|c path]; [by apply wp_ret|].
  apply wp_try_except, wp_bind, wp_lift. destruct excel_file as [wb|e]; [|by apply wp_emit].
  do 5 (apply wp_bind, wp_modify; cbn beta iota). apply wp_bind.
  eapply wp_mono.
  { apply (wp_for_each_inv listed).
    - intros name S0 _ ?. by apply load_sheet_listed.
    - apply (listed_cleared (c :: path) S). }
  cbn beta. intros [[]|e] S1 ev H1; [|by apply wp_emit].
  wp_go; done.
Qed.

Lemma reachable_listed S : reachable' S → listed S.
Proof.
  apply reachable_ind.
  - split; cbn.
    + intros name. rewrite lookup_empty, elem_of_nil. split; [done|]. by intros [? ?].
    + by intros name ?%elem_of_nil.
  - intros cb S0 HS. destruct (is_load cb) eqn:Hcb.
    + destruct cb; try done. by apply load_workbook_listed.
    + eapply wp_mono; [by apply run_callback_frame|].
      cbn beta. intros _ S' _ (Hs & Hd & Hh & _). by apply (listed_frame S0).
Qed.

Lemma listed_has_data (S : AppState value) :
  listed S → has_data S = true ↔ sheets S ≠ [].
Proof.
  intros [H1 _]. unfold has_data. rewrite negb_true_iff, Nat.eqb_neq, map_size_ne_0_lookup.
  split.
  - intros [name Hname]. apply H1 in Hname. by destruct (sheets S); [apply elem_of_nil in Hname|].
  - destruct (sheets S) as [|name l] eqn:E; [done|]. intros _. exists name.
    apply H1. left.
Qed.

(** X13: in every state the application can reach, the worksheets of the
    list are exactly the keys of the data; each has at least two columns, a
    label pair and its original headers; the session holds data exactly when
    the list is not empty, and it then knows its workbook path. *)
Theorem reachable_session_shape S :
  reachable' S →
  (∀ name, name ∈ sheets S ↔ is_Some (dfs S !! name)) ∧
  (∀ name, name ∈ sheets S →
     ∃ df la lb h, dfs S !! name = Some df ∧ (2 ≤ ncols df)%nat ∧
                   labels S !! name = Some (la, lb) ∧ headers S !! name = Some h) ∧
  (has_data S = true ↔ sheets S ≠ []) ∧
  (sheets S ≠ [] → is_Some (wb_path S)).
Proof.
  intros HS. pose proof (reachable_listed S HS) as HL.
  destruct (reachable_consistent _ _ _ _ _ _ S HS) as [HC1 HC2].
  pose proof (listed_has_data S HL) as HD. destruct HL as [HL1 HL2].
  split_and!; [done| |done|].
  - intros name Hname. destruct (HC1 name Hname) as (df & la & lb & ? & ? & ?).
    destruct (HL2 name Hname) as [h ?]. by exists df, la, lb, h.
  - intros Hne. by apply HC2, HD.
Qed.
End Worksheets.

Section Navigation.
Context {value : Type} (isna : value → bool) (py_str : value → pystr).
Variable is_alnum : N → bool.
Variable os_path_dirname os_path_basename : pystr → pystr.
Variable os_path_join : pystr → pystr → pystr.

#[local] Abbreviation run_callback' :=
  (run_callback isna py_str is_alnum os_path_dirname os_path_basename os_path_join).
#[local] Abbreviation state_after' :=
  (state_after isna py_str is_alnum os_path_dirname os_path_basename os_path_join).
#[local] Abbreviation log_of' :=
  (log_of isna py_str is_alnum os_path_dirname os_path_basename os_path_join).
#[local] Abbreviation reachable' :=
  (reachable isna py_str is_alnum os_path_dirname os_path_basename os_path_join).
#[local] Abbreviation refresh_sheet_ui' := (refresh_sheet_ui isna py_str os_path_basename).
#[local] Abbreviation load_workbook' := (load_workbook isna py_str os_path_basename).

Lemma wp_run {A} (m : M value A) (Q : outcome A → AppState value → list event → Prop)
    S r S' ev :
  run m S = (r, S', ev) → Q r S' ev → wp m Q S.
Proof. unfold wp. by intros ->. Qed.

(** *** The current worksheet *)

Lemma py_index_in_range {A} (l : list A) (i : Z) :
  (0 ≤ i < Z.of_nat (length l))%Z → ∃ x, py_index l i = Ok x ∧ l !! Z.to_nat i = Some x.
Proof.
  intros Hi. unfold py_index.
  replace (i <? 0)%Z with false by (symmetry; apply Z.ltb_ge; lia).
  replace (0 <=? i)%Z with true by (symmetry; apply Z.leb_le; lia).
  destruct (lookup_lt_is_Some_2 l (Z.to_nat i)) as [x Hx]; [lia|].
  exists x. by rewrite Hx.
Qed.

(** The current worksheet of a session with a cursor in range: its name,
    data, label pair and two columns. *)
Lemma current_sheet (S : AppState value) :
  consistent S → cursor_in_range S → sheets S ≠ [] →
  ∃ name df la lb colA colB,
    py_index (sheets S) (idx S) = Ok name ∧ name ∈ sheets S ∧
    dfs S !! name = Some df ∧ labels S !! name = Some (la, lb) ∧
    iloc_col df 0 = Ok colA ∧ iloc_col df 1 = Ok colB.
Proof.
  intros [HC _] Hcur Hne.
  destruct (py_index_in_range (sheets S) (idx S) (Hcur Hne)) as (name & Hname & Hlook).
  assert (name ∈ sheets S) as Hin by (by eapply list_elem_of_lookup_2).
  destruct (HC name Hin) as (df & la & lb & Hdf & Hcols & Hlab).
  destruct (iloc_col_two df Hcols) as (colA & colB & HA & HB).
  by exists name, df, la, lb, colA, colB.
Qed.

(** X17: on a session that holds worksheets and whose cursor is in range,
    redrawing does not raise and leaves the state as it is; it updates, in
    this order, the workbook line, the sheet line, the two label entries,
    the preview line, the canvas and the output panel, and the diagram drawn
    is the one of the current worksheet: its two first columns, its current
    labels, the colours, opacity and label height of the session. *)
Theorem refresh_sheet_ui_draws (S : AppState value) :
  consistent S → cursor_in_range S → sheets S ≠ [] → has_data S = true →
  ∃ name df la lb colA colB setA setB uA uB sh file_text sheet_text preview_text output_text,
    py_index (sheets S) (idx S) = Ok name ∧
    dfs S !! name = Some df ∧ labels S !! name = Some (la, lb) ∧
    iloc_col df 0 = Ok colA ∧ iloc_col df 1 = Ok colB ∧
    compute_sets isna py_str colA colB = (setA, setB, uA, uB, sh) ∧
    run refresh_sheet_ui' S
    = (Ok tt, S,
       [ LabelFile file_text; LabelSheet sheet_text; EntryLabels la lb;
         LabelPreview preview_text;
         CanvasDraw (draw_symmetric setA setB la lb (colorA S) (colorB S) (alpha S) (label_y S));
         OutputBox output_text ]).
Proof.
  intros HC Hcur Hne Hdata.
  destruct (current_sheet S HC Hcur Hne)
    as (name & df & la & lb & colA & colB & Hname & _ & Hdf & Hlab & HA & HB).
  destruct (compute_sets isna py_str colA colB) as [[[[setA setB] uA] uB] sh] eqn:Hsets.
  eexists name, df, la, lb, colA, colB, setA, setB, uA, uB, sh, _, _, _, _.
  split_and!; [done..|]. apply wp_eq. unfold refresh_sheet_ui.
  apply wp_bind, wp_get. cbn beta iota. rewrite Hdata. cbn [negb].
  apply wp_bind, wp_lift. rewrite Hname. cbn beta iota.
  apply wp_bind, wp_lift. unfold py_getitem at 1. rewrite Hdf. cbn beta iota.
  apply wp_bind, wp_lift. unfold py_getitem at 1. rewrite Hlab. cbn beta iota.
  apply wp_bind, wp_emit. cbn beta iota.
  apply wp_bind, wp_emit. cbn beta iota.
  apply wp_bind, wp_emit. cbn beta iota.
  apply wp_bind, wp_lift. rewrite HA. cbn beta iota.
  apply wp_bind, wp_lift. rewrite HB. cbn beta iota. rewrite Hsets.
  apply wp_bind, wp_emit. cbn beta iota.
  apply wp_bind, wp_emit. cbn beta iota.
  apply wp_emit. split_and!; reflexivity.
Qed.

(** On a session whose cursor is in range, redrawing does not raise. *)
Lemma refresh_sheet_ui_ok (S : AppState value) :
  consistent S → cursor_in_range S → listed S →
  ∃ log, run refresh_sheet_ui' S = (Ok tt, S, log).
Proof.
  intros HC Hcur HL. destruct (has_data S) eqn:Hdata.
  - assert (sheets S ≠ []) as Hne by (by apply (listed_has_data S HL)).
    destruct (current_sheet S HC Hcur Hne)
      as (name & df & la & lb & colA & colB & Hname & _ & Hdf & Hlab & HA & HB).
    assert (wp refresh_sheet_ui' (λ r S' _, r = Ok tt ∧ S' = S) S) as Hwp.
    { unfold refresh_sheet_ui.
      apply wp_bind, wp_get. cbn beta iota. rewrite Hdata. cbn [negb].
      apply wp_bind, wp_lift. rewrite Hname. cbn beta iota.
      apply wp_bind, wp_lift. unfold py_getitem at 1. rewrite Hdf. cbn beta iota.
      apply wp_bind, wp_lift. unfold py_getitem at 1. rewrite Hlab. cbn beta iota.
      do 3 (apply wp_bind, wp_emit; cbn beta iota).
      apply wp_bind, wp_lift. rewrite HA. cbn beta iota.
      apply wp_bind, wp_lift. rewrite HB. cbn beta iota.
      destruct (compute_sets isna py_str colA colB) as [[[[setA setB] uA] uB] sh].
      do 2 (apply wp_bind, wp_emit; cbn beta iota). by apply wp_emit. }
    unfold wp in Hwp. destruct (run refresh_sheet_ui' S) as [[r S'] log].
    cbn in Hwp. destruct Hwp as [-> ->]. by exists log.
  - exists []. unfold refresh_sheet_ui, run, mbind, M_bind, get. cbn. by rewrite Hdata.
Qed.

(** *** Navigation *)

Lemma set_idx_same (S : AppState value) : set_idx (idx S) S = S.
Proof. by destruct S. Qed.

Lemma step_sheet_run (delta : Z) (m : M value unit) (S : AppState value) :
  m = (S ← get;
       if negb (has_data S) then mret tt else
       i ← lift (py_mod (idx S + delta) (Z.of_nat (length (sheets S))));
       modify (set_idx i);;
       refresh_sheet_ui') →
  consistent S → listed S → has_data S = true →
  ∃ log,
    run m S
    = (Ok tt, set_idx ((idx S + delta) `mod` Z.of_nat (length (sheets S)))%Z S, log) ∧
    cursor_in_range (set_idx ((idx S + delta) `mod` Z.of_nat (length (sheets S)))%Z S).
Proof.
  intros -> HC HL Hdata.
  assert (sheets S ≠ []) as Hne by (by apply (listed_has_data S HL)).
  assert (Z.of_nat (length (sheets S)) ≠ 0%Z) as Hn by (destruct (sheets S); [done|simpl; lia]).
  set (S' := set_idx ((idx S + delta) `mod` Z.of_nat (length (sheets S)))%Z S).
  assert (cursor_in_range S') as Hcur.
  { intros _. cbn. apply Z.mod_pos_bound. lia. }
  destruct (refresh_sheet_ui_ok S') as [log Hlog]; [done|done|done|].
  exists log. split; [|done]. apply wp_eq.
  apply wp_bind, wp_get. cbn beta iota. rewrite Hdata. cbn [negb].
  apply wp_bind, wp_lift. unfold py_mod. rewrite (proj2 (Z.eqb_neq _ _) Hn). cbn beta iota.
  apply wp_bind, wp_modify. cbn beta iota. fold S'.
  eapply wp_run; [exact Hlog|]. done.
Qed.

(** X18: in a reachable session that holds worksheets, the two
    navigation buttons do not raise, even when the cursor was left out of
    range; they set the cursor to the next and to the previous position
    modulo the number of worksheets, which is a position of the list, and
    change nothing else. *)
Theorem navigation_wraps (S : AppState value) :
  reachable' S → has_data S = true →
  let n := Z.of_nat (length (sheets S)) in
  (∃ log, run (next_sheet isna py_str os_path_basename) S
          = (Ok tt, set_idx ((idx S + 1) `mod` n)%Z S, log)) ∧
  (∃ log, run (prev_sheet isna py_str os_path_basename) S
          = (Ok tt, set_idx ((idx S - 1) `mod` n)%Z S, log)) ∧
  (0 ≤ (idx S + 1) `mod` n < n)%Z ∧ (0 ≤ (idx S - 1) `mod` n < n)%Z.
Proof.
  intros HS Hdata n.
  pose proof (reachable_consistent _ _ _ _ _ _ S HS) as HC.
  pose proof (reachable_listed _ _ _ _ _ _ S HS) as HL.
  assert (sheets S ≠ []) as Hne by (by apply (listed_has_data S HL)).
  destruct (step_sheet_run 1 (next_sheet isna py_str os_path_basename) S eq_refl HC HL Hdata)
    as (log1 & H1 & _).
  destruct (step_sheet_run (-1) (prev_sheet isna py_str os_path_basename) S eq_refl HC HL Hdata)
    as (log2 & H2 & _).
  assert (0 < n)%Z by (unfold n; destruct (sheets S); [done|simpl; lia]).
  split_and!; [by exists log1|by exists log2|by apply Z.mod_pos_bound..].
Qed.

(** X19: with the cursor in range, the two navigation buttons undo each
    other: next then previous, and previous then next, give the session
    back, also across the ends of the list. *)
Theorem next_prev_inverse (S : AppState value) :
  reachable' S → has_data S = true → cursor_in_range S →
  state_after' CbPrev (state_after' CbNext S) = S ∧
  state_after' CbNext (state_after' CbPrev S) = S.
Proof.
  intros HS Hdata Hcur.
  pose proof (reachable_consistent _ _ _ _ _ _ S HS) as HC.
  pose proof (reachable_listed _ _ _ _ _ _ S HS) as HL.
  assert (sheets S ≠ []) as Hne by (by apply (listed_has_data S HL)).
  specialize (Hcur Hne). set (n := Z.of_nat (length (sheets S))) in *.
  assert (∀ d, let S1 := set_idx ((idx S + d) `mod` n)%Z S in
               consistent S1 ∧ listed S1 ∧ has_data S1 = true) as Hmid by done.
  unfold state_after. cbn [run_callback].
  destruct (step_sheet_run 1 (next_sheet isna py_str os_path_basename) S eq_refl HC HL Hdata)
    as (log1 & H1 & _).
  destruct (step_sheet_run (-1) (prev_sheet isna py_str os_path_basename) S eq_refl HC HL Hdata)
    as (log2 & H2 & _).
  fold n in H1, H2. rewrite H1, H2. cbn [fst snd].
  destruct (Hmid 1%Z) as (HC1 & HL1 & Hd1). destruct (Hmid (-1)%Z) as (HC2 & HL2 & Hd2).
  destruct (step_sheet_run (-1) (prev_sheet isna py_str os_path_basename) _ eq_refl HC1 HL1 Hd1)
    as (log3 & H3 & _).
  destruct (step_sheet_run 1 (next_sheet isna py_str os_path_basename) _ eq_refl HC2 HL2 Hd2)
    as (log4 & H4 & _).
  rewrite H3, H4. cbn [fst snd idx sheets set_idx]. fold n.
  assert (((idx S + 1) `mod` n + -1) `mod` n = idx S)%Z as ->.
  { rewrite Zplus_mod_idemp_l. replace (idx S + 1 + -1)%Z with (idx S) by lia.
    apply Z.mod_small. lia. }
  assert (((idx S + -1) `mod` n + 1) `mod` n = idx S)%Z as ->.
  { rewrite Zplus_mod_idemp_l. replace (idx S + -1 + 1)%Z with (idx S) by lia.
    apply Z.mod_small. lia. }
  split; by destruct S.
Qed.
End Navigation.

Section Labels.
Context {value : Type} (isna : value → bool) (py_str : value → pystr).
Variable is_alnum : N → bool.
Variable os_path_dirname os_path_basename : pystr → pystr.
Variable os_path_join : pystr → pystr → pystr.

#[local] Abbreviation run_callback' :=
  (run_callback isna py_str is_alnum os_path_dirname os_path_basename os_path_join).
#[local] Abbreviation state_after' :=
  (state_after isna py_str is_alnum os_path_dirname os_path_basename os_path_join).
#[local] Abbreviation reachable' :=
  (reachable isna py_str is_alnum os_path_dirname os_path_basename os_path_join).
#[local] Abbreviation refresh_sheet_ui' := (refresh_sheet_ui isna py_str os_path_basename).

(** *** Labels *)

(** The facts about a reachable session that holds data and whose cursor
    is in range. *)
Lemma reachable_current (S : AppState value) :
  reachable' S → has_data S = true → cursor_in_range S →
  consistent S ∧ listed S ∧ sheets S ≠ [] ∧
  ∃ name h, py_index (sheets S) (idx S) = Ok name ∧ name ∈ sheets S ∧
            headers S !! name = Some h.
Proof.
  intros HS Hdata Hcur.
  pose proof (reachable_consistent _ _ _ _ _ _ S HS) as HC.
  pose proof (reachable_listed _ _ _ _ _ _ S HS) as HL.
  assert (sheets S ≠ []) as Hne by (by apply (listed_has_data S HL)).
  destruct (current_sheet S HC Hcur Hne) as (name & _ & _ & _ & _ & _ & Hname & Hin & _).
  destruct (proj2 HL name Hin) as [h Hh]. split_and!; [done..|]. by exists name, h.
Qed.

Lemma set_labels_ok (S : AppState value) name l :
  consistent S → listed S → cursor_in_range S →
  ∃ log, run refresh_sheet_ui' (set_labels (<[name := l]> (labels S)) S)
         = (Ok tt, set_labels (<[name := l]> (labels S)) S, log).
Proof.
  intros HC HL Hcur. apply refresh_sheet_ui_ok; [by apply consistent_insert_label|done|done].
Qed.

Lemma apply_label_changes_run (entryA entryB : pystr) (S : AppState value) name hA hB :
  consistent S → listed S → cursor_in_range S → has_data S = true →
  py_index (sheets S) (idx S) = Ok name → headers S !! name = Some (hA, hB) →
  ∃ log,
    run (apply_label_changes isna py_str os_path_basename entryA entryB) S
    = (Ok tt,
       set_labels (<[name := (label_or entryA hA, label_or entryB hB)]> (labels S)) S,
       log).
Proof.
  intros HC HL Hcur Hdata Hname Hh.
  destruct (set_labels_ok S name (label_or entryA hA, label_or entryB hB) HC HL Hcur)
    as [log Hlog].
  exists log. apply wp_eq. unfold apply_label_changes.
  apply wp_bind, wp_get. cbn beta iota. rewrite Hdata. cbn [negb].
  apply wp_bind, wp_lift. rewrite Hname. cbn beta iota.
  assert (∀ entry (proj : pystr * pystr → pystr)
            (Q : outcome pystr → AppState value → list event → Prop),
            Q (Ok (label_or entry (proj (hA, hB)))) S [] →
            wp (strip_or entry (h ← lift (py_getitem (headers S) name); mret (proj h))) Q S)
    as Hstrip.
  { intros entry proj Q HQ. unfold strip_or, label_or in *. destruct (strip entry).
    - apply wp_bind, wp_lift. unfold py_getitem. rewrite Hh. cbn beta iota. by apply wp_ret.
    - by apply wp_ret. }
  apply wp_bind, (Hstrip entryA fst). cbn beta iota.
  apply wp_bind, (Hstrip entryB snd). cbn beta iota.
  apply wp_bind, wp_modify. cbn beta iota.
  eapply wp_run; [exact Hlog|]. done.
Qed.

(** X20: applying the label entries sets the label pair of the current
    worksheet, and of no other: each label is its entry without the white
    space around it, or the original header when nothing is left of the
    entry; so a label is empty only if the header is. *)
Theorem apply_label_changes_sets (entryA entryB : pystr) (S : AppState value) :
  reachable' S → has_data S = true → cursor_in_range S →
  ∃ name hA hB log,
    py_index (sheets S) (idx S) = Ok name ∧ headers S !! name = Some (hA, hB) ∧
    run (apply_label_changes isna py_str os_path_basename entryA entryB) S
    = (Ok tt,
       set_labels (<[name := (label_or entryA hA, label_or entryB hB)]> (labels S)) S,
       log) ∧
    label_or entryA hA ∈ [strip entryA; hA] ∧ label_or entryB hB ∈ [strip entryB; hB] ∧
    (hA ≠ [] → label_or entryA hA ≠ []) ∧ (hB ≠ [] → label_or entryB hB ≠ []).
Proof.
  intros HS Hdata Hcur.
  destruct (reachable_current S HS Hdata Hcur)
    as (HC & HL & Hne & name & [hA hB] & Hname & Hin & Hh).
  destruct (apply_label_changes_run entryA entryB S name hA hB HC HL Hcur Hdata Hname Hh)
    as [log Hlog].
  exists name, hA, hB, log. split_and!; [done..| | | |].
  - unfold label_or. destruct (strip entryA); [right; left|left].
  - unfold label_or. destruct (strip entryB); [right; left|left].
  - unfold label_or. by destruct (strip entryA).
  - unfold label_or. by destruct (strip entryB).
Qed.

(** X21: resetting sets the label pair of the current worksheet to its
    original headers; applying two blank entries does the same; and a reset
    after any applied entries gives the state of a reset alone. *)
Theorem reset_labels_restores (S : AppState value) :
  reachable' S → has_data S = true → cursor_in_range S →
  ∃ name h log,
    py_index (sheets S) (idx S) = Ok name ∧ headers S !! name = Some h ∧
    run (reset_labels_to_headers isna py_str os_path_basename) S
    = (Ok tt, set_labels (<[name := h]> (labels S)) S, log) ∧
    (∀ entryA entryB,
       strip entryA = [] → strip entryB = [] →
       state_after' (CbApplyLabels entryA entryB) S
       = set_labels (<[name := h]> (labels S)) S) ∧
    (∀ entryA entryB,
       state_after' CbResetLabels (state_after' (CbApplyLabels entryA entryB) S)
       = set_labels (<[name := h]> (labels S)) S).
Proof.
  intros HS Hdata Hcur.
  destruct (reachable_current S HS Hdata Hcur)
    as (HC & HL & Hne & name & [hA hB] & Hname & Hin & Hh).
  destruct (set_labels_ok S name (hA, hB) HC HL Hcur) as [log Hlog].
  assert (∀ S1 : AppState value,
            has_data S1 = true → py_index (sheets S1) (idx S1) = Ok name →
            headers S1 !! name = Some (hA, hB) →
            (∃ log1, run refresh_sheet_ui' (set_labels (<[name := (hA, hB)]> (labels S1)) S1)
                     = (Ok tt, set_labels (<[name := (hA, hB)]> (labels S1)) S1, log1)) →
            (run (reset_labels_to_headers isna py_str os_path_basename) S1).1.2
            = set_labels (<[name := (hA, hB)]> (labels S1)) S1) as Hreset.
  { intros S1 Hd1 Hn1 Hh1 [log1 Hl1].
    enough (wp (reset_labels_to_headers isna py_str os_path_basename)
              (λ _ S' _, S' = set_labels (<[name := (hA, hB)]> (labels S1)) S1) S1) as H by done.
    unfold reset_labels_to_headers.
    apply wp_bind, wp_get. cbn beta iota. rewrite Hd1. cbn [negb].
    apply wp_bind, wp_lift. rewrite Hn1. cbn beta iota.
    apply wp_bind, wp_lift. unfold py_getitem. rewrite Hh1. cbn beta iota.
    apply wp_bind, wp_modify. cbn beta iota.
    eapply wp_run; [exact Hl1|]. done. }
  exists name, (hA, hB), log. split_and!; [done..| | |].
  - apply wp_eq. unfold reset_labels_to_headers.
    apply wp_bind, wp_get. cbn beta iota. rewrite Hdata. cbn [negb].
    apply wp_bind, wp_lift. rewrite Hname. cbn beta iota.
    apply wp_bind, wp_lift. unfold py_getitem. rewrite Hh. cbn beta iota.
    apply wp_bind, wp_modify. cbn beta iota.
    eapply wp_run; [exact Hlog|]. done.
  - intros entryA entryB HA HB.
    destruct (apply_label_changes_run entryA entryB S name hA hB HC HL Hcur Hdata Hname Hh)
      as (log' & Hrun).
    unfold state_after. cbn [run_callback]. rewrite Hrun. cbn [fst snd].
    unfold label_or. by rewrite HA, HB.
  - intros entryA entryB.
    destruct (apply_label_changes_run entryA entryB S name hA hB HC HL Hcur Hdata Hname Hh)
      as (log' & Hrun).
    unfold state_after at 2. cbn [run_callback]. rewrite Hrun. cbn [fst snd].
    unfold state_after. cbn [run_callback]. rewrite Hreset; cbn; try done.
    + by rewrite insert_insert_eq.
    + apply set_labels_ok; [by apply consistent_insert_label|done|done].
Qed.
End Labels.

Section Loading.
Context {value : Type} (isna : value → bool) (py_str : value → pystr).
Variable is_alnum : N → bool.
Variable os_path_dirname os_path_basename : pystr → pystr.
Variable os_path_join : pystr → pystr → pystr.

#[local] Abbreviation run_callback' :=
  (run_callback isna py_str is_alnum os_path_dirname os_path_basename os_path_join).
#[local] Abbreviation state_after' :=
  (state_after isna py_str is_alnum os_path_dirname os_path_basename os_path_join).
#[local] Abbreviation reachable' :=
  (reachable isna py_str is_alnum os_path_dirname os_path_basename os_path_join).
#[local] Abbreviation refresh_sheet_ui' := (refresh_sheet_ui isna py_str os_path_basename).
#[local] Abbreviation load_workbook' := (load_workbook isna py_str os_path_basename).
#[local] Abbreviation save_loop' := (save_loop isna py_str is_alnum os_path_join).
#[local] Abbreviation save_all_sheets' :=
  (save_all_sheets isna py_str is_alnum os_path_dirname os_path_join).
#[local] Abbreviation save_current_sheet' :=
  (save_current_sheet isna py_str is_alnum os_path_dirname os_path_join).
#[local] Abbreviation written_for' := (written_for isna py_str is_alnum os_path_join).
#[local] Abbreviation loaded_from' := (loaded_from py_str).

(** X14: before any worksheet is loaded, the buttons that work on the
    current worksheet or on the list (apply, reset, previous, next, save,
    save all) do nothing: no change of state, no message, no file. *)
Theorem no_data_no_effect cb (S : AppState value) :
  needs_data cb = true → has_data S = false →
  run (run_callback' cb) S = (Ok tt, S, []).
Proof.
  intros Hcb Hdata. destruct cb; try done; cbn [run_callback];
    apply wp_eq; apply wp_bind, wp_get; cbn beta iota; rewrite Hdata; by apply wp_ret.
Qed.

(** X22: two numbers that pass the test become the opacity and the label
    height of the session; nothing else changes. *)
Theorem update_alpha_labely_accepted (a ly : float) (S : AppState value) :
  style_checked a ly = true →
  state_after' (CbUpdateAlphaLabely (Ok a) (Ok ly)) S = set_label_y ly (set_alpha a S).
Proof.
  intros Hok. unfold style_checked in Hok.
  apply andb_true_iff in Hok as [Ha Hly]. apply negb_true_iff in Hly.
  enough (wp (update_alpha_labely isna py_str os_path_basename (Ok a) (Ok ly))
            (λ _ S' _, S' = set_label_y ly (set_alpha a S)) S) as H by done.
  unfold update_alpha_labely. apply wp_try_except.
  apply wp_bind, wp_lift. cbn beta iota. apply wp_bind, wp_lift. cbn beta iota.
  rewrite Ha, Hly. cbn [negb]. apply wp_bind, wp_ret. cbn beta iota.
  apply wp_bind, wp_ret. cbn beta iota.
  apply wp_bind, wp_modify. cbn beta iota. apply wp_bind, wp_modify. cbn beta iota.
  eapply wp_mono; [apply refresh_sheet_ui_state|]. cbn beta.
  intros [[]|e] S' ev ->; [done|]. by apply wp_emit.
Qed.

(** A colour that was picked becomes the colour of its set, and nothing
    else changes; a cancelled dialog changes nothing. *)
Lemma pick_color_sets (c : option pystr) (S : AppState value) :
  state_after' (CbPickColorA c) S
  = match c with Some ((_ :: _) as c) => set_colorA c S | _ => S end ∧
  state_after' (CbPickColorB c) S
  = match c with Some ((_ :: _) as c) => set_colorB c S | _ => S end.
Proof.
  split.
  - enough (wp (pick_colorA isna py_str os_path_basename c)
              (λ _ S' _, S' = match c with Some ((_ :: _) as c) => set_colorA c S | _ => S end) S)
      as H by done.
    unfold pick_colorA. destruct c as [[|x c]|]; [by apply wp_ret| |by apply wp_ret].
    apply wp_bind, wp_modify. cbn beta iota. apply wp_bind, wp_emit. cbn beta iota.
    eapply wp_mono; [apply refresh_sheet_ui_state|]. by intros ? ? ? ->.
  - enough (wp (pick_colorB isna py_str os_path_basename c)
              (λ _ S' _, S' = match c with Some ((_ :: _) as c) => set_colorB c S | _ => S end) S)
      as H by done.
    unfold pick_colorB. destruct c as [[|x c]|]; [by apply wp_ret| |by apply wp_ret].
    apply wp_bind, wp_modify. cbn beta iota. apply wp_bind, wp_emit. cbn beta iota.
    eapply wp_mono; [apply refresh_sheet_ui_state|]. by intros ? ? ? ->.
Qed.

(** *** A completed load *)

(** The loop over worksheets that all parse records the usable ones, in
    order, after those recorded before. *)
Lemma for_each_load_sheet_loaded (wb : Workbook value) names (S : AppState value) :
  (∀ name, name ∈ names → ∃ df, parse wb name = Ok df) →
  (∀ name, name ∈ sheets S → loaded_from' wb S name) →
  wp (for_each names (load_sheet py_str wb))
     (λ r S' ev, r = Ok tt ∧ ev = [] ∧
                 sheets S' = sheets S ++ List.filter (usable wb) names ∧
                 (∀ name, name ∈ sheets S' → loaded_from' wb S' name) ∧
                 same_style S S') S.
Proof.
  revert S; induction names as [|name names IH]; intros S Hnames HS; cbn [for_each].
  { apply wp_ret. rewrite app_nil_r. by split_and!. }
  destruct (Hnames name) as (df & Hdf); [left|].
  assert (∀ name' : pystr, name' ∈ names → ∃ df, parse wb name' = Ok df) as Hnames'
    by (intros; apply Hnames; by right).
  apply wp_bind. unfold load_sheet at 1. apply wp_bind, wp_lift. rewrite Hdf. cbn beta iota.
  cbn [List.filter]. unfold usable at 1. rewrite Hdf.
  destruct (2 <=? ncols df)%nat eqn:Hcols.
  - apply Nat.leb_le in Hcols.
    destruct (column_label_two df Hcols) as (c0 & c1 & Hc0 & Hc1). rewrite Hc0, Hc1.
    wp_auto. eapply wp_mono.
    + apply IH; [done|]. cbn. intros name' Hin.
      destruct (decide (name' = name)) as [->|Hne].
      * exists df, c0, c1. cbn [dfs headers labels set_labels set_headers set_dfs set_sheets].
        by rewrite !lookup_insert_eq.
      * apply elem_of_app in Hin as [Hin|Hin%list_elem_of_singleton]; [|done].
        destruct (HS name' Hin) as (df' & c0' & c1' & ? & ? & ? & ? & ? & ? & ?).
        exists df', c0', c1'. cbn [dfs headers labels set_labels set_headers set_dfs set_sheets].
        by rewrite !lookup_insert_ne.
    + cbn. intros r S' ev (-> & -> & Hs & Hl & Hst). split_and!; [done..| |done|done].
      by rewrite Hs, <-app_assoc.
  - apply wp_ret. eapply wp_mono; [by apply IH|].
    cbn. by intros r S' ev (-> & -> & Hs & Hl & Hst).
Qed.

(** X15: a load whose worksheets all parse replaces the session: the
    list holds, in the order of the workbook, the worksheets with at least
    two columns; each has its data, and the text of its two first column
    labels as original headers and as labels; the path is the new one; the
    cursor is on the first worksheet, unless none was kept; colours, opacity
    and label height are kept. *)
Theorem load_workbook_loaded (path : pystr) (wb : Workbook value) (S : AppState value) :
  path ≠ [] →
  (∀ name, name ∈ sheet_names wb → ∃ df, parse wb name = Ok df) →
  let S' := state_after' (CbLoadWorkbook path (Ok wb)) S in
  sheets S' = List.filter (usable wb) (sheet_names wb) ∧
  (∀ name, name ∈ sheets S' →
     ∃ df c0 c1,
       parse wb name = Ok df ∧ (2 ≤ ncols df)%nat ∧
       column_label df 0 = Ok c0 ∧ column_label df 1 = Ok c1 ∧
       dfs S' !! name = Some df ∧
       headers S' !! name = Some (py_str c0, py_str c1) ∧
       labels S' !! name = Some (py_str c0, py_str c1)) ∧
  wb_path S' = Some path ∧
  idx S' = (if bool_decide (sheets S' = []) then idx S else 0%Z) ∧
  colorA S' = colorA S ∧ colorB S' = colorB S ∧ alpha S' = alpha S ∧ label_y S' = label_y S.
Proof.
  intros Hpath Hwb. cbn zeta.
  enough (wp (load_workbook' path (Ok wb))
            (λ _ S', λ _,
               sheets S' = List.filter (usable wb) (sheet_names wb) ∧
               (∀ name, name ∈ sheets S' → loaded_from' wb S' name) ∧
               wb_path S' = Some path ∧
               idx S' = (if bool_decide (sheets S' = []) then idx S else 0%Z) ∧
               colorA S' = colorA S ∧ colorB S' = colorB S ∧
               alpha S' = alpha S ∧ label_y S' = label_y S) S) as H by exact H.
  unfold load_workbook. destruct path as [|c path]; [done|].
  apply wp_try_except, wp_bind, wp_lift. cbn beta iota.
  do 5 (apply wp_bind, wp_modify; cbn beta iota). apply wp_bind.
  eapply wp_mono.
  { apply for_each_load_sheet_loaded; [done|]. cbn. by intros ? ?%elem_of_nil. }
  cbn beta. intros r S1 ev (-> & -> & Hs & Hl & Hi & Hw & HcA & HcB & Ha & Hy).
  cbn in Hs, Hi, Hw, HcA, HcB, Ha, Hy. cbn beta iota.
  apply wp_bind, wp_get. cbn beta iota.
  destruct (sheets S1) as [|n l] eqn:E.
  - apply wp_emit. rewrite E, <-Hs. split_and!; try done.
  - apply wp_bind, wp_modify. cbn beta iota. apply wp_bind.
    eapply wp_mono; [apply refresh_sheet_ui_state|]. cbn beta.
    assert (sheets (set_idx 0 S1) = List.filter (usable wb) (sheet_names wb) ∧
            (∀ name, name ∈ sheets (set_idx 0 S1) → loaded_from' wb (set_idx 0 S1) name) ∧
            wb_path (set_idx 0 S1) = Some (c :: path) ∧
            idx (set_idx 0 S1)
            = (if bool_decide (sheets (set_idx 0 S1) = []) then idx S else 0%Z) ∧
            colorA (set_idx 0 S1) = colorA S ∧ colorB (set_idx 0 S1) = colorB S ∧
            alpha (set_idx 0 S1) = alpha S ∧ label_y (set_idx 0 S1) = label_y S) as Hfinal.
    { cbn. rewrite E, <-Hs. split_and!; try done. }
    intros [[]|e] S2 ev ->; [by apply wp_emit|by apply wp_emit].
Qed.
End Loading.

Section Saving.
Context {value : Type} (isna : value → bool) (py_str : value → pystr).
Variable is_alnum : N → bool.
Variable os_path_dirname os_path_basename : pystr → pystr.
Variable os_path_join : pystr → pystr → pystr.

#[local] Abbreviation reachable' :=
  (reachable isna py_str is_alnum os_path_dirname os_path_basename os_path_join).
#[local] Abbreviation save_loop' := (save_loop isna py_str is_alnum os_path_join).
#[local] Abbreviation save_all_sheets' :=
  (save_all_sheets isna py_str is_alnum os_path_dirname os_path_join).
#[local] Abbreviation save_current_sheet' :=
  (save_current_sheet isna py_str is_alnum os_path_dirname os_path_join).
#[local] Abbreviation written_for' := (written_for isna py_str is_alnum os_path_join).
#[local] Abbreviation exported_for' := (exported_for isna py_str is_alnum os_path_join).

(** *** Saving the current worksheet *)

(** The two files of a worksheet are determined by the session, the time
    stamp and the directory. *)
Lemma written_for_unique (S : AppState value) ts bd name evs evs' :
  written_for' S ts bd name evs → written_for' S ts bd name evs' → evs = evs'.
Proof.
  intros (df & la & lb & colA & colB & setA & setB & uA & uB & sh & t
          & Hdf & Hlab & HA & HB & Hsets & Ht & ->)
         (df' & la' & lb' & colA' & colB' & setA' & setB' & uA' & uB' & sh' & t'
          & Hdf' & Hlab' & HA' & HB' & Hsets' & Ht' & ->).
  rewrite Hdf in Hdf'. injection Hdf' as <-.
  rewrite Hlab in Hlab'. injection Hlab' as <- <-.
  rewrite HA in HA'. injection HA' as <-. rewrite HB in HB'. injection HB' as <-.
  rewrite Hsets in Hsets'. injection Hsets' as <- <- <- <- <-.
  rewrite Ht in Ht'. injection Ht' as <-. reflexivity.
Qed.

(** X26: in a reachable session that holds worksheets, with the cursor in
    range and a file system that works, saving the current worksheet does
    not raise and leaves the session as it is; it creates the output
    directory, writes the image and the table of the current worksheet, the
    two files a batch with the same time stamp writes for it, and reports
    their two paths. *)
Theorem save_current_sheet_writes rt ts (S : AppState value) :
  reachable' S → has_data S = true → cursor_in_range S → fs_ok rt →
  ∃ name base_dir png d csv t,
    py_index (sheets S) (idx S) = Ok name ∧
    output_dir os_path_dirname os_path_join S = Ok base_dir ∧
    written_for' S ts base_dir name [SavePng png d; SaveCsv csv t] ∧
    run (save_current_sheet' rt ts) S
    = (Ok tt, S,
       [ MakeDirs base_dir; SavePng png d; SaveCsv csv t;
         ShowInfo (py "Saved")
           (py "Saved PNG:" ++ nl ++ png ++ nl ++ nl ++ py "Saved CSV:" ++ nl ++ csv) ]).
Proof.
  intros HS Hdata Hcur (Hdir & Hfig & Hcsv).
  destruct (reachable_current _ _ _ _ _ _ S HS Hdata Hcur) as (HC & HL & Hne & _).
  destruct (current_sheet S HC Hcur Hne)
    as (name & df & la & lb & colA & colB & Hname & _ & Hdf & Hlab & HA & HB).
  destruct (proj2 HC Hdata) as [path Hp].
  destruct (compute_sets isna py_str colA colB) as [[[[setA setB] uA] uB] sh] eqn:Hsets.
  destruct (to_results_df_ok la lb uA uB sh) as [t Ht].
  eexists name, _, _, _, _, t. split_and!; [done| | |].
  - unfold output_dir. by rewrite Hp.
  - by eexists df, la, lb, colA, colB, setA, setB, uA, uB, sh, t.
  - apply wp_eq. unfold save_current_sheet.
    apply wp_bind, wp_get. cbn beta iota. rewrite Hdata. cbn [negb].
    apply wp_bind, wp_lift. rewrite Hname. cbn beta iota.
    apply wp_bind, wp_lift. unfold py_getitem at 1. rewrite Hdf. cbn beta iota.
    apply wp_bind, wp_lift. unfold py_getitem at 1. rewrite Hlab. cbn beta iota.
    apply wp_bind, wp_lift. rewrite HA. cbn beta iota.
    apply wp_bind, wp_lift. rewrite HB. cbn beta iota. rewrite Hsets.
    apply wp_bind, wp_lift. unfold output_dir. rewrite Hp. cbn beta iota.
    apply wp_bind, wp_extern. rewrite Hdir. cbn beta iota.
    apply wp_bind, wp_extern. rewrite Hfig. cbn beta iota.
    apply wp_bind, wp_lift. rewrite Ht. cbn beta iota.
    apply wp_bind, wp_extern. rewrite Hcsv. cbn beta iota.
    apply wp_emit. split_and!; reflexivity.
Qed.

(** *** The batch export *)

(** With a writer, the loop writes the two files of every worksheet, adds
    its table to the combined workbook unless [to_excel] raises, and counts
    it in both cases. *)
Lemma save_loop_writer rt ts bd names done (S : AppState value) :
  fs_ok rt →
  (∀ name, name ∈ names →
     ∃ df la lb, dfs S !! name = Some df ∧ (2 ≤ ncols df)%nat ∧
                 labels S !! name = Some (la, lb)) →
  wp (save_loop' rt ts bd true names done)
     (λ r S' ev, r = Ok (done + length names)%nat ∧ S' = S ∧
                 ∃ per_sheet,
                   length per_sheet = length names ∧
                   (∀ i name, names !! i = Some name →
                      ∃ evs, per_sheet !! i = Some evs ∧
                             exported_for' rt S ts bd (done + i) name evs) ∧
                   ev = concat per_sheet) S.
Proof.
  intros (_ & Hfig & Hcsv). revert done.
  induction names as [|name names IH]; intros done Hnames; cbn [save_loop].
  { apply wp_ret. rewrite Nat.add_0_r. split_and!; [done..|]. exists []. by split_and!. }
  destruct (Hnames name) as (df & la & lb & Hdf & Hcols & Hlab); [left|].
  destruct (iloc_col_two df Hcols) as (colA & colB & HA & HB).
  destruct (compute_sets isna py_str colA colB) as [[[[setA setB] uA] uB] sh] eqn:Hsets.
  destruct (to_results_df_ok la lb uA uB sh) as [t Ht].
  apply wp_bind, wp_get. cbn beta iota.
  apply wp_bind, wp_lift. unfold py_getitem at 1. rewrite Hdf. cbn beta iota.
  replace (ncols df <? 2)%nat with false by (symmetry; apply Nat.ltb_ge; lia).
  apply wp_bind, wp_lift. unfold py_getitem at 1. rewrite Hlab. cbn beta iota.
  apply wp_bind, wp_lift. rewrite HA. cbn beta iota.
  apply wp_bind, wp_lift. rewrite HB. cbn beta iota. rewrite Hsets.
  apply wp_bind, wp_extern. rewrite Hfig. cbn beta iota.
  apply wp_bind, wp_lift. rewrite Ht. cbn beta iota.
  apply wp_bind, wp_extern. rewrite Hcsv. cbn beta iota.
  set (png := os_path_join bd (file_stem is_alnum name la lb ts ++ py ".png")).
  set (csv := os_path_join bd (file_stem is_alnum name la lb ts ++ py ".csv")).
  set (d := draw_symmetric setA setB la lb (colorA S) (colorB S) (alpha S) (label_y S)).
  set (sheet := if to_excel_ok rt done (safe_sheet is_alnum name done)
                then [ToExcel (safe_sheet is_alnum name done) t] else []).
  assert (exported_for' rt S ts bd done name ([SavePng png d; SaveCsv csv t] ++ sheet)) as Hexp.
  { exists png, d, csv, t. split; [|done].
    by eexists df, la, lb, colA, colB, setA, setB, uA, uB, sh, t. }
  assert (wp (save_loop' rt ts bd true names (done + 1))
            (λ r S' ev, r = Ok (done + length (name :: names))%nat ∧ S' = S ∧
               ∃ per_sheet,
                 length per_sheet = length (name :: names) ∧
                 (∀ i name', (name :: names) !! i = Some name' →
                    ∃ evs, per_sheet !! i = Some evs ∧
                           exported_for' rt S ts bd (done + i) name' evs) ∧
                 ([SavePng png d; SaveCsv csv t] ++ sheet) ++ ev = concat per_sheet) S) as Hrest.
  { eapply wp_mono; [apply IH; intros; apply Hnames; by right|].
    cbn beta. intros r S' ev (-> & -> & per_sheet & Hlen & Hper & ->).
    split_and!; [f_equal; simpl; lia|done|].
    exists (([SavePng png d; SaveCsv csv t] ++ sheet) :: per_sheet).
    split_and!; [by rewrite !length_cons, Hlen| |done].
    intros [|i] name' Hi.
    - injection Hi as <-. rewrite Nat.add_0_r. by eexists.
    - destruct (Hper i name' Hi) as (evs & Hevs & Hx). exists evs. split; [done|].
      by replace (done + Datatypes.S i)%nat with (done + 1 + i)%nat by lia. }
  apply wp_bind, wp_try_except, wp_extern. subst sheet.
  destruct (to_excel_ok rt done (safe_sheet is_alnum name done)).
  - cbn beta iota. eapply wp_mono; [exact Hrest|]. cbn beta.
    intros r S' ev (-> & -> & per_sheet & ? & ? & Hev). split_and!; [done..|].
    exists per_sheet. split_and!; [done..|]. rewrite <-Hev. by rewrite <-!app_assoc.
  - apply wp_ret. cbn beta iota. eapply wp_mono; [exact Hrest|]. cbn beta.
    intros r S' ev (-> & -> & per_sheet & ? & ? & Hev). split_and!; [done..|].
    exists per_sheet. split_and!; [done..|]. rewrite <-Hev. by rewrite <-!app_assoc.
Qed.

(** X27: when the combined workbook is asked for and its writer is
    obtained, the batch does not raise and leaves the session as it is;
    after the directory and the writer it logs, for every worksheet of the
    list in turn, its two files and then its table in the combined
    workbook, unless [to_excel] raised for it, which is passed over in
    silence; it then closes the writer and reports all the worksheets of
    the list, those left out of the workbook included; when closing raises,
    the only message is the warning, although every image and table was
    written. *)
Theorem save_all_sheets_combined rt ts (S : AppState value) :
  reachable' S → has_data S = true → fs_ok rt → (∀ p, excel_writer_ok rt p = true) →
  ∃ base_dir per_sheet,
    let xlsx_path := os_path_join base_dir (py "venn_batch_results_" ++ ts ++ py ".xlsx") in
    output_dir os_path_dirname os_path_join S = Ok base_dir ∧
    length per_sheet = length (sheets S) ∧
    (∀ i name, sheets S !! i = Some name →
       ∃ evs, per_sheet !! i = Some evs ∧ exported_for' rt S ts base_dir i name evs) ∧
    run (save_all_sheets' rt ts 1) S
    = (Ok tt, S,
       [MakeDirs base_dir; OpenWriter xlsx_path] ++ concat per_sheet
       ++ (if writer_close_ok rt
           then [ CloseWriter;
                  ShowInfo (py "Saved")
                    (py "Saved " ++ str_of_nat (length (sheets S)) ++ py " sheet(s)." ++ nl
                       ++ py "Combined workbook:" ++ nl ++ xlsx_path) ]
           else [ ShowWarning (py "Combined Excel")
                    (py "Failed to finalize combined workbook.") ])).
Proof.
  intros [Hsheets Hpath]%reachable_consistent Hdata Hfs Hwriter.
  destruct (Hpath Hdata) as [path Hp].
  pose (base_dir := os_path_join (os_path_dirname path) (py "Venn_Outputs")).
  pose (xlsx_path := os_path_join base_dir (py "venn_batch_results_" ++ ts ++ py ".xlsx")).
  assert (wp (save_all_sheets' rt ts 1)
            (λ r S' ev, r = Ok tt ∧ S' = S ∧
               ∃ per_sheet,
                 length per_sheet = length (sheets S) ∧
                 (∀ i name, sheets S !! i = Some name →
                    ∃ evs, per_sheet !! i = Some evs ∧
                           exported_for' rt S ts base_dir i name evs) ∧
                 ev = [MakeDirs base_dir; OpenWriter xlsx_path] ++ concat per_sheet
                      ++ (if writer_close_ok rt
                          then [ CloseWriter;
                                 ShowInfo (py "Saved")
                                   (py "Saved " ++ str_of_nat (length (sheets S))
                                      ++ py " sheet(s)." ++ nl
                                      ++ py "Combined workbook:" ++ nl ++ xlsx_path) ]
                          else [ ShowWarning (py "Combined Excel")
                                   (py "Failed to finalize combined workbook.") ])) S) as Hwp.
  { unfold save_all_sheets. apply wp_bind, wp_get. cbn beta iota. rewrite Hdata.
    cbn [negb]. apply wp_bind, wp_lift. unfold output_dir. rewrite Hp. fold base_dir.
    cbn beta iota. apply wp_bind, wp_extern. rewrite (proj1 Hfs). cbn beta iota.
    apply wp_bind. cbn [Z.eqb Pos.eqb]. apply wp_try_except, wp_bind, wp_extern.
    rewrite Hwriter. cbn beta iota. apply wp_ret. cbn beta iota. apply wp_bind.
    eapply wp_mono; [by apply save_loop_writer|].
    cbn beta. intros r S' ev (-> & -> & per_sheet & Hlen & Hper & ->). cbn beta iota.
    apply wp_try_except, wp_bind, wp_extern. fold xlsx_path.
    destruct (writer_close_ok rt).
    - cbn beta iota. apply wp_emit. split_and!; [done..|]. exists per_sheet.
      split_and!; [done..|]. by rewrite <-!app_assoc.
    - apply wp_emit. split_and!; [done..|]. exists per_sheet.
      split_and!; [done..|]. by rewrite <-!app_assoc. }
  unfold wp in Hwp. destruct (run _ S) as [[r S'] ev]. cbn [fst snd] in Hwp.
  destruct Hwp as (-> & -> & per_sheet & Hlen & Hper & ->).
  exists base_dir, per_sheet. cbn zeta. split_and!; [|done..].
  unfold output_dir. by rewrite Hp.
Qed.

(** X28: when the check box is not set, the batch makes no attempt at a
    combined workbook, available or not: it creates the directory, writes
    the two files of every worksheet of the list in turn, and reports their
    number and the directory, without a warning. *)
Theorem save_all_sheets_unchecked rt ts (combined_var : Z) (S : AppState value) :
  reachable' S → has_data S = true → fs_ok rt → combined_var ≠ 1%Z →
  ∃ base_dir per_sheet,
    output_dir os_path_dirname os_path_join S = Ok base_dir ∧
    Forall2 (written_for' S ts base_dir) (sheets S) per_sheet ∧
    run (save_all_sheets' rt ts combined_var) S
    = (Ok tt, S,
       MakeDirs base_dir :: concat per_sheet
       ++ [ ShowInfo (py "Saved")
              (py "Saved " ++ str_of_nat (length (sheets S))
                 ++ py " sheet(s) PNG+CSV in:" ++ nl ++ base_dir) ]).
Proof.
  intros [Hsheets Hpath]%reachable_consistent Hdata Hfs Hc.
  destruct (Hpath Hdata) as [path Hp].
  pose (base_dir := os_path_join (os_path_dirname path) (py "Venn_Outputs")).
  assert (wp (save_all_sheets' rt ts combined_var)
            (λ r S' ev, r = Ok tt ∧ S' = S ∧
               ∃ per_sheet, Forall2 (written_for' S ts base_dir) (sheets S) per_sheet ∧
                 ev = MakeDirs base_dir :: concat per_sheet
                      ++ [ ShowInfo (py "Saved")
                             (py "Saved " ++ str_of_nat (length (sheets S))
                                ++ py " sheet(s) PNG+CSV in:" ++ nl ++ base_dir) ]) S) as Hwp.
  { unfold save_all_sheets. apply wp_bind, wp_get. cbn beta iota. rewrite Hdata.
    cbn [negb]. apply wp_bind, wp_lift. unfold output_dir. rewrite Hp. fold base_dir.
    cbn beta iota. apply wp_bind, wp_extern. rewrite (proj1 Hfs). cbn beta iota.
    apply wp_bind. rewrite (proj2 (Z.eqb_neq _ _) Hc). apply wp_ret. cbn beta iota.
    apply wp_bind.
    eapply wp_mono; [by apply save_loop_no_writer|].
    cbn beta. intros r S' ev (-> & -> & per_sheet & Hper & ->). cbn beta iota.
    apply wp_emit. split_and!; [done..|]. by exists per_sheet. }
  unfold wp in Hwp. destruct (run _ S) as [[r S'] ev]. cbn [fst snd] in Hwp.
  destruct Hwp as (-> & -> & per_sheet & Hper & ->).
  exists base_dir, per_sheet. split_and!; [|done..].
  unfold output_dir. by rewrite Hp.
Qed.

(** *** Failures while saving *)

(** X29: when the output directory cannot be created, both exports raise
    before anything is written or shown, and leave the session as it
    is. *)
Theorem save_without_directory rt ts (combined_var : Z) (S : AppState value) :
  has_data S = true → (∀ p, makedirs_ok rt p = false) →
  (∃ e, run (save_current_sheet' rt ts) S = (Raise e, S, [])) ∧
  (∃ e, run (save_all_sheets' rt ts combined_var) S = (Raise e, S, [])).
Proof.
  intros Hdata Hdir.
  assert (∀ m : M value unit,
            wp m (λ r S' ev, (∃ e, r = Raise e) ∧ S' = S ∧ ev = []) S →
            ∃ e, run m S = (Raise e, S, [])) as Hwp.
  { intros m. unfold wp. destruct (run m S) as [[r S'] ev]. cbn.
    intros ([e ->] & -> & ->). by exists e. }
  split; apply Hwp.
  - unfold save_current_sheet. apply wp_bind, wp_get. cbn beta iota. rewrite Hdata.
    cbn [negb].
    repeat first
      [ apply wp_bind, wp_extern; rewrite Hdir; by eauto
      | wp_step; cbn beta iota
      | by eauto ].
  - unfold save_all_sheets. apply wp_bind, wp_get. cbn beta iota. rewrite Hdata.
    cbn [negb].
    repeat first
      [ apply wp_bind, wp_extern; rewrite Hdir; by eauto
      | wp_step; cbn beta iota
      | by eauto ].
Qed.

(** The loop reports nothing and does not close the writer. *)
Lemma save_loop_no_report rt ts bd writer names done (S : AppState value) :
  wp (save_loop' rt ts bd writer names done)
     (λ _ _ ev, List.filter is_report ev = []) S.
Proof.
  revert done; induction names as [|name names IH]; intros done; cbn [save_loop];
    repeat lazymatch goal with
      | |- wp (save_loop' _ _ _ _ _ _) _ _ =>
          eapply wp_mono; [apply IH|]; cbn beta; intros ? ? ? Hrest;
          rewrite ?List.filter_app, ?Hrest; reflexivity
      | |- _ = _ => reflexivity
      | |- _ => wp_step; cbn beta iota
      end.
Qed.

(** X30: a batch that raises has shown no [Saved] message and has not
    closed the combined workbook: a writer that was opened stays open. *)
Theorem save_all_sheets_raise_no_report rt ts (combined_var : Z) (S S' : AppState value)
    e log :
  run (save_all_sheets' rt ts combined_var) S = (Raise e, S', log) →
  List.filter is_report log = [].
Proof.
  intros Hrun.
  enough (wp (save_all_sheets' rt ts combined_var)
            (λ r _ ev, match r with Raise _ => List.filter is_report ev = [] | Ok _ => True end)
            S) as Hwp.
  { unfold wp in Hwp. by rewrite Hrun in Hwp. }
  clear Hrun. unfold save_all_sheets.
  repeat lazymatch goal with
    | |- wp (save_loop' _ _ _ _ _ _) _ _ =>
        eapply wp_mono; [apply save_loop_no_report|]; cbn beta; intros [?|?] ? ? Hloop;
        [|rewrite ?List.filter_app, ?Hloop; reflexivity]
    | |- _ = _ => reflexivity
    | |- True => exact I
    | |- _ => wp_step; cbn beta iota
    end.
Qed.
End Saving.

Section Agreement.
Context {value : Type} (isna : value → bool) (py_str : value → pystr).
Variable is_alnum : N → bool.
Variable os_path_dirname os_path_basename : pystr → pystr.
Variable os_path_join : pystr → pystr → pystr.

#[local] Abbreviation reachable' :=
  (reachable isna py_str is_alnum os_path_dirname os_path_basename os_path_join).
#[local] Abbreviation refresh_sheet_ui' := (refresh_sheet_ui isna py_str os_path_basename).
#[local] Abbreviation save_current_sheet' :=
  (save_current_sheet isna py_str is_alnum os_path_dirname os_path_join).

(** X4: in a reachable session that holds worksheets, with the cursor in
    range and a file system that works, the window and the files of the
    current worksheet agree: the image saved is the diagram drawn on the
    canvas; the three numbers of the preview line are the three counts
    written in that diagram, unique to A on the left, unique to B on the
    right and shared in the middle; and the table saved has as many rows as
    the largest of the three. *)
Theorem window_and_files_agree rt ts (S : AppState value) :
  reachable' S → has_data S = true → cursor_in_range S → fs_ok rt →
  ∃ nA nS nB d la lb file_text sheet_text output_text base_dir png csv t,
    run refresh_sheet_ui' S
    = (Ok tt, S,
       [ LabelFile file_text; LabelSheet sheet_text; EntryLabels la lb;
         LabelPreview (py "Preview " ++ [8212] ++ py " Unique A: " ++ str_of_nat nA
                         ++ py " | Shared: " ++ str_of_nat nS
                         ++ py " | Unique B: " ++ str_of_nat nB);
         CanvasDraw d; OutputBox output_text ]) ∧
    run (save_current_sheet' rt ts) S
    = (Ok tt, S,
       [ MakeDirs base_dir; SavePng png d; SaveCsv csv t;
         ShowInfo (py "Saved")
           (py "Saved PNG:" ++ nl ++ png ++ nl ++ nl ++ py "Saved CSV:" ++ nl ++ csv) ]) ∧
    Text (- 0.9 - 0.4) 0 (str_of_nat nA) false ∈ d ∧
    Text (0.9 + 0.4) 0 (str_of_nat nB) false ∈ d ∧
    Text 0 0 (str_of_nat nS) true ∈ d ∧
    rf_nrows t = Nat.max nA (Nat.max nB nS).
Proof.
  intros HS Hdata Hcur (Hdir & Hfig & Hcsv).
  destruct (reachable_current _ _ _ _ _ _ S HS Hdata Hcur) as (HC & HL & Hne & _).
  destruct (current_sheet S HC Hcur Hne)
    as (name & df & la & lb & colA & colB & Hname & _ & Hdf & Hlab & HA & HB).
  destruct (proj2 HC Hdata) as [path Hp].
  destruct (draw_symmetric_counts isna py_str colA colB la lb (colorA S) (colorB S)
              (alpha S) (label_y S)) as (setA & setB & uA & uB & sh & Hsets & Hd).
  destruct (to_results_df_nrows la lb uA uB sh) as (t & Ht & Hrows).
  eexists (length uA), (length sh), (length uB),
    (draw_symmetric setA setB la lb (colorA S) (colorB S) (alpha S) (label_y S)),
    la, lb, _, _, _, _, _, _, t.
  split_and!.
  - apply wp_eq. unfold refresh_sheet_ui.
    apply wp_bind, wp_get. cbn beta iota. rewrite Hdata. cbn [negb].
    apply wp_bind, wp_lift. rewrite Hname. cbn beta iota.
    apply wp_bind, wp_lift. unfold py_getitem at 1. rewrite Hdf. cbn beta iota.
    apply wp_bind, wp_lift. unfold py_getitem at 1. rewrite Hlab. cbn beta iota.
    do 3 (apply wp_bind, wp_emit; cbn beta iota).
    apply wp_bind, wp_lift. rewrite HA. cbn beta iota.
    apply wp_bind, wp_lift. rewrite HB. cbn beta iota. rewrite Hsets.
    do 2 (apply wp_bind, wp_emit; cbn beta iota).
    apply wp_emit. split_and!; reflexivity.
  - apply wp_eq. unfold save_current_sheet.
    apply wp_bind, wp_get. cbn beta iota. rewrite Hdata. cbn [negb].
    apply wp_bind, wp_lift. rewrite Hname. cbn beta iota.
    apply wp_bind, wp_lift. unfold py_getitem at 1. rewrite Hdf. cbn beta iota.
    apply wp_bind, wp_lift. unfold py_getitem at 1. rewrite Hlab. cbn beta iota.
    apply wp_bind, wp_lift. rewrite HA. cbn beta iota.
    apply wp_bind, wp_lift. rewrite HB. cbn beta iota. rewrite Hsets.
    apply wp_bind, wp_lift. unfold output_dir. rewrite Hp. cbn beta iota.
    apply wp_bind, wp_extern. rewrite Hdir. cbn beta iota.
    apply wp_bind, wp_extern. rewrite Hfig. cbn beta iota.
    apply wp_bind, wp_lift. rewrite Ht. cbn beta iota.
    apply wp_bind, wp_extern. rewrite Hcsv. cbn beta iota.
    apply wp_emit. split_and!; reflexivity.
  - rewrite Hd. do 4 right. left.
  - rewrite Hd. do 5 right. left.
  - rewrite Hd. do 6 right. left.
  - exact Hrows.
Qed.
End Agreement.

(** ** The further properties on the example sessions *)

(** The session of three worksheets can be reached, holds data, and has
    its cursor in range. *)
Ltac st_three_facts :=
  assert (reachable_app st_three) as Hreach
    by (exists [CbLoadWorkbook (py "/data/genes.xlsx") (Ok wb_three)]; reflexivity);
  assert (has_data st_three = true) as Hdata by (vm_compute; reflexivity);
  assert (cursor_in_range st_three) as Hcur
    by (intros _; vm_compute; split; [discriminate|reflexivity]).

Lemma reachable_session_shape_witness :
  reachable_app st_three ∧
  (∀ name, name ∈ sheets st_three ↔ is_Some (dfs st_three !! name)) ∧
  (∀ name, name ∈ sheets st_three →
     ∃ df la lb h, dfs st_three !! name = Some df ∧ (2 ≤ ncols df)%nat ∧
                   labels st_three !! name = Some (la, lb) ∧
                   headers st_three !! name = Some h) ∧
  (has_data st_three = true ↔ sheets st_three ≠ []) ∧
  (sheets st_three ≠ [] → is_Some (wb_path st_three)).
Proof.
  st_three_facts. split; [exact Hreach|].
  exact (reachable_session_shape pyval_isna pyval_str ascii_alnum posix_dirname posix_basename
           posix_join st_three Hreach).
Defined.

Lemma no_data_no_effect_witness :
  needs_data (CbSaveAll rt_no_openpyxl (py "20250101-120000") 1 : callback pyval) = true ∧
  has_data (AppState_init (value := pyval)) = false ∧
  run (run_cb (CbSaveAll rt_no_openpyxl (py "20250101-120000") 1)) AppState_init
  = (Ok tt, AppState_init, []).
Proof.
  split; [reflexivity|]. split; [reflexivity|].
  exact (no_data_no_effect pyval_isna pyval_str ascii_alnum posix_dirname posix_basename
           posix_join (CbSaveAll rt_no_openpyxl (py "20250101-120000") 1) AppState_init
           eq_refl eq_refl).
Defined.

Lemma load_workbook_loaded_witness :
  py "/data/mixed.xlsx" ≠ [] ∧
  (∀ name, name ∈ sheet_names wb_mixed → ∃ df, parse wb_mixed name = Ok df) ∧
  let S' := state_after_app (CbLoadWorkbook (py "/data/mixed.xlsx") (Ok wb_mixed)) st_three in
  sheets S' = List.filter (usable wb_mixed) (sheet_names wb_mixed) ∧
  (∀ name, name ∈ sheets S' →
     ∃ df c0 c1,
       parse wb_mixed name = Ok df ∧ (2 ≤ ncols df)%nat ∧
       column_label df 0 = Ok c0 ∧ column_label df 1 = Ok c1 ∧
       dfs S' !! name = Some df ∧
       headers S' !! name = Some (pyval_str c0, pyval_str c1) ∧
       labels S' !! name = Some (pyval_str c0, pyval_str c1)) ∧
  wb_path S' = Some (py "/data/mixed.xlsx") ∧
  idx S' = (if bool_decide (sheets S' = []) then idx st_three else 0%Z) ∧
  colorA S' = colorA st_three ∧ colorB S' = colorB st_three ∧
  alpha S' = alpha st_three ∧ label_y S' = label_y st_three.
Proof.
  assert (py "/data/mixed.xlsx" ≠ []) as H1 by discriminate.
  assert (∀ name, name ∈ sheet_names wb_mixed → ∃ df, parse wb_mixed name = Ok df) as H2.
  { intros name Hin. change (name ∈ [py "Notes"; py "Genes"; py "Empty"]) in Hin.
    rewrite !elem_of_cons, elem_of_nil in Hin.
    destruct Hin as [->|[->|[->|[]]]]; eexists; reflexivity. }
  split; [exact H1|]. split; [exact H2|].
  exact (load_workbook_loaded pyval_isna pyval_str ascii_alnum posix_dirname posix_basename
           posix_join (py "/data/mixed.xlsx") wb_mixed st_three H1 H2).
Defined.

Lemma load_workbook_unreadable_witness :
  py "/data/damaged.xlsx" ≠ [] ∧
  run (load_workbook pyval_isna pyval_str posix_basename (py "/data/damaged.xlsx")
         (Raise (Exn LibraryError (py "File is not a zip file")))) st_three
  = (Ok tt, st_three,
     [ShowError (py "Error loading workbook")
        (exn_msg (Exn LibraryError (py "File is not a zip file")))]).
Proof.
  assert (py "/data/damaged.xlsx" ≠ []) as H1 by discriminate.
  split; [exact H1|].
  exact (load_workbook_unreadable pyval_isna pyval_str posix_basename
           (py "/data/damaged.xlsx") (Exn LibraryError (py "File is not a zip file"))
           st_three H1).
Defined.

Lemma refresh_sheet_ui_draws_witness :
  consistent st_three ∧ cursor_in_range st_three ∧ sheets st_three ≠ [] ∧
  has_data st_three = true ∧
  ∃ name df la lb colA colB setA setB uA uB sh file_text sheet_text preview_text output_text,
    py_index (sheets st_three) (idx st_three) = Ok name ∧
    dfs st_three !! name = Some df ∧ labels st_three !! name = Some (la, lb) ∧
    iloc_col df 0 = Ok colA ∧ iloc_col df 1 = Ok colB ∧
    compute_sets pyval_isna pyval_str colA colB = (setA, setB, uA, uB, sh) ∧
    run (refresh_sheet_ui pyval_isna pyval_str posix_basename) st_three
    = (Ok tt, st_three,
       [ LabelFile file_text; LabelSheet sheet_text; EntryLabels la lb;
         LabelPreview preview_text;
         CanvasDraw (draw_symmetric setA setB la lb (colorA st_three) (colorB st_three)
                       (alpha st_three) (label_y st_three));
         OutputBox output_text ]).
Proof.
  st_three_facts.
  assert (consistent st_three) as Hcons
    by exact (reachable_consistent pyval_isna pyval_str ascii_alnum posix_dirname
                posix_basename posix_join st_three Hreach).
  assert (sheets st_three ≠ []) as Hne by (vm_compute; discriminate).
  split; [exact Hcons|]. split; [exact Hcur|]. split; [exact Hne|]. split; [exact Hdata|].
  exact (refresh_sheet_ui_draws pyval_isna pyval_str posix_basename st_three
           Hcons Hcur Hne Hdata).
Defined.

Lemma navigation_wraps_witness :
  reachable_app st_three ∧ has_data st_three = true ∧
  let n := Z.of_nat (length (sheets st_three)) in
  (∃ log, run (next_sheet pyval_isna pyval_str posix_basename) st_three
          = (Ok tt, set_idx ((idx st_three + 1) `mod` n)%Z st_three, log)) ∧
  (∃ log, run (prev_sheet pyval_isna pyval_str posix_basename) st_three
          = (Ok tt, set_idx ((idx st_three - 1) `mod` n)%Z st_three, log)) ∧
  (0 ≤ (idx st_three + 1) `mod` n < n)%Z ∧ (0 ≤ (idx st_three - 1) `mod` n < n)%Z.
Proof.
  st_three_facts. split; [exact Hreach|]. split; [exact Hdata|].
  exact (navigation_wraps pyval_isna pyval_str ascii_alnum posix_dirname posix_basename
           posix_join st_three Hreach Hdata).
Defined.

Lemma next_prev_inverse_witness :
  reachable_app st_three ∧ has_data st_three = true ∧ cursor_in_range st_three ∧
  state_after_app CbPrev (state_after_app CbNext st_three) = st_three ∧
  state_after_app CbNext (state_after_app CbPrev st_three) = st_three.
Proof.
  st_three_facts. split; [exact Hreach|]. split; [exact Hdata|]. split; [exact Hcur|].
  exact (next_prev_inverse pyval_isna pyval_str ascii_alnum posix_dirname posix_basename
           posix_join st_three Hreach Hdata Hcur).
Defined.

Lemma apply_label_changes_sets_witness :
  reachable_app st_three ∧ has_data st_three = true ∧ cursor_in_range st_three ∧
  ∃ name hA hB log,
    py_index (sheets st_three) (idx st_three) = Ok name ∧
    headers st_three !! name = Some (hA, hB) ∧
    run (apply_label_changes pyval_isna pyval_str posix_basename
           (py "  Wild type ") (py "   ")) st_three
    = (Ok tt,
       set_labels (<[name := (label_or (py "  Wild type ") hA, label_or (py "   ") hB)]>
                     (labels st_three)) st_three,
       log) ∧
    label_or (py "  Wild type ") hA ∈ [strip (py "  Wild type "); hA] ∧
    label_or (py "   ") hB ∈ [strip (py "   "); hB] ∧
    (hA ≠ [] → label_or (py "  Wild type ") hA ≠ []) ∧
    (hB ≠ [] → label_or (py "   ") hB ≠ []).
Proof.
  st_three_facts. split; [exact Hreach|]. split; [exact Hdata|]. split; [exact Hcur|].
  exact (apply_label_changes_sets pyval_isna pyval_str ascii_alnum posix_dirname posix_basename
           posix_join (py "  Wild type ") (py "   ") st_three Hreach Hdata Hcur).
Defined.

Lemma reset_labels_restores_witness :
  reachable_app st_three ∧ has_data st_three = true ∧ cursor_in_range st_three ∧
  ∃ name h log,
    py_index (sheets st_three) (idx st_three) = Ok name ∧
    headers st_three !! name = Some h ∧
    run (reset_labels_to_headers pyval_isna pyval_str posix_basename) st_three
    = (Ok tt, set_labels (<[name := h]> (labels st_three)) st_three, log) ∧
    (∀ entryA entryB,
       strip entryA = [] → strip entryB = [] →
       state_after_app (CbApplyLabels entryA entryB) st_three
       = set_labels (<[name := h]> (labels st_three)) st_three) ∧
    (∀ entryA entryB,
       state_after_app CbResetLabels (state_after_app (CbApplyLabels entryA entryB) st_three)
       = set_labels (<[name := h]> (labels st_three)) st_three).
Proof.
  st_three_facts. split; [exact Hreach|]. split; [exact Hdata|]. split; [exact Hcur|].
  exact (reset_labels_restores pyval_isna pyval_str ascii_alnum posix_dirname posix_basename
           posix_join st_three Hreach Hdata Hcur).
Defined.

Lemma update_alpha_labely_accepted_witness :
  style_checked 0.5 1.2 = true ∧
  state_after_app (CbUpdateAlphaLabely (Ok 0.5%float) (Ok 1.2%float)) st_three
  = set_label_y 1.2 (set_alpha 0.5 st_three).
Proof.
  assert (style_checked 0.5 1.2 = true) as H by reflexivity.
  split; [exact H|].
  exact (update_alpha_labely_accepted pyval_isna pyval_str ascii_alnum posix_dirname
           posix_basename posix_join 0.5%float 1.2%float st_three H).
Defined.

Lemma update_alpha_labely_rejected_witness :
  style_checked 1.5 1.2 = false ∧
  run (update_alpha_labely pyval_isna pyval_str posix_basename (Ok 1.5%float) (Ok 1.2%float))
    st_three
  = (Ok tt, st_three,
     [ShowError (py "Invalid values")
        (py "Alpha must be 0" ++ [8211] ++ py "1 and label height ~0.9" ++ [8211] ++ py "1.6")]).
Proof.
  assert (style_checked 1.5 1.2 = false) as H by reflexivity.
  split; [exact H|].
  exact (update_alpha_labely_rejected pyval_isna pyval_str posix_basename
           (Ok 1.5%float) (Ok 1.2%float) st_three H).
Defined.

Lemma reachable_style_checked_witness :
  reachable_app st_three ∧ style_checked (alpha st_three) (label_y st_three) = true.
Proof.
  st_three_facts. split; [exact Hreach|].
  exact (reachable_style_checked pyval_isna pyval_str ascii_alnum posix_dirname posix_basename
           posix_join st_three Hreach).
Defined.

Lemma run_session_cursor_witness :
  Forall parses_all
    [CbLoadWorkbook (py "/data/mixed.xlsx") (Ok wb_mixed); CbPrev; CbPrev] ∧
  cursor_in_range
    (session [CbLoadWorkbook (py "/data/mixed.xlsx") (Ok wb_mixed); CbPrev; CbPrev]
       AppState_init).
Proof.
  assert (Forall parses_all
            [CbLoadWorkbook (py "/data/mixed.xlsx") (Ok wb_mixed); CbPrev; CbPrev]) as H.
  { apply Forall_cons_2; [|repeat constructor].
    intros name Hin. change (name ∈ [py "Notes"; py "Genes"; py "Empty"]) in Hin.
    rewrite !elem_of_cons, elem_of_nil in Hin.
    destruct Hin as [->|[->|[->|[]]]]; eexists; reflexivity. }
  split; [exact H|].
  exact (run_session_cursor pyval_isna pyval_str ascii_alnum posix_dirname posix_basename
           posix_join _ H).
Defined.

Lemma save_current_sheet_writes_witness :
  reachable_app st_three ∧ has_data st_three = true ∧ cursor_in_range st_three ∧
  fs_ok rt_no_openpyxl ∧
  ∃ name base_dir png d csv t,
    py_index (sheets st_three) (idx st_three) = Ok name ∧
    output_dir posix_dirname posix_join st_three = Ok base_dir ∧
    written_for pyval_isna pyval_str ascii_alnum posix_join st_three (py "20250101-120000")
      base_dir name [SavePng png d; SaveCsv csv t] ∧
    run (save_current_sheet pyval_isna pyval_str ascii_alnum posix_dirname posix_join
           rt_no_openpyxl (py "20250101-120000")) st_three
    = (Ok tt, st_three,
       [ MakeDirs base_dir; SavePng png d; SaveCsv csv t;
         ShowInfo (py "Saved")
           (py "Saved PNG:" ++ nl ++ png ++ nl ++ nl ++ py "Saved CSV:" ++ nl ++ csv) ]).
Proof.
  st_three_facts.
  assert (fs_ok rt_no_openpyxl) as Hfs by (split_and!; intros p; reflexivity).
  split; [exact Hreach|]. split; [exact Hdata|]. split; [exact Hcur|]. split; [exact Hfs|].
  exact (save_current_sheet_writes pyval_isna pyval_str ascii_alnum posix_dirname
           posix_basename posix_join rt_no_openpyxl (py "20250101-120000") st_three
           Hreach Hdata Hcur Hfs).
Defined.

Lemma save_all_sheets_combined_witness :
  reachable_app st_three ∧ has_data st_three = true ∧ fs_ok rt_combined ∧
  (∀ p, excel_writer_ok rt_combined p = true) ∧
  ∃ base_dir per_sheet,
    let xlsx_path :=
      posix_join base_dir (py "venn_batch_results_" ++ py "20250101-120000" ++ py ".xlsx") in
    output_dir posix_dirname posix_join st_three = Ok base_dir ∧
    length per_sheet = length (sheets st_three) ∧
    (∀ i name, sheets st_three !! i = Some name →
       ∃ evs, per_sheet !! i = Some evs ∧
              exported_for pyval_isna pyval_str ascii_alnum posix_join rt_combined st_three
                (py "20250101-120000") base_dir i name evs) ∧
    run (save_all_sheets pyval_isna pyval_str ascii_alnum posix_dirname posix_join
           rt_combined (py "20250101-120000") 1) st_three
    = (Ok tt, st_three,
       [MakeDirs base_dir; OpenWriter xlsx_path] ++ concat per_sheet
       ++ (if writer_close_ok rt_combined
           then [ CloseWriter;
                  ShowInfo (py "Saved")
                    (py "Saved " ++ str_of_nat (length (sheets st_three))
                       ++ py " sheet(s)." ++ nl
                       ++ py "Combined workbook:" ++ nl ++ xlsx_path) ]
           else [ ShowWarning (py "Combined Excel")
                    (py "Failed to finalize combined workbook.") ])).
Proof.
  st_three_facts.
  assert (fs_ok rt_combined) as Hfs by (split_and!; intros p; reflexivity).
  assert (∀ p, excel_writer_ok rt_combined p = true) as Hw by (intros p; reflexivity).
  split; [exact Hreach|]. split; [exact Hdata|]. split; [exact Hfs|]. split; [exact Hw|].
  exact (save_all_sheets_combined pyval_isna pyval_str ascii_alnum posix_dirname
           posix_basename posix_join rt_combined (py "20250101-120000") st_three
           Hreach Hdata Hfs Hw).
Defined.

Lemma save_all_sheets_unchecked_witness :
  reachable_app st_three ∧ has_data st_three = true ∧ fs_ok rt_combined ∧ 0%Z ≠ 1%Z ∧
  ∃ base_dir per_sheet,
    output_dir posix_dirname posix_join st_three = Ok base_dir ∧
    Forall2 (written_for pyval_isna pyval_str ascii_alnum posix_join st_three
               (py "20250101-120000") base_dir) (sheets st_three) per_sheet ∧
    run (save_all_sheets pyval_isna pyval_str ascii_alnum posix_dirname posix_join
           rt_combined (py "20250101-120000") 0) st_three
    = (Ok tt, st_three,
       MakeDirs base_dir :: concat per_sheet
       ++ [ ShowInfo (py "Saved")
              (py "Saved " ++ str_of_nat (length (sheets st_three))
                 ++ py " sheet(s) PNG+CSV in:" ++ nl ++ base_dir) ]).
Proof.
  st_three_facts.
  assert (fs_ok rt_combined) as Hfs by (split_and!; intros p; reflexivity).
  assert (0%Z ≠ 1%Z) as Hc by discriminate.
  split; [exact Hreach|]. split; [exact Hdata|]. split; [exact Hfs|]. split; [exact Hc|].
  exact (save_all_sheets_unchecked pyval_isna pyval_str ascii_alnum posix_dirname
           posix_basename posix_join rt_combined (py "20250101-120000") 0 st_three
           Hreach Hdata Hfs Hc).
Defined.

Lemma save_without_directory_witness :
  has_data st_three = true ∧ (∀ p, makedirs_ok rt_read_only p = false) ∧
  (∃ e, run (save_current_sheet pyval_isna pyval_str ascii_alnum posix_dirname posix_join
               rt_read_only (py "20250101-120000")) st_three = (Raise e, st_three, [])) ∧
  (∃ e, run (save_all_sheets pyval_isna pyval_str ascii_alnum posix_dirname posix_join
               rt_read_only (py "20250101-120000") 1) st_three = (Raise e, st_three, [])).
Proof.
  assert (has_data st_three = true) as Hdata by (vm_compute; reflexivity).
  assert (∀ p, makedirs_ok rt_read_only p = false) as Hdir by (intros p; reflexivity).
  split; [exact Hdata|]. split; [exact Hdir|].
  exact (save_without_directory pyval_isna pyval_str ascii_alnum posix_dirname posix_join
           rt_read_only (py "20250101-120000") 1 st_three Hdata Hdir).
Defined.

Lemma save_all_sheets_raise_no_report_witness :
  run (save_all_sheets pyval_isna pyval_str ascii_alnum posix_dirname posix_join
         rt_disk_full (py "20250101-120000") 1) st_three
  = (Raise (Exn OSError (py "savefig")), st_three,
     [ MakeDirs (py "/data/Venn_Outputs");
       OpenWriter (py "/data/Venn_Outputs/venn_batch_results_20250101-120000.xlsx") ]) ∧
  List.filter is_report
    [ MakeDirs (py "/data/Venn_Outputs");
      OpenWriter (py "/data/Venn_Outputs/venn_batch_results_20250101-120000.xlsx") ] = [].
Proof.
  assert (run (save_all_sheets pyval_isna pyval_str ascii_alnum posix_dirname posix_join
                 rt_disk_full (py "20250101-120000") 1) st_three
          = (Raise (Exn OSError (py "savefig")), st_three,
             [ MakeDirs (py "/data/Venn_Outputs");
               OpenWriter (py "/data/Venn_Outputs/venn_batch_results_20250101-120000.xlsx") ]))
    as Hrun by (vm_compute; reflexivity).
  split; [exact Hrun|].
  exact (save_all_sheets_raise_no_report pyval_isna pyval_str ascii_alnum posix_dirname
           posix_join rt_disk_full (py "20250101-120000") 1 st_three st_three _ _ Hrun).
Defined.

Lemma window_and_files_agree_witness :
  reachable_app st_three ∧ has_data st_three = true ∧ cursor_in_range st_three ∧
  fs_ok rt_no_openpyxl ∧
  ∃ nA nS nB d la lb file_text sheet_text output_text base_dir png csv t,
    run (refresh_sheet_ui pyval_isna pyval_str posix_basename) st_three
    = (Ok tt, st_three,
       [ LabelFile file_text; LabelSheet sheet_text; EntryLabels la lb;
         LabelPreview (py "Preview " ++ [8212] ++ py " Unique A: " ++ str_of_nat nA
                         ++ py " | Shared: " ++ str_of_nat nS
                         ++ py " | Unique B: " ++ str_of_nat nB);
         CanvasDraw d; OutputBox output_text ]) ∧
    run (save_current_sheet pyval_isna pyval_str ascii_alnum posix_dirname posix_join
           rt_no_openpyxl (py "20250101-120000")) st_three
    = (Ok tt, st_three,
       [ MakeDirs base_dir; SavePng png d; SaveCsv csv t;
         ShowInfo (py "Saved")
           (py "Saved PNG:" ++ nl ++ png ++ nl ++ nl ++ py "Saved CSV:" ++ nl ++ csv) ]) ∧
    Text (- 0.9 - 0.4) 0 (str_of_nat nA) false ∈ d ∧
    Text (0.9 + 0.4) 0 (str_of_nat nB) false ∈ d ∧
    Text 0 0 (str_of_nat nS) true ∈ d ∧
    rf_nrows t = Nat.max nA (Nat.max nB nS).
Proof.
  st_three_facts.
  assert (fs_ok rt_no_openpyxl) as Hfs by (split_and!; intros p; reflexivity).
  split; [exact Hreach|]. split; [exact Hdata|]. split; [exact Hcur|]. split; [exact Hfs|].
  exact (window_and_files_agree pyval_isna pyval_str ascii_alnum posix_dirname
           posix_basename posix_join rt_no_openpyxl (py "20250101-120000") st_three
           Hreach Hdata Hcur Hfs).
Defined.
